(** * Complaint intake and access: a shallow embedding of the edge functions

  The development follows the two Supabase edge functions of the
  repository, [process-complaint] (intake, inference with static
  fallback, insert) and [manage-complaints] (list and update), the
  [complaints] table they write to as the SQL migrations declare it,
  and the row-level policies that govern the dashboards' direct table
  access.

  External collaborators are explicit inputs: the inference endpoint,
  identity resolution and the clocks are fields of a [World] record;
  the table is a list of rows threaded through every handler.  The
  database is modelled as far as the migrations and its types decide a
  request: the NOT NULL and [integer] columns, the strings a [text]
  column refuses, the row-level policies, and an order of rows that a
  query fixes only as far as its sort key goes ([Plan]). *)

From Stdlib Require Import List Bool ZArith NArith Lia String Ascii Sorted
  Permutation.
From Stdlib Require QArith.
Import ListNotations.

Set Implicit Arguments.

(* ================================================================== *)
(** ** ECMAScript values the handlers manipulate *)

Module JS.

(** A string is a sequence of UTF-16 code units. *)
Definition code_unit := N.
Definition jstring := list code_unit.

(** String literals of the source, written in ASCII. *)
Definition lit (s : string) : jstring :=
  map N_of_ascii (list_ascii_of_string s).

Definition jstring_eqb (a b : jstring) : bool :=
  if list_eq_dec N.eq_dec a b then true else false.

(** WhiteSpace and LineTerminator code points, the ones
    [String.prototype.trim] strips. *)
Definition isWhiteSpace (c : code_unit) : bool :=
  ((c =? 9) || (c =? 10) || (c =? 11) || (c =? 12) || (c =? 13)
   || (c =? 32) || (c =? 160) || (c =? 5760)
   || ((8192 <=? c) && (c <=? 8202))
   || (c =? 8232) || (c =? 8233) || (c =? 8239) || (c =? 8287)
   || (c =? 12288) || (c =? 65279))%N.

Fixpoint trimStart (s : jstring) : jstring :=
  match s with
  | [] => []
  | c :: t => if isWhiteSpace c then trimStart t else s
  end.

Definition trimEnd (s : jstring) : jstring := rev (trimStart (rev s)).

Definition trim (s : jstring) : jstring := trimEnd (trimStart s).

Fixpoint startsWith (s p : jstring) : bool :=
  match p with
  | [] => true
  | c :: p' =>
      match s with
      | [] => false
      | d :: s' => (d =? c)%N && startsWith s' p'
      end
  end.

(** [s.replace(pat, rep)] with a string pattern: the first occurrence only. *)
Fixpoint replace (s pat rep : jstring) : jstring :=
  match s with
  | [] => match pat with [] => rep | _ :: _ => [] end
  | c :: t =>
      if startsWith s pat then rep ++ skipn (List.length pat) s
      else c :: replace t pat rep
  end.

(** A property of a parsed JSON object whose value, when present, has
    type [A]: the key may be absent ([undefined]) or hold [null]. *)
Inductive field (A : Type) : Type :=
| Undefined
| Null
| Present (a : A).
Arguments Undefined {A}.
Arguments Null {A}.

(** Numbers are IEEE doubles; a double that is not NaN or infinite is a
    rational, and JSON cannot denote the others. *)
Definition number := QArith_base.Q.

Definition number_of_Z (z : Z) : number := QArith_base.Qmake z 1.

(** ToBoolean on the values that occur. *)
Definition truthy_string (s : jstring) : bool :=
  match s with [] => false | _ :: _ => true end.

Definition truthy_number (q : number) : bool :=
  negb (QArith_base.Qnum q =? 0)%Z.

Definition truthy_field {A} (t : A -> bool) (f : field A) : bool :=
  match f with
  | Undefined | Null => false
  | Present a => t a
  end.

(** [x || d] on a property. *)
Definition or_default {A} (t : A -> bool) (x : field A) (d : A) : A :=
  match x with
  | Present a => if t a then a else d
  | Undefined | Null => d
  end.

End JS.

Import JS.

(* ================================================================== *)
(** ** The [complaints] table and its row-level policies *)

Module Schema.

Definition uuid := N.

(** Timestamps, as microseconds since the epoch. *)
Definition timestamptz := Z.

(** One row of [complaints]: the columns of the schema with the score,
    explanation and user-tracking columns added to it. *)
Record Complaint : Type := mkComplaint {
  id : uuid;                          (* uuid PRIMARY KEY DEFAULT gen_random_uuid() *)
  complaint_text : jstring;           (* text NOT NULL *)
  category : jstring;                 (* text NOT NULL *)
  sentiment : jstring;                (* text NOT NULL *)
  priority : jstring;                 (* text NOT NULL *)
  ai_response : jstring;              (* text NOT NULL *)
  ai_confidence_score : Z;            (* integer DEFAULT 0 NOT NULL *)
  ai_explanation : option jstring;    (* text DEFAULT '' *)
  status : jstring;                   (* text DEFAULT 'Pending' NOT NULL *)
  feedback_helpful : option bool;     (* boolean DEFAULT null *)
  user_id : option uuid;              (* uuid REFERENCES auth.users(id) *)
  user_email : option jstring;        (* text *)
  created_at : timestamptz;           (* timestamptz DEFAULT now() NOT NULL *)
  updated_at : timestamptz            (* timestamptz DEFAULT now() NOT NULL *)
}.

(** The table, in insertion order. *)
Definition store := list Complaint.

Definition Pending : jstring := lit "Pending"%string.
Definition Resolved : jstring := lit "Resolved"%string.

Inductive db_error : Type :=
| not_null_violation             (* 23502 *)
| invalid_text_representation    (* 22P02 *)
| untranslatable_character       (* 22P05 *)
| numeric_value_out_of_range     (* 22003 *)
| not_singular.                  (* PGRST116: .single() with 0 or several rows *)

Definition db_result (A : Type) : Type := (db_error + A)%type.

(** The database role a request runs under. *)
Inductive db_role : Type :=
| anon
| authenticated (uid : uuid)
| service_role.

Definition owned_by (uid : uuid) (c : Complaint) : bool :=
  match user_id c with
  | Some u => (u =? uid)%N
  | None => false                     (* auth.uid() = NULL is not true *)
  end.

(** FOR SELECT policies of the user-tracking migration. *)
Definition select_policy (r : db_role) (c : Complaint) : bool :=
  match r with
  | authenticated uid => owned_by uid c   (* "Users can view own complaints" *)
  | anon => true                          (* "Public can view complaints" *)
  | service_role => true
  end.

(** FOR UPDATE policies: USING and WITH CHECK are the same predicate. *)
Definition update_policy (r : db_role) (c : Complaint) : bool :=
  match r with
  | authenticated uid => owned_by uid c   (* "Users can update own complaints" *)
  | anon => false                         (* no policy grants UPDATE to anon *)
  | service_role => true                  (* "Service role can update complaints" *)
  end.

(** Input conversion of a JSON number for an [integer] column.  The
    number arrives as [JSON.stringify] writes it: a fraction with its
    point, a whole number in digits below 10^21 and with an exponent from
    there on; only a run of digits is integer syntax. *)
Definition int4_in (q : number) : db_result Z :=
  let n := QArith_base.Qnum q in
  let d := Z.pos (QArith_base.Qden q) in
  if negb (n mod d =? 0)%Z then inl invalid_text_representation
  else
    let z := (n / d)%Z in
    if ((-2147483648 <=? z) && (z <=? 2147483647))%Z then inr z
    else if (Z.abs z <? 10 ^ 21)%Z then inl numeric_value_out_of_range
    else inl invalid_text_representation.

(** UTF-16 surrogates: D800-DBFF lead, DC00-DFFF trail. *)
Definition high_surrogate (c : code_unit) : bool :=
  ((55296 <=? c) && (c <=? 56319))%N.

Definition low_surrogate (c : code_unit) : bool :=
  ((56320 <=? c) && (c <=? 57343))%N.

(** What keeps a string out of a [text] column.  A value reaches the
    database inside a JSON body, where [JSON.stringify] writes U+0000 and
    every surrogate without its partner as a \u escape; converting the
    body to column values refuses the first such escape it meets: a lone
    surrogate is no JSON string, and [text] cannot hold U+0000. *)
Fixpoint text_error (s : jstring) : option db_error :=
  match s with
  | [] => None
  | c :: rest =>
      if high_surrogate c then
        match rest with
        | d :: rest' =>
            if low_surrogate d then text_error rest'
            else Some invalid_text_representation
        | [] => Some invalid_text_representation
        end
      else if low_surrogate c then Some invalid_text_representation
      else if (c =? 0)%N then Some untranslatable_character
      else text_error rest
  end.

(** Input conversion of a JSON string, or of an absent key, for a [text]
    column. *)
Definition text_in (x : option jstring) : db_result (option jstring) :=
  match x with
  | Some t =>
      match text_error t with
      | Some e => inl e
      | None => inr (Some t)
      end
  | None => inr None
  end.

Definition not_null {A} (x : option A) : db_result A :=
  match x with
  | Some a => inr a
  | None => inl not_null_violation
  end.

(** [gen_random_uuid()]: an identifier no row of the table carries. *)
Definition gen_random_uuid (s : store) : uuid :=
  N.succ (fold_right (fun c m => N.max (id c) m) 0%N s).

(** The object handed to [.insert(...)]: [None] is a key that is absent
    or null. *)
Record insert_values : Type := mkInsert {
  iv_complaint_text : option jstring;
  iv_category : option jstring;
  iv_sentiment : option jstring;
  iv_priority : option jstring;
  iv_ai_response : option jstring;
  iv_ai_confidence_score : option number;
  iv_ai_explanation : option jstring;
  iv_status : option jstring;
  iv_user_id : option uuid;
  iv_user_email : option jstring
}.

Definition bind {A B} (x : db_result A) (k : A -> db_result B) : db_result B :=
  match x with
  | inl e => inl e
  | inr a => k a
  end.

Notation "x <- c ;; k" := (bind c (fun x => k))
  (at level 61, c at next level, right associativity).

(** [.insert(v).select().single()] at time [now]: the new row and the
    table with it appended, or what rejected it.  The body is read first,
    string by string in the order the handler writes its keys; then the
    score is converted for the [integer] column; the NOT NULL constraints
    are checked on the row so built.  A [user_id] comes from identity
    resolution, so its reference to [auth.users] holds. *)
Definition insert (now : timestamptz) (s : store) (v : insert_values)
  : db_result (Complaint * store) :=
  text <- text_in (iv_complaint_text v) ;;
  cat <- text_in (iv_category v) ;;
  sen <- text_in (iv_sentiment v) ;;
  pri <- text_in (iv_priority v) ;;
  rsp <- text_in (iv_ai_response v) ;;
  expl <- text_in (iv_ai_explanation v) ;;
  st <- text_in (iv_status v) ;;
  email <- text_in (iv_user_email v) ;;
  score <- match iv_ai_confidence_score v with
           | Some q => int4_in q
           | None => inr 0%Z
           end ;;
  text <- not_null text ;;
  cat <- not_null cat ;;
  sen <- not_null sen ;;
  pri <- not_null pri ;;
  rsp <- not_null rsp ;;
  let row := {|
    id := gen_random_uuid s;
    complaint_text := text;
    category := cat;
    sentiment := sen;
    priority := pri;
    ai_response := rsp;
    ai_confidence_score := score;
    ai_explanation := Some (match expl with
                            | Some e => e
                            | None => []
                            end);
    status := match st with Some x => x | None => Pending end;
    feedback_helpful := None;
    user_id := iv_user_id v;
    user_email := email;
    created_at := now;
    updated_at := now |} in
  inr (row, s ++ [row]).

(** The order in which a query hands over rows that its sort key does not
    tell apart.  The database is free in it, may let it depend on the
    rows themselves, and need not keep it from one statement to the next:
    a scan follows the physical order of the table, in which a rewritten
    row has a new place.  A plan is any rearrangement of the rows read;
    the sort is applied to what it delivers and keeps equal keys in that
    order, so that every order of such rows is the outcome of some
    plan. *)
Class Plan (A : Type) : Type := {
  scan : list A -> list A;
  scan_Permutation : forall l : list A, Permutation l (scan l)
}.
Arguments scan {A} {Plan} l.
Arguments scan_Permutation {A} {Plan} l.

Fixpoint insert_desc (c : Complaint) (l : list Complaint) : list Complaint :=
  match l with
  | [] => [c]
  | d :: t =>
      if (created_at d <=? created_at c)%Z then c :: l
      else d :: insert_desc c t
  end.

(** [.order("created_at", { ascending: false })]: the query names no
    second sort key. *)
Definition order_created_at_desc {plan : Plan Complaint} (l : list Complaint)
  : list Complaint :=
  fold_right insert_desc [] (scan l).

(** [.select("*")] under role [r]. *)
Definition select (r : db_role) (s : store) : list Complaint :=
  filter (select_policy r) s.

(** The object handed to [.update(...)]: an absent key leaves the column
    alone; [feedback_helpful] may be present and null. *)
Record update_values : Type := mkUpdate {
  uv_status : option jstring;
  uv_feedback_helpful : option (option bool);
  uv_updated_at : option timestamptz
}.

Definition apply_update (u : update_values) (c : Complaint) : Complaint :=
  {| id := id c;
     complaint_text := complaint_text c;
     category := category c;
     sentiment := sentiment c;
     priority := priority c;
     ai_response := ai_response c;
     ai_confidence_score := ai_confidence_score c;
     ai_explanation := ai_explanation c;
     status := match uv_status u with Some st => st | None => status c end;
     feedback_helpful := match uv_feedback_helpful u with
                         | Some f => f
                         | None => feedback_helpful c
                         end;
     user_id := user_id c;
     user_email := user_email c;
     created_at := created_at c;
     updated_at := match uv_updated_at u with
                   | Some t => t
                   | None => updated_at c
                   end |}.

(** The rows [.update(u).eq("id", target)] touches under role [r]. *)
Definition targeted (r : db_role) (target : uuid) (c : Complaint) : bool :=
  (id c =? target)%N && update_policy r c.

(** The error [.update(u).eq("id", target)] reports.  The values of the
    body are converted when a row is found to write them to: with no row
    to write the statement ends without one. *)
Definition update_error (r : db_role) (target : uuid) (u : update_values)
  (s : store) : option db_error :=
  if existsb (targeted r target) s then
    match uv_status u with
    | Some st => text_error st
    | None => None
    end
  else None.

(** [.update(u).eq("id", target)]: the rows written, and the table after.
    A statement that reports an error writes nothing. *)
Definition update (r : db_role) (target : uuid) (u : update_values) (s : store)
  : list Complaint * store :=
  match update_error r target u s with
  | Some _ => ([], s)
  | None =>
      (map (apply_update u) (filter (targeted r target) s),
       map (fun c => if targeted r target c then apply_update u c else c) s)
  end.

(** [.update(u).eq("id", target).select().single()]: exactly one row
    must have been written, otherwise the request fails and the write
    is rolled back. *)
Definition update_single (r : db_role) (target : uuid) (u : update_values)
  (s : store) : db_result (Complaint * store) :=
  match update_error r target u s with
  | Some e => inl e
  | None =>
      match update r target u s with
      | ([row], s') => inr (row, s')
      | _ => inl not_singular
      end
  end.

End Schema.

Import Schema.

(* ================================================================== *)
(** ** Requests and responses of the edge functions *)

Module Http.

Inductive http_method : Type := GET | POST | PUT | OPTIONS | OTHER.

(** What a [try] block of a handler can throw. *)
Inductive exn : Type :=
| js_error                   (* req.json() rejects, or a TypeError *)
| pg_error (e : db_error).   (* the [error] of a Supabase call, rethrown *)

Inductive error_body : Type :=
| message (m : jstring)      (* { error: "..." } written by the handler *)
| thrown (e : exn).          (* { error: error.message || "Internal server error" } *)

Inductive body : Type :=
| no_body
| error_json (e : error_body)
| complaint_json (c : Complaint)           (* { success: true, complaint } *)
| complaints_json (l : list Complaint).    (* { success: true, complaints } *)

Record Response : Type := mkResponse {
  status_code : Z;
  payload : body
}.

(** A request whose body, when it parses as the expected JSON object, is
    a [J]; [json = None] when [req.json()] or its destructuring throws. *)
Record Request (J : Type) : Type := mkRequest {
  method : http_method;
  authorization : option jstring;
  json : option J
}.

End Http.

Import Http.

(* ================================================================== *)
(** ** process-complaint *)

Module ProcessComplaint.

(** The payload [/predict] answers with, by the collaborator interface:
    four strings, an optional number and an optional string. *)
Record Predictions : Type := mkPredictions {
  ml_category : field jstring;
  ml_sentiment : field jstring;
  ml_priority : field jstring;
  ml_ai_response : field jstring;
  ml_confidence_score : field number;
  ml_explanation : field jstring
}.

Inductive ml_body : Type :=
| body_not_json                       (* response.json() rejects *)
| body_null                           (* JSON null: reading a property throws *)
| body_scalar                         (* number, string, boolean, array *)
| body_object (p : Predictions).

Inductive fetch_outcome : Type :=
| fetch_rejects                       (* network error, or aborted after 10 s *)
| fetch_response (status : Z) (b : ml_body).

Definition response_ok (status : Z) : bool :=
  ((200 <=? status) && (status <=? 299))%Z.

Record User : Type := mkUser {
  user_uid : uuid;
  user_mail : option jstring
}.

(** Everything outside the function that one request observes. *)
Record World : Type := mkWorld {
  ML_SERVICE_URL : option jstring;
  fetch : jstring -> jstring -> fetch_outcome;  (* POST url { complaint_text } *)
  getUser : jstring -> option User;             (* supabase.auth.getUser(token) *)
  now : timestamptz                             (* the database clock *)
}.

Definition complete (p : Predictions) : bool :=
  truthy_field truthy_string (ml_category p)
  && truthy_field truthy_string (ml_sentiment p)
  && truthy_field truthy_string (ml_priority p)
  && truthy_field truthy_string (ml_ai_response p).

(** [None] is the [null] the source returns. *)
Definition getMLPredictions (w : World) (complaintText : jstring)
  : option Predictions :=
  match ML_SERVICE_URL w with
  | None => None
  | Some mlServiceUrl =>
      if negb (truthy_string mlServiceUrl) then None
      else
        match fetch w (mlServiceUrl ++ lit "/predict"%string) complaintText with
        | fetch_rejects => None
        | fetch_response st b =>
            if negb (response_ok st) then None
            else
              match b with
              | body_not_json => None
              | body_null => None
              | body_scalar => None
              | body_object predictions =>
                  if negb (complete predictions) then None
                  else Some predictions
              end
        end
  end.

Definition getFallbackValues : Predictions :=
  {| ml_category := Present (lit "Other"%string);
     ml_sentiment := Present (lit "Neutral"%string);
     ml_priority := Present (lit "Low"%string);
     ml_ai_response := Present (lit "Thank you for contacting Indian Postal Department. Your complaint has been received and will be reviewed by our support team. We will get back to you within 48 hours. For urgent matters, please call our helpline."%string);
     ml_confidence_score := Present (number_of_Z 50);
     ml_explanation :=
       Present (lit "Using fallback values due to ML service unavailability."%string) |}.

Record post_json : Type := mkPost {
  post_complaint_text : field jstring
}.

Definition value_of {A} (f : field A) : option A :=
  match f with
  | Present a => Some a
  | Undefined | Null => None
  end.

Definition Bearer : jstring := lit "Bearer "%string.

(** The identity behind the [Authorization] header, if it resolves. *)
Definition resolve_user (w : World) (authHeader : option jstring)
  : option User :=
  match authHeader with
  | Some h =>
      if truthy_string h && startsWith h Bearer
      then getUser w (replace h Bearer [])
      else None
  | None => None
  end.

Definition blank (complaint_text : field jstring) : bool :=
  negb (truthy_field truthy_string complaint_text)
  || match complaint_text with
     | Present t => (List.length (trim t) =? 0)%nat
     | Undefined | Null => false
     end.

(** The body of the handler's [try]. *)
Definition serve (w : World) (s : store) (req : Request post_json)
  : exn + (Response * store) :=
  match json req with
  | None => inl js_error
  | Some j =>
      let complaint_text := post_complaint_text j in
      if blank complaint_text
      then inr ({| status_code := 400;
                   payload := error_json
                     (message (lit "Complaint text is required"%string)) |}, s)
      else
        let user := resolve_user w (authorization req) in
        let userId := option_map user_uid user in
        let userEmail := match user with
                         | Some u => user_mail u
                         | None => None
                         end in
        let mlPredictions :=
          match getMLPredictions w (match complaint_text with
                                    | Present t => t
                                    | Undefined | Null => []
                                    end) with
          | Some p => p
          | None => getFallbackValues
          end in
        match Schema.insert (now w) s
                {| iv_complaint_text := value_of complaint_text;
                   iv_category := value_of (ml_category mlPredictions);
                   iv_sentiment := value_of (ml_sentiment mlPredictions);
                   iv_priority := value_of (ml_priority mlPredictions);
                   iv_ai_response := value_of (ml_ai_response mlPredictions);
                   iv_ai_confidence_score :=
                     Some (or_default truthy_number
                             (ml_confidence_score mlPredictions)
                             (number_of_Z 0));
                   iv_ai_explanation :=
                     Some (or_default truthy_string
                             (ml_explanation mlPredictions) []);
                   iv_status := Some Pending;
                   iv_user_id := userId;
                   iv_user_email := userEmail |} with
        | inl error => inl (pg_error error)
        | inr (data, s') =>
            (* sendEmailNotification(data) runs detached: its outcome
               reaches neither the response nor the table *)
            inr ({| status_code := 200; payload := complaint_json data |}, s')
        end
  end.

(** [Deno.serve]: the response, and the table after the request. *)
Definition handle (w : World) (s : store) (req : Request post_json)
  : Response * store :=
  match method req with
  | OPTIONS => ({| status_code := 200; payload := no_body |}, s)
  | _ =>
      match serve w s req with
      | inr out => out
      | inl error =>
          ({| status_code := 500; payload := error_json (thrown error) |}, s)
      end
  end.

End ProcessComplaint.

(* ================================================================== *)
(** ** process-complaint, first generation

  The function as it stood before the confidence score and user
  tracking were added: no identity, no score, no explanation. *)

Module ProcessComplaintV1.

Import ProcessComplaint.

Definition getFallbackValues : Predictions :=
  {| ml_category := Present (lit "Other"%string);
     ml_sentiment := Present (lit "Neutral"%string);
     ml_priority := Present (lit "Low"%string);
     ml_ai_response := Present (lit "Thank you for contacting Indian Postal Department. Your complaint has been received and will be reviewed by our support team. We will get back to you within 48 hours. For urgent matters, please call our helpline."%string);
     ml_confidence_score := Undefined;
     ml_explanation := Undefined |}.

Definition serve (w : World) (s : store) (req : Request post_json)
  : exn + (Response * store) :=
  match json req with
  | None => inl js_error
  | Some j =>
      let complaint_text := post_complaint_text j in
      if blank complaint_text
      then inr ({| status_code := 400;
                   payload := error_json
                     (message (lit "Complaint text is required"%string)) |}, s)
      else
        let mlPredictions :=
          match getMLPredictions w (match complaint_text with
                                    | Present t => t
                                    | Undefined | Null => []
                                    end) with
          | Some p => p
          | None => getFallbackValues
          end in
        match Schema.insert (now w) s
                {| iv_complaint_text := value_of complaint_text;
                   iv_category := value_of (ml_category mlPredictions);
                   iv_sentiment := value_of (ml_sentiment mlPredictions);
                   iv_priority := value_of (ml_priority mlPredictions);
                   iv_ai_response := value_of (ml_ai_response mlPredictions);
                   iv_ai_confidence_score := None;
                   iv_ai_explanation := None;
                   iv_status := Some Pending;
                   iv_user_id := None;
                   iv_user_email := None |} with
        | inl error => inl (pg_error error)
        | inr (data, s') =>
            inr ({| status_code := 200; payload := complaint_json data |}, s')
        end
  end.

Definition handle (w : World) (s : store) (req : Request post_json)
  : Response * store :=
  match method req with
  | OPTIONS => ({| status_code := 200; payload := no_body |}, s)
  | _ =>
      match serve w s req with
      | inr out => out
      | inl error =>
          ({| status_code := 500; payload := error_json (thrown error) |}, s)
      end
  end.

End ProcessComplaintV1.

(* ================================================================== *)
(** ** manage-complaints *)

Module ManageComplaints.

(** The [id] of a PUT body, by what the handler and the [uuid] column
    make of it. *)
Inductive id_field : Type :=
| id_falsy                   (* absent, null or the empty string *)
| id_malformed               (* a non-empty string that is no uuid *)
| id_uuid (u : uuid).

Record put_json : Type := mkPut {
  put_id : id_field;
  put_status : field jstring;
  put_feedback_helpful : field bool
}.

(** [updateData], built at edge-clock reading [clock]. *)
Definition updateData (clock : timestamptz) (j : put_json) : update_values :=
  {| uv_updated_at := Some clock;
     uv_status := match put_status j with
                  | Present st => if truthy_string st then Some st else None
                  | Undefined | Null => None
                  end;
     uv_feedback_helpful := match put_feedback_helpful j with
                            | Undefined => None
                            | Null => Some None
                            | Present b => Some (Some b)
                            end |}.

Section Handler.

Context {plan : Plan Complaint}.

(** The body of the handler's [try], for the methods that reach it. *)
Definition serve (clock : timestamptz) (s : store) (req : Request put_json)
  : exn + (Response * store) :=
  match method req with
  | GET =>
      let data := order_created_at_desc (Schema.select service_role s) in
      inr ({| status_code := 200; payload := complaints_json data |}, s)
  | PUT =>
      match json req with
      | None => inl js_error
      | Some j =>
          match put_id j with
          | id_falsy =>
              inr ({| status_code := 400;
                      payload := error_json
                        (message (lit "Complaint ID is required"%string)) |}, s)
          | id_malformed => inl (pg_error invalid_text_representation)
          | id_uuid target =>
              match update_single service_role target (updateData clock j) s with
              | inl error => inl (pg_error error)
              | inr (data, s') =>
                  inr ({| status_code := 200;
                          payload := complaint_json data |}, s')
              end
          end
      end
  | _ =>
      inr ({| status_code := 405;
              payload := error_json
                (message (lit "Method not allowed"%string)) |}, s)
  end.

(** [Deno.serve]: the response, and the table after the request. *)
Definition handle (clock : timestamptz) (s : store) (req : Request put_json)
  : Response * store :=
  match method req with
  | OPTIONS => ({| status_code := 200; payload := no_body |}, s)
  | _ =>
      match serve clock s req with
      | inr out => out
      | inl error =>
          ({| status_code := 500; payload := error_json (thrown error) |}, s)
      end
  end.

(** A run of requests, each at its own clock reading. *)
Fixpoint run (s : store) (reqs : list (timestamptz * Request put_json))
  : store :=
  match reqs with
  | [] => s
  | (clock, req) :: rest => run (snd (handle clock s req)) rest
  end.

End Handler.

End ManageComplaints.

(* ================================================================== *)
(** ** The dashboards' calls

  The browser either calls an edge function, sending the session's
  token as the bearer credential, or reads and writes the table
  directly under the session's database role and the row-level
  policies. *)

Module UserDashboard.

(** [fetchUserComplaints], for the signed-in [user]. *)
Definition fetchUserComplaints {plan : Plan Complaint} (user : uuid)
  (s : store)
  : list Complaint :=
  order_created_at_desc
    (filter (owned_by user) (Schema.select (authenticated user) s)).

(** The request [submitFeedback] sends to manage-complaints. *)
Definition submitFeedback (access_token : jstring) (complaintId : uuid)
  (helpful : bool) : Request ManageComplaints.put_json :=
  {| method := PUT;
     authorization := Some (ProcessComplaint.Bearer ++ access_token);
     json := Some {| ManageComplaints.put_id := ManageComplaints.id_uuid complaintId;
                     ManageComplaints.put_status := Undefined;
                     ManageComplaints.put_feedback_helpful := Present helpful |} |}.

End UserDashboard.

Module NewAdminDashboard.

(** [fetchComplaints], under the session's role. *)
Definition fetchComplaints {plan : Plan Complaint} (r : db_role) (s : store)
  : list Complaint :=
  order_created_at_desc (Schema.select r s).

(** [updateComplaintStatus]: a direct table update at browser-clock
    reading [clock]; the call reports no error when no row matches. *)
Definition updateComplaintStatus (r : db_role) (clock : timestamptz)
  (id : uuid) (status : jstring) (s : store) : store :=
  snd (Schema.update r id
         {| uv_status := Some status;
            uv_feedback_helpful := None;
            uv_updated_at := Some clock |} s).

End NewAdminDashboard.

(* ================================================================== *)
(** ** Vocabulary of the properties *)

Module Props.

Import ProcessComplaint ManageComplaints.

(** Every code unit of the text is white space; the empty text too. *)
Definition whitespace_only (t : jstring) : Prop :=
  Forall (fun c => isWhiteSpace c = true) t.

(** The text has a code unit that is not white space. *)
Definition non_blank (t : jstring) : Prop :=
  Exists (fun c => isWhiteSpace c = false) t.

(** A [complaint_text] that is missing, empty or white space only. *)
Inductive blank_text : field jstring -> Prop :=
| blank_missing : blank_text Undefined
| blank_null : blank_text Null
| blank_spaces t : whitespace_only t -> blank_text (Present t).

(** A required property the payload does not carry. *)
Inductive lacks : field jstring -> Prop :=
| lacks_key : lacks Undefined
| lacks_value : lacks Null
| lacks_text : lacks (Present []).

Definition incomplete (p : Predictions) : Prop :=
  lacks (ml_category p) \/ lacks (ml_sentiment p)
  \/ lacks (ml_priority p) \/ lacks (ml_ai_response p).

(** The ways the inference call for [text] fails in world [w]. *)
Inductive inference_fails (w : World) (text : jstring) : Prop :=
| unconfigured :
    ML_SERVICE_URL w = None \/ ML_SERVICE_URL w = Some [] ->
    inference_fails w text
| unreachable url :            (* network failure, or the 10 s timeout *)
    ML_SERVICE_URL w = Some url ->
    fetch w (url ++ lit "/predict"%string) text = fetch_rejects ->
    inference_fails w text
| non_success url st b :
    ML_SERVICE_URL w = Some url ->
    fetch w (url ++ lit "/predict"%string) text = fetch_response st b ->
    (st < 200 \/ 299 < st)%Z ->
    inference_fails w text
| unreadable url st b :
    ML_SERVICE_URL w = Some url ->
    fetch w (url ++ lit "/predict"%string) text = fetch_response st b ->
    b = body_not_json \/ b = body_null \/ b = body_scalar ->
    inference_fails w text
| missing_field url st p :
    ML_SERVICE_URL w = Some url ->
    fetch w (url ++ lit "/predict"%string) text
      = fetch_response st (body_object p) ->
    incomplete p ->
    inference_fails w text.

(** The world [w] with no inference endpoint configured. *)
Definition without_endpoint (w : World) : World :=
  {| ML_SERVICE_URL := None;
     fetch := fetch w;
     getUser := getUser w;
     now := now w |}.

(** The POST a client sends for [text], with or without a credential. *)
Definition submission (auth : option jstring) (ct : field jstring)
  : Request post_json :=
  {| method := POST;
     authorization := auth;
     json := Some {| post_complaint_text := ct |} |}.

(** The GET a client sends to manage-complaints. *)
Definition list_request (auth : option jstring) (b : option put_json)
  : Request put_json :=
  {| method := GET; authorization := auth; json := b |}.

(** The PUT a client sends for complaint [target]. *)
Definition update_request (auth : option jstring) (target : uuid)
  (st : field jstring) (fb : field bool) : Request put_json :=
  {| method := PUT;
     authorization := auth;
     json := Some {| put_id := id_uuid target;
                     put_status := st;
                     put_feedback_helpful := fb |} |}.


(** A request that carries a status other than "Resolved". *)
Definition supplies_other_status (req : Request put_json) : Prop :=
  exists j st,
    json req = Some j /\ put_status j = Present st /\ st <> Resolved.

(** A number the [integer] column takes: whole, and within 32 bits. *)
Definition int4_number (q : number) : Prop :=
  exists z : Z,
    QArith_base.Qnum q = (z * Z.pos (QArith_base.Qden q))%Z
    /\ (-2147483648 <= z <= 2147483647)%Z.

(** A string a [text] column stores: it has no U+0000 and no surrogate
    without its partner. *)
Definition storable (t : jstring) : Prop := text_error t = None.

(** A property that, when it holds a string, holds a storable one. *)
Definition storable_field (f : field jstring) : Prop :=
  forall t, f = Present t -> storable t.

Definition storable_labels (p : Predictions) : Prop :=
  storable_field (ml_category p) /\ storable_field (ml_sentiment p)
  /\ storable_field (ml_priority p) /\ storable_field (ml_ai_response p).

(** Whatever object the endpoint answers [text] with, the four labels in
    it are storable. *)
Definition labels_fit (w : World) (text : jstring) : Prop :=
  forall url st p,
    ML_SERVICE_URL w = Some url ->
    fetch w (url ++ lit "/predict"%string) text
      = fetch_response st (body_object p) ->
    storable_labels p.

(** The user the header resolves to, if any, has a storable email. *)
Definition sender_fits (w : World) (auth : option jstring) : Prop :=
  forall u e,
    resolve_user w auth = Some u -> user_mail u = Some e -> storable e.

(** Every value the handler hands to the insert for [text] is one its
    column takes: the text, the strings and the score of the predictions
    it works with (the endpoint's, or the fallback), and the sender's
    email. *)
Definition values_fit (w : World) (auth : option jstring) (text : jstring)
  : Prop :=
  let p := match getMLPredictions w text with
           | Some p => p
           | None => getFallbackValues
           end in
  storable text /\ storable_labels p
  /\ storable_field (ml_explanation p)
  /\ int4_number (or_default truthy_number (ml_confidence_score p)
                    (number_of_Z 0))
  /\ sender_fits w auth.

(** The primary key: no two rows share an [id]. *)
Definition unique_ids (s : store) : Prop := NoDup (map id s).

(** No two rows share a [created_at]. *)
Definition distinct_created_at (s : store) : Prop := NoDup (map created_at s).

Definition ok (c : Complaint) : Response :=
  {| status_code := 200; payload := complaint_json c |}.

Definition set_feedback (f : option bool) (t : timestamptz) (c : Complaint)
  : Complaint :=
  {| id := id c;
     complaint_text := complaint_text c;
     category := category c;
     sentiment := sentiment c;
     priority := priority c;
     ai_response := ai_response c;
     ai_confidence_score := ai_confidence_score c;
     ai_explanation := ai_explanation c;
     status := status c;
     feedback_helpful := f;
     user_id := user_id c;
     user_email := user_email c;
     created_at := created_at c;
     updated_at := t |}.

Definition set_status (st : jstring) (t : timestamptz) (c : Complaint)
  : Complaint :=
  {| id := id c;
     complaint_text := complaint_text c;
     category := category c;
     sentiment := sentiment c;
     priority := priority c;
     ai_response := ai_response c;
     ai_confidence_score := ai_confidence_score c;
     ai_explanation := ai_explanation c;
     status := st;
     feedback_helpful := feedback_helpful c;
     user_id := user_id c;
     user_email := user_email c;
     created_at := created_at c;
     updated_at := t |}.


(** The status is kept, or becomes "Resolved". *)
Definition resolves_only (c c' : Complaint) : Prop :=
  id c' = id c
  /\ (status c' = status c \/ status c' = Resolved).

(** The table with the row [target] replaced by its image under [f]. *)
Definition rewrite_row (target : uuid) (f : Complaint -> Complaint)
  (s : store) : store :=
  map (fun c => if (id c =? target)%N then f c else c) s.

(** The status after a request that carries [st]. *)
Definition status_after (st : field jstring) (before : jstring) : jstring :=
  match st with
  | Present x => if truthy_string x then x else before
  | Undefined | Null => before
  end.

(** The value of [feedback_helpful] after a request that carries [fb]. *)
Definition feedback_after (fb : field bool) (before : option bool)
  : option bool :=
  match fb with
  | Undefined => before
  | Null => None
  | Present b => Some b
  end.

End Props.

Import Props.

(* ================================================================== *)
(** ** Sample data *)

Module Sample.

Import ProcessComplaint ManageComplaints.

Definition alice : uuid := 11%N.
Definition bob : uuid := 12%N.

Definition row (i : uuid) (owner : option uuid) (st : jstring)
  (fb : option bool) (t : timestamptz) : Complaint :=
  {| id := i;
     complaint_text := lit "My package was delayed by 5 days"%string;
     category := lit "Delayed Delivery"%string;
     sentiment := lit "Negative"%string;
     priority := lit "High"%string;
     ai_response := lit "We apologize..."%string;
     ai_confidence_score := 82;
     ai_explanation := Some [];
     status := st;
     feedback_helpful := fb;
     user_id := owner;
     user_email := None;
     created_at := t;
     updated_at := t |}.

(** A table with one complaint of each of two users and a guest's. *)
Definition table : store :=
  [ row 1%N (Some alice) Pending None 100%Z;
    row 2%N (Some bob) Pending None 200%Z;
    row 3%N None Pending None 300%Z ].

Definition text : jstring := lit "My package was delayed by 5 days"%string.

(** No inference endpoint configured. *)
Definition offline : World :=
  {| ML_SERVICE_URL := None;
     fetch := fun _ _ => fetch_rejects;
     getUser := fun _ => None;
     now := 1000%Z |}.

Definition answer (score : field number) : Predictions :=
  {| ml_category := Present (lit "Delayed Delivery"%string);
     ml_sentiment := Present (lit "Negative"%string);
     ml_priority := Present (lit "High"%string);
     ml_ai_response := Present (lit "We apologize..."%string);
     ml_confidence_score := score;
     ml_explanation := Undefined |}.

(** An endpoint that answers every text with [answer score]. *)
Definition online (score : field number) : World :=
  {| ML_SERVICE_URL := Some (lit "http://ml"%string);
     fetch := fun _ _ => fetch_response 200 (body_object (answer score));
     getUser := fun _ => None;
     now := 1000%Z |}.

Definition half : number := QArith_base.Qmake 1 2.

Definition token : jstring := lit "alice-session-token"%string.

(** No endpoint; the identity service knows [token] as alice's. *)
Definition signed_in : World :=
  {| ML_SERVICE_URL := None;
     fetch := fun _ _ => fetch_rejects;
     getUser := fun t =>
       if jstring_eqb t token
       then Some {| user_uid := alice;
                    user_mail := Some (lit "alice@post.example"%string) |}
       else None;
     now := 1000%Z |}.

(** A non-blank text with U+0000 in it. *)
Definition lost_parcel : jstring :=
  lit "lost"%string ++ 0%N :: lit "parcel"%string.

(** A table whose first complaint is resolved and rated. *)
Definition rated : store :=
  [ row 1%N (Some alice) Resolved (Some true) 100%Z;
    row 2%N (Some bob) Pending None 200%Z;
    row 3%N None Pending None 300%Z ].

(** The plan that delivers rows in table order. *)
Definition table_order {A : Type} : Plan A :=
  {| scan := fun l => l;
     scan_Permutation := fun l => Permutation_refl l |}.

(** Three complaints submitted at the same instant. *)
Definition tied : store :=
  [ row 1%N (Some alice) Pending None 100%Z;
    row 2%N (Some bob) Pending None 100%Z;
    row 3%N None Pending None 100%Z ].

Definition rewritten (c : Complaint) : bool :=
  negb (updated_at c =? created_at c)%Z.

(** A plan that follows the physical order of the table: the rows never
    rewritten, then the rewritten ones. *)
Definition rewritten_last : Plan Complaint.
Proof.
  refine {| scan := fun l =>
              filter (fun c => negb (rewritten c)) l ++ filter rewritten l |}.
  induction l as [|c l IH]; simpl; [constructor|].
  destruct (rewritten c); simpl.
  - now apply Permutation_cons_app.
  - now constructor.
Defined.

End Sample.

(* ================================================================== *)
(** ** The admin notification of process-complaint *)

Module Notification.

Import ProcessComplaint.

(** The request to the mail service.  The html body interpolates columns
    of the stored row; the row stands for it. *)
Record Email : Type := mkEmail {
  mail_authorization : jstring;
  mail_from : jstring;
  mail_to : list jstring;
  mail_subject : jstring;
  mail_about : Complaint
}.

Inductive mail_outcome : Type :=
| mail_rejects                        (* fetch throws *)
| mail_response (status : Z).

Inductive console : Type :=
| warn_not_configured
| error_status (status : Z)
| log_sent
| error_sending.

Record MailEnv : Type := mkMailEnv {
  ADMIN_EMAIL : option jstring;
  RESEND_API_KEY : option jstring;
  resend : Email -> mail_outcome
}.

(** The requests issued, and the line written to the console. *)
Definition sendEmailNotification (env : MailEnv) (complaint : Complaint)
  : list Email * console :=
  match ADMIN_EMAIL env, RESEND_API_KEY env with
  | Some adminEmail, Some resendApiKey =>
      if negb (truthy_string adminEmail) || negb (truthy_string resendApiKey)
      then ([], warn_not_configured)
      else
        let mail :=
          {| mail_authorization := Bearer ++ resendApiKey;
             mail_from := lit "Complaint System <noreply@resend.dev>"%string;
             mail_to := [adminEmail];
             mail_subject :=
               lit "New "%string ++ priority complaint
               ++ lit " Priority Complaint - "%string ++ category complaint;
             mail_about := complaint |} in
        match resend env mail with
        | mail_rejects => ([mail], error_sending)
        | mail_response st =>
            if negb (response_ok st) then ([mail], error_status st)
            else ([mail], log_sent)
        end
  | _, _ => ([], warn_not_configured)
  end.

(** The body of the handler's [try], the notification included. *)
Definition serve (w : World) (env : MailEnv) (s : store)
  (req : Request post_json) : exn + (Response * store * list Email) :=
  match json req with
  | None => inl js_error
  | Some j =>
      let complaint_text := post_complaint_text j in
      if blank complaint_text
      then inr ({| status_code := 400;
                   payload := error_json
                     (message (lit "Complaint text is required"%string)) |},
                s, [])
      else
        let user := resolve_user w (authorization req) in
        let userId := option_map user_uid user in
        let userEmail := match user with
                         | Some u => user_mail u
                         | None => None
                         end in
        let mlPredictions :=
          match getMLPredictions w (match complaint_text with
                                    | Present t => t
                                    | Undefined | Null => []
                                    end) with
          | Some p => p
          | None => getFallbackValues
          end in
        match Schema.insert (now w) s
                {| iv_complaint_text := value_of complaint_text;
                   iv_category := value_of (ml_category mlPredictions);
                   iv_sentiment := value_of (ml_sentiment mlPredictions);
                   iv_priority := value_of (ml_priority mlPredictions);
                   iv_ai_response := value_of (ml_ai_response mlPredictions);
                   iv_ai_confidence_score :=
                     Some (or_default truthy_number
                             (ml_confidence_score mlPredictions)
                             (number_of_Z 0));
                   iv_ai_explanation :=
                     Some (or_default truthy_string
                             (ml_explanation mlPredictions) []);
                   iv_status := Some Pending;
                   iv_user_id := userId;
                   iv_user_email := userEmail |} with
        | inl error => inl (pg_error error)
        | inr (data, s') =>
            let sent := fst (sendEmailNotification env data) in
            inr ({| status_code := 200; payload := complaint_json data |},
                 s', sent)
        end
  end.

(** [Deno.serve]: the response, the table after, and the mail sent. *)
Definition handle (w : World) (env : MailEnv) (s : store)
  (req : Request post_json) : Response * store * list Email :=
  match method req with
  | OPTIONS => ({| status_code := 200; payload := no_body |}, s, [])
  | _ =>
      match serve w env s req with
      | inr out => out
      | inl error =>
          ({| status_code := 500; payload := error_json (thrown error) |},
           s, [])
      end
  end.

End Notification.

(* ================================================================== *)
(** ** Requests of both functions against one table *)

Module System.

Inductive request : Type :=
| Submit (w : ProcessComplaint.World)
         (req : Request ProcessComplaint.post_json)
| Manage (clock : timestamptz) (req : Request ManageComplaints.put_json).

Section Requests.

Context {plan : Plan Complaint}.

Definition step (s : store) (r : request) : store :=
  match r with
  | Submit w req => snd (ProcessComplaint.handle w s req)
  | Manage clock req => snd (ManageComplaints.handle clock s req)
  end.

(** The table after the requests, served in order. *)
Definition serve_all (s : store) (rs : list request) : store :=
  fold_left step rs s.

End Requests.

End System.

(* ================================================================== *)
(** ** The forms that submit a complaint *)

Module UserDashboardForm.

Import ProcessComplaint.

(** [handleSubmitComplaint]: the request sent, if any.  With no session
    the template renders the missing token as "undefined". *)
Definition handleSubmitComplaint (access_token : option jstring)
  (complaintText : jstring) : option (Request post_json) :=
  if negb (truthy_string (trim complaintText)) then None
  else
    Some {| method := POST;
            authorization :=
              Some (Bearer ++ match access_token with
                              | Some t => t
                              | None => lit "undefined"%string
                              end);
            json := Some {| post_complaint_text := Present complaintText |} |}.

End UserDashboardForm.

Module ComplaintForm.

Import ProcessComplaint.

(** [handleSubmit]: the request sent with the public key, or the form's
    own error. *)
Definition handleSubmit (anon_key : jstring) (complaintText : jstring)
  : jstring + Request post_json :=
  if negb (truthy_string (trim complaintText))
  then inl (lit "Please enter your complaint"%string)
  else
    inr {| method := POST;
           authorization := Some (Bearer ++ anon_key);
           json := Some {| post_complaint_text := Present complaintText |} |}.

End ComplaintForm.

(* ================================================================== *)
(** ** The first admin dashboard: calls through manage-complaints *)

Module AdminDashboard.

Import ProcessComplaint ManageComplaints.

(** [{ ...c, status }] *)
Definition with_status (st : jstring) (c : Complaint) : Complaint :=
  {| id := id c;
     complaint_text := complaint_text c;
     category := category c;
     sentiment := sentiment c;
     priority := priority c;
     ai_response := ai_response c;
     ai_confidence_score := ai_confidence_score c;
     ai_explanation := ai_explanation c;
     status := st;
     feedback_helpful := feedback_helpful c;
     user_id := user_id c;
     user_email := user_email c;
     created_at := created_at c;
     updated_at := updated_at c |}.

(** [{ ...c, feedback_helpful: helpful }] *)
Definition with_feedback (helpful : bool) (c : Complaint) : Complaint :=
  {| id := id c;
     complaint_text := complaint_text c;
     category := category c;
     sentiment := sentiment c;
     priority := priority c;
     ai_response := ai_response c;
     ai_confidence_score := ai_confidence_score c;
     ai_explanation := ai_explanation c;
     status := status c;
     feedback_helpful := Some helpful;
     user_id := user_id c;
     user_email := user_email c;
     created_at := created_at c;
     updated_at := updated_at c |}.

Section Calls.

Context {plan : Plan Complaint}.

(** [fetchComplaints]: the list shown after the call; an answer that is
    not ok keeps the list [shown] before. *)
Definition fetchComplaints (anon_key : jstring) (clock : timestamptz)
  (s : store) (shown : list Complaint) : list Complaint :=
  let response :=
    fst (handle clock s {| method := GET;
                           authorization := Some (Bearer ++ anon_key);
                           json := None |}) in
  if negb (response_ok (status_code response)) then shown
  else
    match payload response with
    | complaints_json l => l
    | _ => []
    end.

(** [updateComplaintStatus]: the list shown after the call, and the
    table after it. *)
Definition updateComplaintStatus (anon_key : jstring) (clock : timestamptz)
  (s : store) (complaints : list Complaint) (target : uuid) (st : jstring)
  : list Complaint * store :=
  let out :=
    handle clock s {| method := PUT;
                      authorization := Some (Bearer ++ anon_key);
                      json := Some {| put_id := id_uuid target;
                                      put_status := Present st;
                                      put_feedback_helpful := Undefined |} |} in
  if negb (response_ok (status_code (fst out))) then (complaints, snd out)
  else
    (map (fun c => if (id c =? target)%N then with_status st c else c)
       complaints,
     snd out).

(** [updateFeedback]: likewise for the feedback buttons. *)
Definition updateFeedback (anon_key : jstring) (clock : timestamptz)
  (s : store) (complaints : list Complaint) (target : uuid) (helpful : bool)
  : list Complaint * store :=
  let out :=
    handle clock s {| method := PUT;
                      authorization := Some (Bearer ++ anon_key);
                      json := Some {| put_id := id_uuid target;
                                      put_status := Undefined;
                                      put_feedback_helpful := Present helpful |} |} in
  if negb (response_ok (status_code (fst out))) then (complaints, snd out)
  else
    (map (fun c => if (id c =? target)%N then with_feedback helpful c else c)
       complaints,
     snd out).

End Calls.

End AdminDashboard.

(* ================================================================== *)
(** ** The dashboards' counters *)

Module Dashboards.

Record Stats : Type := mkStats {
  total : nat;
  pending : nat;
  resolved : nat;
  highPriority : nat
}.

(** [stats], as all three dashboards compute it. *)
Definition stats (complaints : list Complaint) : Stats :=
  {| total := List.length complaints;
     pending :=
       List.length (filter (fun c => jstring_eqb (status c) Pending) complaints);
     resolved :=
       List.length (filter (fun c => jstring_eqb (status c) Resolved) complaints);
     highPriority :=
       List.length
         (filter (fun c => jstring_eqb (priority c) (lit "High"%string))
            complaints) |}.

(** The two counts [satisfactionRate] divides: the complaints rated
    helpful, and [Math.max] of the rated ones and 1. *)
Definition satisfactionRate_counts (complaints : list Complaint) : nat * nat :=
  (List.length
     (filter (fun c => match feedback_helpful c with
                       | Some true => true
                       | _ => false
                       end) complaints),
   Nat.max
     (List.length
        (filter (fun c => match feedback_helpful c with
                          | Some _ => true
                          | None => false
                          end) complaints))
     1).

End Dashboards.

(* ================================================================== *)
(** ** Routing *)

Module App.

Inductive screen : Type :=
| spinner
| auth_page
| access_denied
| admin_dashboard
| user_dashboard.

(** What [useAuth] hands to a route. *)
Record AuthState : Type := mkAuth {
  user : option ProcessComplaint.User;
  loading : bool;
  isAdmin : bool;
  checkingAdmin : bool
}.

Definition ProtectedRoute (a : AuthState) (requireAdmin : bool)
  (children : screen) : screen :=
  if loading a || checkingAdmin a then spinner
  else
    match user a with
    | None => auth_page
    | Some _ =>
        if requireAdmin && negb (isAdmin a) then access_denied
        else children
    end.

Definition Router (a : AuthState) (currentPath : jstring) : screen :=
  if jstring_eqb currentPath (lit "/admin"%string)
  then ProtectedRoute a true admin_dashboard
  else ProtectedRoute a false user_dashboard.

End App.

(** The router before the admin restriction. *)
Module AppV1.

Import App.

Definition ProtectedRoute (a : AuthState) (children : screen) : screen :=
  if loading a then spinner
  else
    match user a with
    | None => auth_page
    | Some _ => children
    end.

Definition Router (a : AuthState) (currentPath : jstring) : screen :=
  if jstring_eqb currentPath (lit "/admin"%string)
  then ProtectedRoute a admin_dashboard
  else ProtectedRoute a user_dashboard.

End AppV1.

(* ================================================================== *)
(** ** complaint-messages *)

Module ComplaintMessages.

Import ManageComplaints.

(** One row of [complaint_messages]. *)
Record Message : Type := mkMessage {
  message_id : uuid;                  (* uuid PRIMARY KEY DEFAULT gen_random_uuid() *)
  complaint_id : uuid;                (* uuid NOT NULL REFERENCES complaints(id) *)
  message_text : jstring;             (* text NOT NULL *)
  sender_role : jstring;              (* text NOT NULL CHECK (... IN ('user', 'admin')) *)
  message_created_at : timestamptz    (* timestamptz DEFAULT now() NOT NULL *)
}.

Definition thread := list Message.

Definition role_user : jstring := lit "user"%string.
Definition role_admin : jstring := lit "admin"%string.

Inductive message_error : Type :=
| bad_json                            (* req.json() rejects, or a TypeError *)
| uuid_syntax                         (* 22P02 *)
| foreign_key_violation               (* 23503 *)
| check_violation.                    (* 23514 *)

Inductive answer : Type :=
| preflight
| refused (m : jstring)               (* { error: "..." } written by the handler *)
| failed (e : message_error)          (* the catch block *)
| message_json (m : Message)          (* { success: true, message } *)
| messages_json (l : list Message).   (* { success: true, messages } *)

Record Reply : Type := mkReply {
  reply_status : Z;
  reply_payload : answer
}.

Record post_json : Type := mkPostMessage {
  post_complaint_id : id_field;
  post_message_text : field jstring;
  post_sender_role : field jstring
}.

(** A request: its method, the [complaint_id] of the query string, and
    the body when it parses. *)
Record MessageRequest : Type := mkMessageRequest {
  msg_method : http_method;
  query_complaint_id : id_field;
  msg_json : option post_json
}.

Definition fresh_message_id (t : thread) : uuid :=
  N.succ (fold_right (fun m k => N.max (message_id m) k) 0%N t).

(** [.insert({ complaint_id, message_text, sender_role }).select().single()]
    at time [now], against the complaints the reference points into. *)
Definition insert_message (now : timestamptz) (complaints : store)
  (t : thread) (cid : uuid) (text role : jstring)
  : message_error + (Message * thread) :=
  if negb (existsb (fun c => (id c =? cid)%N) complaints)
  then inl foreign_key_violation
  else if negb (jstring_eqb role role_user || jstring_eqb role role_admin)
  then inl check_violation
  else
    let row := {| message_id := fresh_message_id t;
                  complaint_id := cid;
                  message_text := text;
                  sender_role := role;
                  message_created_at := now |} in
    inr (row, t ++ [row]).

Fixpoint insert_asc (m : Message) (l : list Message) : list Message :=
  match l with
  | [] => [m]
  | d :: r =>
      if (message_created_at m <=? message_created_at d)%Z then m :: l
      else d :: insert_asc m r
  end.

Section Handler.

Context {plan : Plan Message}.

(** [.order("created_at", { ascending: true })], with no second sort
    key. *)
Definition order_created_at_asc (l : list Message) : list Message :=
  fold_right insert_asc [] (scan l).

(** The body of the handler's [try], for the methods that reach it. *)
Definition serve (now : timestamptz) (complaints : store) (t : thread)
  (req : MessageRequest) : message_error + (Reply * thread) :=
  match msg_method req with
  | GET =>
      match query_complaint_id req with
      | id_falsy =>
          inr ({| reply_status := 400;
                  reply_payload :=
                    refused (lit "complaint_id is required"%string) |}, t)
      | id_malformed => inl uuid_syntax
      | id_uuid complaintId =>
          let data :=
            order_created_at_asc
              (filter (fun m => (complaint_id m =? complaintId)%N) t) in
          inr ({| reply_status := 200; reply_payload := messages_json data |}, t)
      end
  | POST =>
      match msg_json req with
      | None => inl bad_json
      | Some j =>
          match post_complaint_id j,
                post_message_text j,
                post_sender_role j with
          | id_falsy, _, _ | _, Undefined, _ | _, Null, _
          | _, _, Undefined | _, _, Null =>
              inr ({| reply_status := 400;
                      reply_payload :=
                        refused (lit "complaint_id, message_text, and sender_role are required"%string) |}, t)
          | cid, Present text, Present role =>
              if negb (truthy_string text) || negb (truthy_string role)
              then
                inr ({| reply_status := 400;
                        reply_payload :=
                          refused (lit "complaint_id, message_text, and sender_role are required"%string) |}, t)
              else if negb (jstring_eqb role role_user)
                      && negb (jstring_eqb role role_admin)
              then
                inr ({| reply_status := 400;
                        reply_payload :=
                          refused (lit "sender_role must be 'user' or 'admin'"%string) |}, t)
              else
                match cid with
                | id_falsy | id_malformed => inl uuid_syntax
                | id_uuid target =>
                    match insert_message now complaints t target text role with
                    | inl error => inl error
                    | inr (data, t') =>
                        inr ({| reply_status := 200;
                                reply_payload := message_json data |}, t')
                    end
                end
          end
      end
  | _ =>
      inr ({| reply_status := 405;
              reply_payload := refused (lit "Method not allowed"%string) |}, t)
  end.

(** [Deno.serve]: the response, and the messages after the request. *)
Definition handle (now : timestamptz) (complaints : store) (t : thread)
  (req : MessageRequest) : Reply * thread :=
  match msg_method req with
  | OPTIONS => ({| reply_status := 200; reply_payload := preflight |}, t)
  | _ =>
      match serve now complaints t req with
      | inr out => out
      | inl error =>
          ({| reply_status := 500; reply_payload := failed error |}, t)
      end
  end.

(** A run of requests, each at its own clock reading. *)
Fixpoint run (complaints : store) (t : thread)
  (reqs : list (timestamptz * MessageRequest)) : thread :=
  match reqs with
  | [] => t
  | (now, req) :: rest => run complaints (snd (handle now complaints t req)) rest
  end.

End Handler.

End ComplaintMessages.

(* ================================================================== *)
(** ** Vocabulary of the properties, continued *)

Module Props2.

Import ProcessComplaint ManageComplaints.

(** The columns no request writes after the insert. *)
Definition frozen (c c' : Complaint) : Prop :=
  id c' = id c
  /\ complaint_text c' = complaint_text c
  /\ category c' = category c
  /\ sentiment c' = sentiment c
  /\ priority c' = priority c
  /\ ai_response c' = ai_response c
  /\ ai_confidence_score c' = ai_confidence_score c
  /\ ai_explanation c' = ai_explanation c
  /\ user_id c' = user_id c
  /\ user_email c' = user_email c
  /\ created_at c' = created_at c.

(** Equal in every column but [updated_at]. *)
Definition same_but_updated_at (c c' : Complaint) : Prop :=
  frozen c c'
  /\ status c' = status c
  /\ feedback_helpful c' = feedback_helpful c.

(** The texts a stored complaint always has. *)
Definition well_formed (c : Complaint) : Prop :=
  non_blank (complaint_text c)
  /\ category c <> [] /\ sentiment c <> []
  /\ priority c <> [] /\ ai_response c <> []
  /\ status c <> [].

(** The status a second PUT leaves, given the first's. *)
Definition later_status (st1 st2 : field jstring) : field jstring :=
  match st2 with
  | Present x => if truthy_string x then st2 else st1
  | Undefined | Null => st1
  end.

(** The feedback a second PUT leaves, given the first's. *)
Definition later_feedback (fb1 fb2 : field bool) : field bool :=
  match fb2 with
  | Undefined => fb1
  | Null | Present _ => fb2
  end.

(** The whole number a fitting score denotes. *)
Definition whole (q : number) : Z :=
  (QArith_base.Qnum q / Z.pos (QArith_base.Qden q))%Z.

Definition newest_first (l : list Complaint) : Prop :=
  StronglySorted (fun a b => (created_at b <= created_at a)%Z) l.

Definition oldest_first (l : list ComplaintMessages.Message) : Prop :=
  StronglySorted
    (fun a b => (ComplaintMessages.message_created_at a
                 <= ComplaintMessages.message_created_at b)%Z) l.

(** What every stored message satisfies. *)
Definition valid_message (complaints : store) (m : ComplaintMessages.Message)
  : Prop :=
  (ComplaintMessages.sender_role m = ComplaintMessages.role_user
   \/ ComplaintMessages.sender_role m = ComplaintMessages.role_admin)
  /\ ComplaintMessages.message_text m <> []
  /\ In (ComplaintMessages.complaint_id m) (map id complaints).

End Props2.

Import Props2.

(* ================================================================== *)
(** ** Trimming *)

Section Trim.

Lemma trimStart_whitespace_only (t : jstring) :
  whitespace_only t -> trimStart t = [].
Proof.
  induction 1 as [|c t Hc _ IH]; simpl; [reflexivity|].
  now rewrite Hc.
Qed.

Lemma trim_whitespace_only (t : jstring) :
  whitespace_only t -> trim t = [].
Proof.
  intros H. unfold trim, trimEnd.
  now rewrite (trimStart_whitespace_only H).
Qed.

Lemma trimStart_non_blank (t : jstring) :
  non_blank t -> non_blank (trimStart t).
Proof.
  unfold non_blank.
  induction t as [|c t IH]; intros H; simpl; [exact H|].
  destruct (isWhiteSpace c) eqn:Hc; [|exact H].
  apply IH. inversion H; subst; [congruence|assumption].
Qed.

Lemma non_blank_rev (t : jstring) : non_blank t -> non_blank (rev t).
Proof.
  unfold non_blank. rewrite !Exists_exists.
  intros [c [Hin Hc]]. exists c. split; [|exact Hc].
  now apply in_rev in Hin.
Qed.

Lemma trim_non_blank (t : jstring) : non_blank t -> non_blank (trim t).
Proof.
  intros H. unfold trim, trimEnd.
  now apply non_blank_rev, trimStart_non_blank, non_blank_rev,
    trimStart_non_blank.
Qed.

Lemma non_blank_not_empty (t : jstring) : non_blank t -> t <> [].
Proof. intros H ->. inversion H. Qed.

(** A text is white space only, or has a code unit that is not. *)
Lemma whitespace_only_or_non_blank (t : jstring) :
  whitespace_only t \/ non_blank t.
Proof.
  induction t as [|c t [IH|IH]].
  - left. constructor.
  - destruct (isWhiteSpace c) eqn:Hc.
    + left. now constructor.
    + right. now constructor.
  - right. now apply Exists_cons_tl.
Qed.

Lemma non_blank_not_whitespace_only (t : jstring) :
  non_blank t -> ~ whitespace_only t.
Proof.
  unfold non_blank, whitespace_only.
  rewrite Exists_exists, Forall_forall.
  intros [c [Hin Hc]] Hall. specialize (Hall c Hin). congruence.
Qed.

End Trim.

(* ================================================================== *)
(** ** The intake test on [complaint_text] *)

Section Blank.

Import ProcessComplaint.

Lemma blank_of_blank_text (ct : field jstring) :
  blank_text ct -> blank ct = true.
Proof.
  destruct 1 as [| |t Ht]; try reflexivity.
  unfold blank. rewrite (trim_whitespace_only Ht). simpl.
  apply orb_true_r.
Qed.

Lemma blank_of_non_blank (t : jstring) :
  non_blank t -> blank (Present t) = false.
Proof.
  intros H. unfold blank.
  pose proof (non_blank_not_empty H) as Ht.
  pose proof (non_blank_not_empty (trim_non_blank H)) as Htrim.
  destruct t as [|c t]; [congruence|].
  destruct (trim (c :: t)); [congruence|reflexivity].
Qed.

(** The handler's test is the property's notion of a blank text. *)
Lemma blank_iff (ct : field jstring) : blank ct = true <-> blank_text ct.
Proof.
  split; [|apply blank_of_blank_text].
  destruct ct as [| |t]; intros H; try constructor.
  destruct (whitespace_only_or_non_blank t) as [Hw|Hn]; [assumption|].
  rewrite (blank_of_non_blank Hn) in H. discriminate.
Qed.

End Blank.

(* ================================================================== *)
(** ** The inference gateway *)

Section Gateway.

Import ProcessComplaint.

Lemma lacks_falsy (f : field jstring) :
  lacks f -> truthy_field truthy_string f = false.
Proof. now destruct 1. Qed.

Lemma incomplete_not_complete (p : Predictions) :
  incomplete p -> complete p = false.
Proof.
  unfold incomplete, complete.
  intros [H|[H|[H|H]]]; rewrite (lacks_falsy H);
    repeat rewrite ?andb_false_r, ?andb_false_l; reflexivity.
Qed.

Lemma response_ok_false (st : Z) :
  (st < 200 \/ 299 < st)%Z -> response_ok st = false.
Proof.
  intros H. unfold response_ok.
  destruct (200 <=? st)%Z eqn:H1; [|reflexivity].
  destruct (st <=? 299)%Z eqn:H2; [|reflexivity].
  apply Z.leb_le in H1, H2. lia.
Qed.

(** Every failure mode makes the gateway return [null]. *)
Lemma getMLPredictions_fails (w : World) (text : jstring) :
  inference_fails w text -> getMLPredictions w text = None.
Proof.
  unfold getMLPredictions.
  destruct 1 as [[H|H] | url H Hf | url st b H Hf Hst
                | url st b H Hf Hb | url st p H Hf Hp];
    rewrite H; try reflexivity;
    destruct (truthy_string url); try reflexivity; simpl;
    rewrite Hf; try reflexivity.
  - now rewrite (response_ok_false Hst).
  - destruct (response_ok st); [simpl|reflexivity].
    now destruct Hb as [->|[->| ->]].
  - destruct (response_ok st); [simpl|reflexivity].
    now rewrite (incomplete_not_complete Hp).
Qed.

(** What the gateway returns has the four required strings. *)
Lemma getMLPredictions_complete (w : World) (text : jstring) (p : Predictions) :
  getMLPredictions w text = Some p -> complete p = true.
Proof.
  unfold getMLPredictions.
  destruct (ML_SERVICE_URL w) as [url|]; [|discriminate].
  destruct (truthy_string url); [simpl|discriminate].
  destruct (fetch w _ text) as [|st b]; [discriminate|].
  destruct (response_ok st); [simpl|discriminate].
  destruct b as [| | |q]; try discriminate.
  destruct (complete q) eqn:Hq; [simpl|discriminate].
  now intros [= <-].
Qed.

(** What the gateway returns is what the endpoint answered. *)
Lemma getMLPredictions_answer (w : World) (text : jstring) (p : Predictions) :
  getMLPredictions w text = Some p ->
  exists url st,
    ML_SERVICE_URL w = Some url
    /\ fetch w (url ++ lit "/predict"%string) text
       = fetch_response st (body_object p).
Proof.
  unfold getMLPredictions.
  destruct (ML_SERVICE_URL w) as [url|]; [|discriminate].
  destruct (truthy_string url); [simpl|discriminate].
  destruct (fetch w _ text) as [|st b] eqn:Hf; [discriminate|].
  destruct (response_ok st); [simpl|discriminate].
  destruct b as [| | |q]; try discriminate.
  destruct (complete q); [simpl|discriminate].
  intros [= <-]. now exists url, st.
Qed.

Lemma truthy_present (f : field jstring) :
  truthy_field truthy_string f = true ->
  exists t, f = Present t /\ t <> [].
Proof.
  destruct f as [| |t]; try discriminate.
  destruct t; [discriminate|]. intros _. eexists. split; [reflexivity|].
  discriminate.
Qed.

End Gateway.

(* ================================================================== *)
(** ** Intake *)

Section Intake.

Import ProcessComplaint.

Lemma int4_in_int4_number (q : number) :
  int4_number q -> exists z, int4_in q = inr z.
Proof.
  intros [z [Hn Hr]]. exists z. unfold int4_in. cbv zeta. rewrite Hn.
  rewrite Z.mod_mul by discriminate. rewrite Z.div_mul by discriminate.
  simpl negb. cbv iota.
  destruct (-2147483648 <=? z)%Z eqn:H1; [|apply Z.leb_gt in H1; lia].
  destruct (z <=? 2147483647)%Z eqn:H2; [|apply Z.leb_gt in H2; lia].
  reflexivity.
Qed.

Lemma int4_number_int4_in (q : number) (z : Z) :
  int4_in q = inr z -> int4_number q.
Proof.
  unfold int4_in. cbv zeta.
  destruct (QArith_base.Qnum q mod Z.pos (QArith_base.Qden q) =? 0)%Z eqn:Hm;
    [simpl|discriminate].
  destruct (-2147483648 <=? _)%Z eqn:H1;
    [|destruct (Z.abs _ <? _)%Z; discriminate].
  destruct (_ <=? 2147483647)%Z eqn:H2;
    [|destruct (Z.abs _ <? _)%Z; discriminate].
  intros [= <-]. apply Z.eqb_eq in Hm. apply Z.leb_le in H1, H2.
  exists (QArith_base.Qnum q / Z.pos (QArith_base.Qden q))%Z.
  split; [|lia].
  pose proof (Z.div_mod (QArith_base.Qnum q) (Z.pos (QArith_base.Qden q))) as D.
  rewrite Hm in D. rewrite D at 1 by discriminate. lia.
Qed.

(** The predictions a request works with: the gateway's, or the fallback. *)
Lemma score_of_fallback :
  int4_in (or_default truthy_number (ml_confidence_score getFallbackValues)
             (number_of_Z 0)) = inr 50%Z.
Proof. reflexivity. Qed.

(** A storable string passes the conversion unchanged. *)
Lemma text_in_storable (t : jstring) :
  storable t -> text_in (Some t) = inr (Some t).
Proof. unfold storable, text_in. now intros ->. Qed.

(** What passes the conversion is what came in, and is storable. *)
Lemma text_in_inv (x y : option jstring) :
  text_in x = inr y -> y = x /\ forall t, x = Some t -> storable t.
Proof.
  unfold text_in, storable. destruct x as [t|].
  - destruct (text_error t) eqn:E; [discriminate|].
    intros [= <-]. split; [reflexivity|]. now intros t' [= <-].
  - intros [= <-]. split; [reflexivity|discriminate].
Qed.

Lemma text_in_fits (x : option jstring) :
  (forall t, x = Some t -> storable t) -> text_in x = inr x.
Proof.
  destruct x as [t|]; [|reflexivity].
  intros H. apply text_in_storable. now apply H.
Qed.

(** U+0000 is in no storable string. *)
Lemma storable_no_nul (t : jstring) : storable t -> ~ In 0%N t.
Proof.
  unfold storable.
  assert (H : forall n (u : jstring),
             (List.length u <= n)%nat -> text_error u = None -> ~ In 0%N u).
  { induction n as [|n IH]; intros u Hn Hu.
    - destruct u; [tauto|simpl in Hn; lia].
    - destruct u as [|c u]; [tauto|]. simpl in Hn. simpl in Hu.
      destruct (high_surrogate c) eqn:Hh.
      + destruct u as [|d u]; [discriminate|].
        destruct (low_surrogate d) eqn:Hl; [|discriminate].
        simpl in Hn. intros [E|[E|E]].
        * subst c. discriminate.
        * subst d. discriminate.
        * revert E. apply IH; [lia|exact Hu].
      + destruct (low_surrogate c); [discriminate|].
        destruct (N.eqb_spec c 0) as [E0|E0]; [discriminate|].
        intros [E|E]; [congruence|].
        revert E. apply IH; [lia|exact Hu]. }
  intros Ht. now apply (H (List.length t)).
Qed.

(** What an accepted insert stores: the values handed to it. *)
Lemma insert_inv (t : timestamptz) (s s' : store) (v : insert_values)
  (c : Complaint) :
  Schema.insert t s v = inr (c, s') ->
  s' = s ++ [c]
  /\ id c = gen_random_uuid s
  /\ iv_complaint_text v = Some (complaint_text c)
  /\ iv_category v = Some (category c)
  /\ iv_sentiment v = Some (sentiment c)
  /\ iv_priority v = Some (priority c)
  /\ iv_ai_response v = Some (ai_response c)
  /\ match iv_ai_confidence_score v with
     | Some q => int4_in q = inr (ai_confidence_score c)
     | None => ai_confidence_score c = 0%Z
     end
  /\ ai_explanation c = Some match iv_ai_explanation v with
                             | Some e => e
                             | None => []
                             end
  /\ status c = match iv_status v with Some st => st | None => Pending end
  /\ feedback_helpful c = None
  /\ user_id c = iv_user_id v
  /\ user_email c = iv_user_email v.
Proof.
  unfold Schema.insert, Schema.bind. intros E.
  destruct (text_in (iv_complaint_text v)) as [|x1] eqn:E1; [discriminate|].
  destruct (text_in (iv_category v)) as [|x2] eqn:E2; [discriminate|].
  destruct (text_in (iv_sentiment v)) as [|x3] eqn:E3; [discriminate|].
  destruct (text_in (iv_priority v)) as [|x4] eqn:E4; [discriminate|].
  destruct (text_in (iv_ai_response v)) as [|x5] eqn:E5; [discriminate|].
  destruct (text_in (iv_ai_explanation v)) as [|x6] eqn:E6; [discriminate|].
  destruct (text_in (iv_status v)) as [|x7] eqn:E7; [discriminate|].
  destruct (text_in (iv_user_email v)) as [|x8] eqn:E8; [discriminate|].
  apply text_in_inv in E1, E2, E3, E4, E5, E6, E7, E8.
  destruct E1 as [-> _], E2 as [-> _], E3 as [-> _], E4 as [-> _],
           E5 as [-> _], E6 as [-> _], E7 as [-> _], E8 as [-> _].
  destruct (match iv_ai_confidence_score v with
            | Some q => int4_in q
            | None => inr 0%Z
            end) as [|z] eqn:Ez; [discriminate|].
  destruct (iv_complaint_text v); [|discriminate].
  destruct (iv_category v); [|discriminate].
  destruct (iv_sentiment v); [|discriminate].
  destruct (iv_priority v); [|discriminate].
  destruct (iv_ai_response v); [|discriminate].
  cbn [not_null] in E. injection E as <- <-. cbn.
  repeat split.
  destruct (iv_ai_confidence_score v); [exact Ez|congruence].
Qed.

(** Every string of a stored row is one its column takes. *)
Lemma insert_storable (t : timestamptz) (s s' : store) (v : insert_values)
  (c : Complaint) :
  Schema.insert t s v = inr (c, s') ->
  storable (complaint_text c) /\ storable (category c)
  /\ storable (sentiment c) /\ storable (priority c)
  /\ storable (ai_response c)
  /\ (forall e, iv_ai_explanation v = Some e -> storable e)
  /\ (forall e, user_email c = Some e -> storable e).
Proof.
  intros E. destruct (@insert_inv _ _ _ _ _ E)
    as [_ [_ [I1 [I2 [I3 [I4 [I5 [_ [_ [_ [_ [_ I11]]]]]]]]]]]].
  revert E. unfold Schema.insert, Schema.bind.
  destruct (text_in (iv_complaint_text v)) as [|x1] eqn:E1; [discriminate|].
  destruct (text_in (iv_category v)) as [|x2] eqn:E2; [discriminate|].
  destruct (text_in (iv_sentiment v)) as [|x3] eqn:E3; [discriminate|].
  destruct (text_in (iv_priority v)) as [|x4] eqn:E4; [discriminate|].
  destruct (text_in (iv_ai_response v)) as [|x5] eqn:E5; [discriminate|].
  destruct (text_in (iv_ai_explanation v)) as [|x6] eqn:E6; [discriminate|].
  destruct (text_in (iv_status v)) as [|x7] eqn:E7; [discriminate|].
  destruct (text_in (iv_user_email v)) as [|x8] eqn:E8; [discriminate|].
  intros _.
  apply text_in_inv in E1, E2, E3, E4, E5, E6, E8.
  destruct E1 as [_ S1], E2 as [_ S2], E3 as [_ S3], E4 as [_ S4],
           E5 as [_ S5], E6 as [_ S6], E8 as [_ S8].
  rewrite I11. auto 10.
Qed.

(** The insert takes a row whose strings are storable, whose score is an
    integer and whose five required strings are there. *)
Lemma insert_accepts (t : timestamptz) (s : store) (v : insert_values)
  (z : Z) :
  iv_complaint_text v <> None -> iv_category v <> None ->
  iv_sentiment v <> None -> iv_priority v <> None ->
  iv_ai_response v <> None ->
  (forall x, iv_complaint_text v = Some x -> storable x) ->
  (forall x, iv_category v = Some x -> storable x) ->
  (forall x, iv_sentiment v = Some x -> storable x) ->
  (forall x, iv_priority v = Some x -> storable x) ->
  (forall x, iv_ai_response v = Some x -> storable x) ->
  (forall x, iv_ai_explanation v = Some x -> storable x) ->
  (forall x, iv_status v = Some x -> storable x) ->
  (forall x, iv_user_email v = Some x -> storable x) ->
  match iv_ai_confidence_score v with
  | Some q => int4_in q
  | None => inr 0%Z
  end = inr z ->
  exists c, Schema.insert t s v = inr (c, s ++ [c]).
Proof.
  intros N1 N2 N3 N4 N5 S1 S2 S3 S4 S5 S6 S7 S8 Hz.
  unfold Schema.insert.
  rewrite (@text_in_fits _ S1), (@text_in_fits _ S2), (@text_in_fits _ S3),
    (@text_in_fits _ S4), (@text_in_fits _ S5), (@text_in_fits _ S6),
    (@text_in_fits _ S7), (@text_in_fits _ S8).
  cbn [Schema.bind]. rewrite Hz. cbn [Schema.bind].
  destruct (iv_complaint_text v); [|congruence].
  destruct (iv_category v); [|congruence].
  destruct (iv_sentiment v); [|congruence].
  destruct (iv_priority v); [|congruence].
  destruct (iv_ai_response v); [|congruence].
  cbn [not_null Schema.bind]. eexists. reflexivity.
Qed.

Lemma storable_field_value (f : field jstring) :
  storable_field f -> forall x, value_of f = Some x -> storable x.
Proof.
  intros H x. destruct f as [| |t]; try discriminate.
  intros [= <-]. now apply H.
Qed.

Lemma storable_or_default (f : field jstring) :
  storable_field f -> storable (or_default truthy_string f []).
Proof.
  intros H. destruct f as [| |t]; try reflexivity.
  unfold or_default. destruct (truthy_string t); [now apply H|reflexivity].
Qed.

Lemma truthy_value (f : field jstring) :
  truthy_field truthy_string f = true -> value_of f <> None.
Proof. destruct f; discriminate. Qed.

(** The predictions a request works with have the four labels, and
    storable ones where the endpoint's are. *)
Lemma predictions_complete (w : World) (text : jstring) :
  complete match getMLPredictions w text with
           | Some p => p
           | None => getFallbackValues
           end = true.
Proof.
  destruct (getMLPredictions w text) as [p|] eqn:Hp; [|reflexivity].
  exact (getMLPredictions_complete _ _ Hp).
Qed.

Lemma complete_labels (p : Predictions) :
  complete p = true ->
  value_of (ml_category p) <> None /\ value_of (ml_sentiment p) <> None
  /\ value_of (ml_priority p) <> None /\ value_of (ml_ai_response p) <> None.
Proof.
  unfold complete. rewrite !andb_true_iff.
  intros [[[H1 H2] H3] H4]. auto using truthy_value.
Qed.

Lemma complete_nonempty (p : Predictions) (c : Complaint) :
  complete p = true ->
  value_of (ml_category p) = Some (category c) ->
  value_of (ml_sentiment p) = Some (sentiment c) ->
  value_of (ml_priority p) = Some (priority c) ->
  value_of (ml_ai_response p) = Some (ai_response c) ->
  category c <> [] /\ sentiment c <> []
  /\ priority c <> [] /\ ai_response c <> [].
Proof.
  unfold complete. rewrite !andb_true_iff.
  intros [[[H1 H2] H3] H4] E1 E2 E3 E4.
  apply truthy_present in H1, H2, H3, H4.
  destruct H1 as [x1 [P1 N1]], H2 as [x2 [P2 N2]],
           H3 as [x3 [P3 N3]], H4 as [x4 [P4 N4]].
  rewrite P1 in E1. rewrite P2 in E2. rewrite P3 in E3. rewrite P4 in E4.
  cbn in E1, E2, E3, E4. repeat split; congruence.
Qed.

(** What a submission with a non-blank text comes to: the row is stored
    as the handler built it, or the insert is refused, which it is only
    for a value that does not fit its column. *)
Lemma serve_outcome (w : World) (s : store) (auth : option jstring)
  (text : jstring) :
  non_blank text ->
  let p := match getMLPredictions w text with
           | Some p => p
           | None => getFallbackValues
           end in
  (exists c,
     serve w s (submission auth (Present text)) = inr (ok c, s ++ [c])
     /\ complaint_text c = text
     /\ value_of (ml_category p) = Some (category c)
     /\ value_of (ml_sentiment p) = Some (sentiment c)
     /\ value_of (ml_priority p) = Some (priority c)
     /\ value_of (ml_ai_response p) = Some (ai_response c)
     /\ int4_in (or_default truthy_number (ml_confidence_score p)
                   (number_of_Z 0)) = inr (ai_confidence_score c)
     /\ ai_explanation c = Some (or_default truthy_string (ml_explanation p) [])
     /\ status c = Pending
     /\ feedback_helpful c = None
     /\ user_id c = option_map user_uid (resolve_user w auth)
     /\ user_email c = match resolve_user w auth with
                       | Some u => user_mail u
                       | None => None
                       end
     /\ values_fit w auth text)
  \/ (exists e,
        serve w s (submission auth (Present text)) = inl (pg_error e)
        /\ ~ values_fit w auth text).
Proof.
  intros Hnb p. unfold values_fit. fold p.
  unfold serve, submission. cbn [json post_complaint_text].
  rewrite (blank_of_non_blank Hnb). fold p.
  match goal with
  | |- context [Schema.insert ?t ?s0 ?v] =>
      set (vals := v); destruct (Schema.insert t s0 vals) as [e|[c s']] eqn:E
  end.
  - right. exists e. split; [reflexivity|].
    intros [F1 [[L1 [L2 [L3 L4]]] [L5 [Hn F5]]]].
    destruct (int4_in_int4_number Hn) as [z Hz].
    pose proof (@complete_labels _ (predictions_complete w text))
      as [C1 [C2 [C3 C4]]]. fold p in C1, C2, C3, C4.
    destruct (@insert_accepts (now w) s vals z) as [c Hc]; unfold vals;
      cbn [iv_complaint_text iv_category iv_sentiment iv_priority
           iv_ai_response iv_ai_explanation iv_status iv_user_email
           iv_ai_confidence_score value_of];
      try assumption; try discriminate;
      try (now apply storable_field_value).
    + intros x Hx. now replace x with text by congruence.
    + intros x Hx.
      replace x with (or_default truthy_string (ml_explanation p) [])
        by congruence.
      now apply storable_or_default.
    + intros x Hx. now replace x with Pending by congruence.
    + intros x Hx. cbn [authorization] in Hx.
      destruct (resolve_user w auth) as [u|] eqn:Hu; [|discriminate Hx].
      exact (F5 u x Hu Hx).
    + rewrite E in Hc. discriminate Hc.
  - left. exists c.
    destruct (@insert_storable _ _ _ _ _ E) as [T1 [T2 [T3 [T4 [T5 [T6 T8]]]]]].
    destruct (@insert_inv _ _ _ _ _ E)
      as [-> [_ [I1 [I2 [I3 [I4 [I5 [I6 [I7 [I8 [I9 [I10 I11]]]]]]]]]]]].
    unfold vals in *.
    cbn [iv_complaint_text iv_category iv_sentiment iv_priority
         iv_ai_response iv_ai_explanation iv_status iv_user_email
         iv_user_id iv_ai_confidence_score value_of] in *.
    split; [reflexivity|]. injection I1 as I1.
    do 11 (split; [auto; fail|]).
    split; [now rewrite I1|].
    split.
    { repeat split; intros x Hx.
      - rewrite Hx in I2. now replace x with (category c) by (cbn in I2; congruence).
      - rewrite Hx in I3. now replace x with (sentiment c) by (cbn in I3; congruence).
      - rewrite Hx in I4. now replace x with (priority c) by (cbn in I4; congruence).
      - rewrite Hx in I5. now replace x with (ai_response c) by (cbn in I5; congruence). }
    split.
    { intros x Hx. specialize (T6 _ eq_refl). rewrite Hx in T6.
      cbn [or_default] in T6. destruct x as [|y x]; [reflexivity|exact T6]. }
    split; [exact (@int4_number_int4_in _ _ I6)|].
    intros u e Hu He. apply T8. rewrite I11. cbn [authorization].
    now rewrite Hu.
Qed.

(** The first generation: no score, no explanation and no sender reach
    the insert. *)
Lemma first_generation_outcome (w : World) (s : store) (auth : option jstring)
  (text : jstring) :
  non_blank text ->
  let p := match getMLPredictions w text with
           | Some p => p
           | None => ProcessComplaintV1.getFallbackValues
           end in
  (exists c,
     ProcessComplaintV1.serve w s (submission auth (Present text))
     = inr (ok c, s ++ [c])
     /\ complaint_text c = text
     /\ value_of (ml_category p) = Some (category c)
     /\ value_of (ml_sentiment p) = Some (sentiment c)
     /\ value_of (ml_priority p) = Some (priority c)
     /\ value_of (ml_ai_response p) = Some (ai_response c)
     /\ ai_confidence_score c = 0%Z
     /\ ai_explanation c = Some []
     /\ status c = Pending
     /\ feedback_helpful c = None
     /\ user_id c = None
     /\ user_email c = None)
  \/ (exists e,
        ProcessComplaintV1.serve w s (submission auth (Present text))
        = inl (pg_error e)
        /\ ~ (storable text /\ storable_labels p)).
Proof.
  intros Hnb p. unfold ProcessComplaintV1.serve, submission.
  cbn [json post_complaint_text].
  rewrite (blank_of_non_blank Hnb). fold p.
  assert (Hp : complete p = true).
  { unfold p. destruct (getMLPredictions w text) as [q|] eqn:Hq;
      [exact (getMLPredictions_complete _ _ Hq)|reflexivity]. }
  match goal with
  | |- context [Schema.insert ?t ?s0 ?v] =>
      set (vals := v); destruct (Schema.insert t s0 vals) as [e|[c s']] eqn:E
  end.
  - right. exists e. split; [reflexivity|].
    intros [F1 [L1 [L2 [L3 L4]]]].
    pose proof (@complete_labels _ Hp) as [C1 [C2 [C3 C4]]].
    destruct (@insert_accepts (now w) s vals 0%Z) as [c Hc]; unfold vals;
      cbn [iv_complaint_text iv_category iv_sentiment iv_priority
           iv_ai_response iv_ai_explanation iv_status iv_user_email
           iv_ai_confidence_score value_of];
      try assumption; try discriminate; try reflexivity;
      try (now apply storable_field_value).
    + intros x Hx. now replace x with text by congruence.
    + intros x Hx. now replace x with Pending by congruence.
    + rewrite E in Hc. discriminate Hc.
  - left. exists c.
    destruct (@insert_inv _ _ _ _ _ E)
      as [-> [_ [I1 [I2 [I3 [I4 [I5 [I6 [I7 [I8 [I9 [I10 I11]]]]]]]]]]]].
    unfold vals in *.
    cbn [iv_complaint_text iv_category iv_sentiment iv_priority
         iv_ai_response iv_ai_explanation iv_status iv_user_email
         iv_user_id iv_ai_confidence_score value_of] in *.
    split; [reflexivity|]. injection I1 as I1.
    repeat split; auto.
Qed.

Lemma first_generation_labels_fit (w : World) (text : jstring) :
  labels_fit w text ->
  storable_labels match getMLPredictions w text with
                  | Some p => p
                  | None => ProcessComplaintV1.getFallbackValues
                  end.
Proof.
  intros Hfit. destruct (getMLPredictions w text) as [p|] eqn:Hp.
  - destruct (getMLPredictions_answer _ _ Hp) as [url [st [Hu Hf]]].
    exact (Hfit url st p Hu Hf).
  - repeat split; intros t [= <-]; vm_compute; reflexivity.
Qed.

Lemma fallback_labels_storable :
  storable_labels getFallbackValues
  /\ storable_field (ml_explanation getFallbackValues)
  /\ storable_labels ProcessComplaintV1.getFallbackValues.
Proof.
  repeat split; intros t [= <-]; vm_compute; reflexivity.
Qed.

End Intake.

Section IntakeProperties.

Import ProcessComplaint.

(** C1, as the code has it. A submission with a non-blank text whose
    inference call fails (endpoint unconfigured, unreachable or timed
    out, non-success status, unreadable payload, or a payload lacking one
    of category, sentiment, priority, ai_response) is answered as if no
    endpoint were configured at all: the failure itself never reaches the
    caller.  When the text and the sender's email are storable it is
    answered with 200, and the row appended to the table carries the
    static fallback: category "Other", sentiment "Neutral", priority
    "Low" and the canned response, with confidence score 50 in the
    current function and the column default 0 in its first generation,
    whose fallback has no score. *)
Theorem fallback_on_inference_failure (w : World) (s : store)
  (auth : option jstring) (text : jstring) :
  non_blank text ->
  inference_fails w text ->
  handle w s (submission auth (Present text))
  = handle (without_endpoint w) s (submission auth (Present text))
  /\ (storable text ->
      sender_fits w auth ->
      (exists c,
         handle w s (submission auth (Present text)) = (ok c, s ++ [c])
         /\ complaint_text c = text
         /\ category c = lit "Other"%string
         /\ sentiment c = lit "Neutral"%string
         /\ priority c = lit "Low"%string
         /\ Present (ai_response c) = ml_ai_response getFallbackValues
         /\ ai_confidence_score c = 50%Z
         /\ status c = Pending)
      /\ (exists c,
            ProcessComplaintV1.handle w s (submission auth (Present text))
            = (ok c, s ++ [c])
            /\ complaint_text c = text
            /\ category c = lit "Other"%string
            /\ sentiment c = lit "Neutral"%string
            /\ priority c = lit "Low"%string
            /\ Present (ai_response c)
               = ml_ai_response ProcessComplaintV1.getFallbackValues
            /\ ai_confidence_score c = 0%Z
            /\ status c = Pending)).
Proof.
  intros Hnb Hfail.
  pose proof fallback_labels_storable as [L [Le L1]].
  split.
  { unfold handle, serve, submission. cbn [method json post_complaint_text].
    rewrite (getMLPredictions_fails Hfail). reflexivity. }
  intros Hst Hsender. split.
  - pose proof (@serve_outcome w s auth text Hnb) as H.
    rewrite (getMLPredictions_fails Hfail) in H. cbv zeta in H.
    unfold handle. cbn [method submission].
    fold (submission auth (Present text)).
    destruct H as [[c [Hs [H1 [H2 [H3 [H4 [H5 [H6 [_ [H8 _]]]]]]]]]]
                  |[e [_ Hno]]].
    + exists c. rewrite Hs. split; [reflexivity|].
      rewrite score_of_fallback in H6.
      unfold getFallbackValues in H2, H3, H4, H5 |- *.
      cbn [value_of ml_category ml_sentiment ml_priority ml_ai_response]
        in H2, H3, H4, H5 |- *.
      repeat split; congruence.
    + exfalso. apply Hno. unfold values_fit.
      rewrite (getMLPredictions_fails Hfail). cbv zeta.
      repeat split; try assumption; try apply L.
      exists 50%Z. split; [reflexivity|lia].
  - pose proof (@first_generation_outcome w s auth text Hnb) as H.
    rewrite (getMLPredictions_fails Hfail) in H. cbv zeta in H.
    unfold ProcessComplaintV1.handle. cbn [method submission].
    fold (submission auth (Present text)).
    destruct H as [[c [Hs [H1 [H2 [H3 [H4 [H5 [H6 [_ [H8 _]]]]]]]]]]
                  |[e [_ Hno]]].
    + exists c. rewrite Hs. split; [reflexivity|].
      unfold ProcessComplaintV1.getFallbackValues in H2, H3, H4, H5 |- *.
      cbn [value_of ml_category ml_sentiment ml_priority ml_ai_response]
        in H2, H3, H4, H5 |- *.
      repeat split; congruence.
    + exfalso. apply Hno. split; assumption.
Qed.

(** With no endpoint configured and alice signed in, her complaint is
    stored with the fallback, under both generations of the function. *)
Lemma fallback_on_inference_failure_witness :
  (exists c,
     handle Sample.signed_in Sample.table
       (submission (Some (Bearer ++ Sample.token)) (Present Sample.text))
     = (ok c, Sample.table ++ [c])
     /\ complaint_text c = Sample.text
     /\ category c = lit "Other"%string
     /\ sentiment c = lit "Neutral"%string
     /\ priority c = lit "Low"%string
     /\ Present (ai_response c) = ml_ai_response getFallbackValues
     /\ ai_confidence_score c = 50%Z
     /\ status c = Pending)
  /\ (exists c,
        ProcessComplaintV1.handle Sample.signed_in Sample.table
          (submission (Some (Bearer ++ Sample.token)) (Present Sample.text))
        = (ok c, Sample.table ++ [c])
        /\ complaint_text c = Sample.text
        /\ category c = lit "Other"%string
        /\ sentiment c = lit "Neutral"%string
        /\ priority c = lit "Low"%string
        /\ Present (ai_response c)
           = ml_ai_response ProcessComplaintV1.getFallbackValues
        /\ ai_confidence_score c = 0%Z
        /\ status c = Pending).
Proof.
  apply (@fallback_on_inference_failure Sample.signed_in Sample.table
           (Some (Bearer ++ Sample.token)) Sample.text).
  - apply Exists_cons_hd. reflexivity.
  - apply unconfigured. left. reflexivity.
  - reflexivity.
  - intros u e Hu He. vm_compute in Hu. injection Hu as <-.
    injection He as <-. reflexivity.
Defined.

(** C1 as stated fails twice over.  A non-blank text with U+0000 in it
    meets an unconfigured endpoint: the insert is refused, the answer is
    500 and nothing is stored.  And on the first generation of the
    function a failed inference call stores score 0, not 50. *)
Lemma fallback_not_stored_or_unscored :
  non_blank Sample.lost_parcel
  /\ inference_fails Sample.offline Sample.lost_parcel
  /\ handle Sample.offline Sample.table
       (submission None (Present Sample.lost_parcel))
     = ({| status_code := 500;
           payload := error_json
             (thrown (pg_error untranslatable_character)) |},
        Sample.table)
  /\ inference_fails Sample.offline Sample.text
  /\ exists c,
       ProcessComplaintV1.handle Sample.offline Sample.table
         (submission None (Present Sample.text))
       = (ok c, Sample.table ++ [c])
       /\ ai_confidence_score c = 0%Z
       /\ ai_confidence_score c <> 50%Z.
Proof.
  split; [apply Exists_cons_hd; reflexivity|].
  split; [apply unconfigured; left; reflexivity|].
  split; [vm_compute; reflexivity|].
  split; [apply unconfigured; left; reflexivity|].
  eexists. split; [vm_compute; reflexivity|].
  split; [reflexivity|discriminate].
Qed.

(** C4. A submission whose complaint_text is missing, empty or white
    space only is answered with 400 "Complaint text is required", and
    the table is left as it was. *)
Theorem blank_submission_rejected (w : World) (s : store)
  (auth : option jstring) (ct : field jstring) :
  blank_text ct ->
  handle w s (submission auth ct)
  = ({| status_code := 400;
        payload := error_json
          (message (lit "Complaint text is required"%string)) |}, s).
Proof.
  intros H. unfold handle, serve, submission.
  cbn [method json post_complaint_text].
  now rewrite (blank_of_blank_text H).
Qed.

Lemma blank_submission_rejected_witness :
  blank_text (Present (lit "   "%string))
  /\ handle Sample.offline Sample.table
       (submission None (Present (lit "   "%string)))
     = ({| status_code := 400;
           payload := error_json
             (message (lit "Complaint text is required"%string)) |},
        Sample.table).
Proof.
  assert (H : blank_text (Present (lit "   "%string))).
  { apply blank_spaces. repeat constructor. }
  split; [exact H|].
  exact (blank_submission_rejected Sample.offline Sample.table None H).
Defined.



(** Where every value fits its column, the submission is stored. *)
Lemma fitting_submission_stored (w : World) (s : store)
  (auth : option jstring) (text : jstring) :
  non_blank text ->
  values_fit w auth text ->
  exists c,
    handle w s (submission auth (Present text)) = (ok c, s ++ [c])
    /\ complaint_text c = text
    /\ status c = Pending
    /\ feedback_helpful c = None
    /\ user_id c = option_map user_uid (resolve_user w auth)
    /\ user_email c = match resolve_user w auth with
                      | Some u => user_mail u
                      | None => None
                      end.
Proof.
  intros Hnb Hfit. unfold handle. cbn [method submission].
  fold (submission auth (Present text)).
  destruct (@serve_outcome w s auth text Hnb)
    as [[c [Hs [H1 [_ [_ [_ [_ [_ [_ [H8 [H9 [H10 [H11 _]]]]]]]]]]]]]
       |[e [_ Hno]]].
  - exists c. rewrite Hs. repeat split; assumption.
  - exfalso. exact (Hno Hfit).
Qed.


End IntakeProperties.

(* ================================================================== *)
(** ** Ordering and the primary key *)

Section Table.

Context {plan : Plan Complaint}.

Lemma In_insert_desc (c x : Complaint) (l : list Complaint) :
  In x (insert_desc c l) <-> x = c \/ In x l.
Proof.
  induction l as [|d t IH]; simpl.
  - intuition congruence.
  - destruct (created_at d <=? created_at c)%Z; simpl.
    + intuition congruence.
    + rewrite IH. intuition congruence.
Qed.

Lemma insert_desc_perm (c : Complaint) (l : list Complaint) :
  Permutation (c :: l) (insert_desc c l).
Proof.
  induction l as [|d t IH]; simpl; [reflexivity|].
  destruct (created_at d <=? created_at c)%Z; [reflexivity|].
  rewrite perm_swap. now apply perm_skip.
Qed.

(** Ordering rearranges what the scan delivers, which is the rows read. *)
Lemma order_created_at_desc_perm (l : list Complaint) :
  Permutation l (order_created_at_desc l).
Proof.
  unfold order_created_at_desc. rewrite (scan_Permutation l) at 1.
  induction (scan l) as [|c t IH]; simpl; [reflexivity|].
  rewrite <- insert_desc_perm. now apply perm_skip.
Qed.

(** Ordering neither drops nor invents a row. *)
Lemma In_order_created_at_desc (x : Complaint) (l : list Complaint) :
  In x (order_created_at_desc l) <-> In x l.
Proof.
  split; apply Permutation_in;
    [symmetry|]; apply order_created_at_desc_perm.
Qed.

Lemma insert_desc_sorted (c : Complaint) (l : list Complaint) :
  StronglySorted (fun a b => (created_at b <= created_at a)%Z) l ->
  StronglySorted (fun a b => (created_at b <= created_at a)%Z)
    (insert_desc c l).
Proof.
  induction 1 as [|d t Ht IH Hd]; simpl.
  - repeat constructor.
  - destruct (created_at d <=? created_at c)%Z eqn:E.
    + apply Z.leb_le in E. constructor; [now constructor|].
      constructor; [exact E|].
      rewrite Forall_forall in *. intros y Hy. specialize (Hd y Hy). lia.
    + apply Z.leb_gt in E. constructor; [exact IH|].
      rewrite Forall_forall in *. intros y Hy.
      apply In_insert_desc in Hy. destruct Hy as [->|Hy]; [lia|auto].
Qed.

(** Newest first. *)
Lemma order_created_at_desc_sorted (l : list Complaint) :
  StronglySorted (fun a b => (created_at b <= created_at a)%Z)
    (order_created_at_desc l).
Proof.
  unfold order_created_at_desc.
  induction (scan l) as [|c t IH]; simpl; [constructor|].
  now apply insert_desc_sorted.
Qed.

Lemma select_service_role (s : store) : Schema.select service_role s = s.
Proof.
  unfold Schema.select. induction s as [|c t IH]; simpl; congruence.
Qed.

Lemma filter_id_absent (target : uuid) (s : store) :
  ~ In target (map id s) ->
  filter (fun d => (id d =? target)%N) s = [].
Proof.
  induction s as [|a t IH]; simpl; intros H; [reflexivity|].
  destruct (N.eqb_spec (id a) target) as [E|E]; [tauto|].
  apply IH. tauto.
Qed.

(** Under the primary key an [id] selects one row. *)
Lemma filter_id_unique (s : store) (c : Complaint) :
  unique_ids s -> In c s ->
  filter (fun d => (id d =? id c)%N) s = [c].
Proof.
  unfold unique_ids.
  induction s as [|a t IH]; simpl; intros Hu Hin; [tauto|].
  inversion Hu as [|x l Hx Hl]; subst.
  destruct Hin as [->|Hin].
  - rewrite N.eqb_refl. now rewrite (filter_id_absent _ _ Hx).
  - destruct (N.eqb_spec (id a) (id c)) as [E|E].
    + exfalso. apply Hx. rewrite E. now apply in_map.
    + now apply IH.
Qed.

Lemma map_id_rewrite_row (target : uuid) (f : Complaint -> Complaint)
  (s : store) :
  (forall c, id (f c) = id c) ->
  map id (rewrite_row target f s) = map id s.
Proof.
  intros Hf. unfold rewrite_row. rewrite map_map.
  apply map_ext. intros c. destruct (id c =? target)%N; auto.
Qed.

Lemma In_rewrite_row (target : uuid) (f : Complaint -> Complaint)
  (s : store) (c : Complaint) :
  In c s -> id c = target -> In (f c) (rewrite_row target f s).
Proof.
  intros Hin E. unfold rewrite_row. apply in_map_iff.
  exists c. split; [|exact Hin]. now rewrite E, N.eqb_refl.
Qed.

Lemma rewrite_row_twice (target : uuid) (f g : Complaint -> Complaint)
  (s : store) :
  (forall c, id (f c) = id c) ->
  rewrite_row target g (rewrite_row target f s)
  = rewrite_row target (fun c => g (f c)) s.
Proof.
  intros Hf. unfold rewrite_row. rewrite map_map. apply map_ext.
  intros c. destruct (N.eqb_spec (id c) target) as [E|E].
  - now rewrite Hf, E, N.eqb_refl.
  - destruct (N.eqb_spec (id c) target); [contradiction|reflexivity].
Qed.

Lemma id_le_max (s : store) (c : Complaint) :
  In c s -> (id c <= fold_right (fun c m => N.max (id c) m) 0 s)%N.
Proof.
  induction s as [|a t IH]; simpl; [tauto|].
  intros [->|H]; [lia|]. specialize (IH H). lia.
Qed.

(** The generated identifier is fresh. *)
Lemma gen_random_uuid_fresh (s : store) : ~ In (gen_random_uuid s) (map id s).
Proof.
  intros H. apply in_map_iff in H. destruct H as [c [E Hin]].
  apply id_le_max in Hin. unfold gen_random_uuid in E. lia.
Qed.

(** An accepted insert keeps the primary key. *)
Lemma insert_unique_ids (t : timestamptz) (s s' : store) (v : insert_values)
  (c : Complaint) :
  unique_ids s -> Schema.insert t s v = inr (c, s') -> unique_ids s'.
Proof.
  unfold unique_ids. intros Hu H.
  destruct (@insert_inv _ _ _ _ _ H) as [-> [Hid _]].
  rewrite map_app. simpl.
  apply NoDup_app; [exact Hu|repeat constructor; simpl; tauto|].
  intros x Hx [<-|[]]. rewrite Hid in Hx.
  now apply gen_random_uuid_fresh in Hx.
Qed.

End Table.

(* ================================================================== *)
(** ** What a submission can do to the table *)

Section IntakeTable.

Import ProcessComplaint.

(** A body that does not parse is answered with 500; nothing is stored. *)
Lemma unparsable_submission (w : World) (s : store) (auth : option jstring) :
  handle w s {| method := POST; authorization := auth; json := None |}
  = ({| status_code := 500; payload := error_json (thrown js_error) |}, s).
Proof. reflexivity. Qed.

Lemma insert_appends (t : timestamptz) (s s' : store) (v : insert_values)
  (c : Complaint) :
  Schema.insert t s v = inr (c, s') -> s' = s ++ [c].
Proof. intros E. now destruct (@insert_inv _ _ _ _ _ E) as [-> _]. Qed.

Lemma serve_appends (w : World) (s : store) (req : Request post_json)
  (out : Response * store) :
  serve w s req = inr out ->
  snd out = s
  \/ exists c v,
       Schema.insert (now w) s v = inr (c, s ++ [c]) /\ snd out = s ++ [c].
Proof.
  unfold serve.
  destruct (json req) as [j|]; [|discriminate].
  destruct (blank (post_complaint_text j)).
  - intros [= <-]. now left.
  - match goal with
    | |- context [Schema.insert ?t ?s0 ?v] =>
        destruct (Schema.insert t s0 v) as [e|[c s']] eqn:E;
        [discriminate|]; intros [= <-]; right; exists c, v
    end.
    pose proof (insert_appends _ _ _ E) as ->. now split.
Qed.

(** A request leaves the table alone or appends one row. *)
Lemma handle_appends (w : World) (s : store) (req : Request post_json) :
  snd (handle w s req) = s
  \/ exists c v,
       Schema.insert (now w) s v = inr (c, s ++ [c])
       /\ snd (handle w s req) = s ++ [c].
Proof.
  unfold handle.
  destruct (serve w s req) as [e|out] eqn:E.
  - left. now destruct (method req).
  - destruct (method req); try (left; reflexivity);
      exact (serve_appends _ _ _ E).
Qed.

(** The primary key survives every submission. *)
Lemma submission_unique_ids (w : World) (s : store) (req : Request post_json) :
  unique_ids s -> unique_ids (snd (handle w s req)).
Proof.
  intros Hu. destruct (handle_appends w s req) as [->|[c [v [E ->]]]];
    [exact Hu|].
  exact (@insert_unique_ids _ _ _ _ _ Hu E).
Qed.

End IntakeTable.

(* ================================================================== *)
(** ** Updates through manage-complaints *)

Section Update.

Import ManageComplaints.

Context {plan : Plan Complaint}.

Lemma existsb_targeted_absent (r : db_role) (target : uuid) (s : store) :
  ~ In target (map id s) -> existsb (targeted r target) s = false.
Proof.
  induction s as [|a t IH]; simpl; intros H; [reflexivity|].
  unfold targeted at 1.
  destruct (N.eqb_spec (id a) target) as [E|E]; [tauto|]. simpl.
  apply IH. tauto.
Qed.

(** With no row to write, the statement reports no error. *)
Lemma update_error_missing (r : db_role) (target : uuid) (u : update_values)
  (s : store) :
  ~ In target (map id s) -> update_error r target u s = None.
Proof.
  intros H. unfold update_error. now rewrite existsb_targeted_absent.
Qed.

(** Nor does it with a status the column stores, or with none. *)
Lemma update_error_storable (r : db_role) (target : uuid) (u : update_values)
  (s : store) :
  (forall st, uv_status u = Some st -> storable st) ->
  update_error r target u s = None.
Proof.
  intros H. unfold update_error.
  destruct (existsb _ s); [|reflexivity].
  destruct (uv_status u) as [st|]; [|reflexivity]. now apply H.
Qed.

Lemma update_service_role (target : uuid) (u : update_values) (s : store) :
  update_error service_role target u s = None ->
  Schema.update service_role target u s
  = (map (apply_update u) (filter (fun d => (id d =? target)%N) s),
     rewrite_row target (apply_update u) s).
Proof.
  intros He. unfold Schema.update. rewrite He.
  unfold rewrite_row, targeted. f_equal.
  - f_equal. apply filter_ext. intros c. apply andb_true_r.
  - apply map_ext. intros c. now rewrite andb_true_r.
Qed.

(** The service role finds the row an existing [id] names. *)
Lemma update_single_found (u : update_values) (s : store) (c : Complaint) :
  unique_ids s -> In c s ->
  (forall st, uv_status u = Some st -> storable st) ->
  update_single service_role (id c) u s
  = inr (apply_update u c, rewrite_row (id c) (apply_update u) s).
Proof.
  intros Hu Hin Hst. unfold update_single.
  pose proof (@update_error_storable service_role (id c) u s Hst) as He.
  rewrite He. rewrite (@update_service_role (id c) u s He).
  now rewrite (@filter_id_unique s c Hu Hin).
Qed.

(** A status the column refuses, for a row that is there: the error is
    reported. *)
Lemma update_single_refused (u : update_values) (s : store) (c : Complaint)
  (st : jstring) (e : db_error) :
  In c s -> uv_status u = Some st -> text_error st = Some e ->
  update_single service_role (id c) u s = inl e.
Proof.
  intros Hin Hst He. unfold update_single, update_error.
  replace (existsb (targeted service_role (id c)) s) with true.
  - now rewrite Hst, He.
  - symmetry. apply existsb_exists. exists c. split; [exact Hin|].
    unfold targeted. now rewrite N.eqb_refl.
Qed.

(** An [id] no row carries: [.single()] reports an error, nothing is
    written. *)
Lemma update_single_missing (r : db_role) (target : uuid)
  (u : update_values) (s : store) :
  ~ In target (map id s) ->
  update_single r target u s = inl not_singular.
Proof.
  intros H. unfold update_single, Schema.update.
  rewrite (@update_error_missing r target u s H).
  replace (filter (targeted r target) s) with (@nil Complaint); [reflexivity|].
  symmetry. induction s as [|a t IH]; simpl in *; [reflexivity|].
  unfold targeted at 1.
  destruct (N.eqb_spec (id a) target) as [E|E]; [tauto|]. simpl.
  apply IH. tauto.
Qed.

Lemma updateData_status (clock : timestamptz) (j : put_json) :
  storable_field (put_status j) ->
  forall st, uv_status (updateData clock j) = Some st -> storable st.
Proof.
  intros H st. cbn [updateData uv_status].
  destruct (put_status j) as [| |x]; try discriminate.
  destruct (truthy_string x); [|discriminate].
  intros [= <-]. now apply H.
Qed.

(** A PUT for an existing complaint, whoever sends it. *)
Lemma put_existing (clock : timestamptz) (s : store) (auth : option jstring)
  (c : Complaint) (st : field jstring) (fb : field bool) :
  unique_ids s -> In c s -> storable_field st ->
  let u := updateData clock {| put_id := id_uuid (id c);
                               put_status := st;
                               put_feedback_helpful := fb |} in
  handle clock s (update_request auth (id c) st fb)
  = (ok (apply_update u c), rewrite_row (id c) (apply_update u) s).
Proof.
  intros Hu Hin Hst u. unfold handle, serve, update_request.
  cbn [method json put_id].
  rewrite (@update_single_found _ s c Hu Hin); [reflexivity|].
  now apply updateData_status.
Qed.

(** A PUT for an existing complaint with a status the column refuses. *)
Lemma put_refused (clock : timestamptz) (s : store) (auth : option jstring)
  (c : Complaint) (st : jstring) (fb : field bool) (e : db_error) :
  In c s -> st <> [] -> text_error st = Some e ->
  handle clock s (update_request auth (id c) (Present st) fb)
  = ({| status_code := 500; payload := error_json (thrown (pg_error e)) |},
     s).
Proof.
  intros Hin Hne He. unfold handle, serve, update_request.
  cbn [method json put_id].
  rewrite (@update_single_refused _ s c st e Hin); [reflexivity| |exact He].
  cbn [updateData uv_status put_status].
  destruct st; [congruence|reflexivity].
Qed.

(** What a request can do to the table: nothing, or one [.update]. *)
Lemma handle_table (clock : timestamptz) (s : store) (req : Request put_json) :
  snd (handle clock s req) = s
  \/ exists target j,
       json req = Some j
       /\ snd (handle clock s req)
          = rewrite_row target (apply_update (updateData clock j)) s.
Proof.
  unfold handle, serve.
  destruct (method req); try (left; reflexivity).
  destruct (json req) as [j|]; [|left; reflexivity].
  destruct (put_id j) as [| |target]; try (left; reflexivity).
  unfold update_single.
  destruct (update_error service_role target (updateData clock j) s) eqn:He;
    [left; reflexivity|].
  rewrite (@update_service_role _ _ _ He).
  destruct (map _ _) as [|row [|row' rest]]; try (left; reflexivity).
  right. exists target, j. split; reflexivity.
Qed.

Lemma handle_unique_ids (clock : timestamptz) (s : store)
  (req : Request put_json) :
  unique_ids s -> unique_ids (snd (handle clock s req)).
Proof.
  intros Hu. destruct (handle_table clock s req) as [->|[t [j [_ ->]]]];
    [exact Hu|].
  unfold unique_ids. now rewrite map_id_rewrite_row.
Qed.

(** Under the primary key, rewriting the row of [c] puts its image in
    its place. *)
Lemma rewrite_row_const (f : Complaint -> Complaint) (s : store)
  (c : Complaint) :
  unique_ids s -> In c s ->
  rewrite_row (id c) f s = rewrite_row (id c) (fun _ => f c) s.
Proof.
  intros Hu Hin. unfold rewrite_row. apply map_ext_in. intros d Hd.
  destruct (N.eqb_spec (id d) (id c)) as [E|E]; [|reflexivity].
  pose proof (@filter_id_unique s c Hu Hin) as F.
  assert (Hf : In d (filter (fun x => (id x =? id c)%N) s)).
  { apply filter_In. split; [exact Hd|]. now apply N.eqb_eq. }
  rewrite F in Hf. destruct Hf as [<-|[]]. reflexivity.
Qed.

End Update.

(* ================================================================== *)
(** ** Runs of update requests *)

Section Runs.

Import ManageComplaints.

Context {plan : Plan Complaint}.

(** [R old new] relates a row to what a request makes of it. *)
Variable R : Complaint -> Complaint -> Prop.
Variable allowed : Request put_json -> Prop.

Hypothesis R_refl : forall c, R c c.
Hypothesis R_trans : forall a b c, R a b -> R b c -> R a c.
Hypothesis R_step :
  forall clock req j c,
    allowed req -> json req = Some j ->
    R c (apply_update (updateData clock j) c).

Lemma Forall2_R_refl (s : store) : Forall2 R s s.
Proof. induction s; constructor; auto. Qed.

Lemma Forall2_R_trans (s1 s2 s3 : store) :
  Forall2 R s1 s2 -> Forall2 R s2 s3 -> Forall2 R s1 s3.
Proof.
  intros H. revert s3. induction H as [|a b l1 l2 Hab _ IH]; intros s3 H3.
  - inversion H3. constructor.
  - inversion H3; subst. constructor; eauto.
Qed.

Lemma handle_related (clock : timestamptz) (s : store)
  (req : Request put_json) :
  allowed req -> Forall2 R s (snd (handle clock s req)).
Proof.
  intros Ha. destruct (handle_table clock s req) as [->|[t [j [Hj ->]]]].
  - apply Forall2_R_refl.
  - unfold rewrite_row. induction s as [|c s IH]; simpl; constructor; auto.
    destruct (id c =? t)%N; eauto.
Qed.

(** Row by row, a run of allowed requests stays within [R]. *)
Lemma run_related (reqs : list (timestamptz * Request put_json)) (s : store) :
  Forall (fun cr => allowed (snd cr)) reqs ->
  Forall2 R s (run s reqs).
Proof.
  revert s. induction reqs as [|[clock req] rest IH]; intros s Hall; simpl.
  - apply Forall2_R_refl.
  - inversion Hall; subst. simpl in *.
    apply Forall2_R_trans with (s2 := snd (handle clock s req));
      [apply handle_related; assumption|apply IH; assumption].
Qed.

End Runs.

(* ================================================================== *)
(** ** Properties of manage-complaints *)

Section ManageProperties.

Import ManageComplaints.

Context {plan : Plan Complaint}.

Lemma storable_field_absent : storable_field Undefined.
Proof. intros t H. discriminate H. Qed.

Lemma storable_field_present (t : jstring) :
  storable t -> storable_field (Present t).
Proof. intros H x E. now replace x with t by congruence. Qed.

Lemma storable_Resolved : storable Resolved.
Proof. reflexivity. Qed.

(** What a PUT for an existing complaint writes, in the terms of the
    request: the row of the complaint is replaced, its status and its
    feedback are the request's where it carries them, and its updated_at
    is the clock reading. *)
Lemma put_writes (clock : timestamptz) (s : store) (auth : option jstring)
  (c : Complaint) (st : field jstring) (fb : field bool) :
  unique_ids s -> In c s -> storable_field st ->
  exists c',
    handle clock s (update_request auth (id c) st fb)
    = (ok c', rewrite_row (id c) (fun _ => c') s)
    /\ status c' = status_after st (status c)
    /\ feedback_helpful c' = feedback_after fb (feedback_helpful c)
    /\ updated_at c' = clock
    /\ frozen c c'.
Proof.
  intros Hu Hin Hst. eexists. split.
  - rewrite (@put_existing _ clock s auth c st fb Hu Hin Hst).
    now rewrite (@rewrite_row_const _ s c Hu Hin).
  - cbn [apply_update updateData uv_status uv_feedback_helpful uv_updated_at
         status feedback_helpful updated_at put_status put_feedback_helpful].
    split; [|split; [|split]].
    + destruct st as [| |x]; try reflexivity. cbn [status_after].
      now destruct (truthy_string x).
    + now destruct fb.
    + reflexivity.
    + unfold frozen. repeat split.
Qed.

(** C6, as the handler has it. A PUT that supplies only
    [feedback_helpful: true] for an existing complaint is answered with
    200; the row keeps its status and every other column, its
    feedback_helpful becomes true, and its updated_at becomes the clock
    reading of the request, which is newer than the stored one whenever
    the clock has moved on since; every other row is left as it was. *)
Theorem feedback_only_update (clock : timestamptz) (s : store)
  (auth : option jstring) (c : Complaint) :
  unique_ids s -> In c s ->
  exists c',
    handle clock s (update_request auth (id c) Undefined (Present true))
    = (ok c', rewrite_row (id c) (set_feedback (Some true) clock) s)
    /\ c' = set_feedback (Some true) clock c
    /\ status c' = status c
    /\ feedback_helpful c' = Some true
    /\ updated_at c' = clock
    /\ ((updated_at c < clock)%Z -> (updated_at c < updated_at c')%Z).
Proof.
  intros Hu Hin. exists (set_feedback (Some true) clock c).
  split; [|repeat split; auto].
  exact (@put_existing _ clock s auth c Undefined (Present true) Hu Hin
           storable_field_absent).
Qed.

(** C7, as the handler has it. Two PUTs in a row with [status:
    "Resolved"] for an existing complaint are both answered with 200; the
    table after the second is the table after the first with the row's
    updated_at moved to the second clock reading, and is the same table
    when the two readings coincide. *)
Theorem resolve_twice (t1 t2 : timestamptz) (s : store)
  (auth : option jstring) (c : Complaint) :
  unique_ids s -> In c s ->
  handle t1 s (update_request auth (id c) (Present Resolved) Undefined)
  = (ok (set_status Resolved t1 c),
     rewrite_row (id c) (set_status Resolved t1) s)
  /\ handle t2 (rewrite_row (id c) (set_status Resolved t1) s)
       (update_request auth (id c) (Present Resolved) Undefined)
     = (ok (set_status Resolved t2 c),
        rewrite_row (id c) (set_status Resolved t2) s)
  /\ (t1 = t2 ->
      snd (handle t2 (rewrite_row (id c) (set_status Resolved t1) s)
             (update_request auth (id c) (Present Resolved) Undefined))
      = rewrite_row (id c) (set_status Resolved t1) s).
Proof.
  intros Hu Hin.
  pose proof (storable_field_present storable_Resolved) as Hst.
  pose proof (@put_existing _ t1 s auth c (Present Resolved) Undefined
                Hu Hin Hst) as H1.
  assert (Hu1 : unique_ids (rewrite_row (id c) (set_status Resolved t1) s)).
  { unfold unique_ids. now rewrite map_id_rewrite_row. }
  assert (Hin1 : In (set_status Resolved t1 c)
                   (rewrite_row (id c) (set_status Resolved t1) s)).
  { now apply In_rewrite_row. }
  pose proof (@put_existing _ t2 _ auth _ (Present Resolved) Undefined
                Hu1 Hin1 Hst) as H2.
  cbn [id set_status] in H2.
  rewrite rewrite_row_twice in H2 by reflexivity.
  assert (E2 : handle t2 (rewrite_row (id c) (set_status Resolved t1) s)
                 (update_request auth (id c) (Present Resolved) Undefined)
               = (ok (set_status Resolved t2 c),
                  rewrite_row (id c) (set_status Resolved t2) s)).
  { exact H2. }
  split; [exact H1|]. split; [exact E2|].
  intros <-. now rewrite E2.
Qed.


(** C9, as the handler has it. A PUT for an existing complaint sets its
    status to whatever non-empty string it carries that the text column
    stores, and keeps the status when the key is absent, null or empty; a
    non-empty status the column refuses is answered with 500 and nothing
    is written.  Over any run of requests none of which carries a status
    other than "Resolved", every complaint keeps its status or becomes
    Resolved, row by row: a Resolved complaint stays Resolved and a
    Pending one is Pending or Resolved. *)
Theorem status_only_resolves (reqs : list (timestamptz * Request put_json))
  (s : store) :
  (forall clock auth c st fb,
     unique_ids s -> In c s -> storable_field st ->
     exists c',
       handle clock s (update_request auth (id c) st fb)
       = (ok c', rewrite_row (id c) (fun _ => c') s)
       /\ status c' = status_after st (status c))
  /\ (forall clock auth c x fb,
        In c s -> x <> [] -> ~ storable x ->
        exists e,
          handle clock s (update_request auth (id c) (Present x) fb)
          = ({| status_code := 500;
                payload := error_json (thrown (pg_error e)) |}, s))
  /\ (Forall (fun cr => ~ supplies_other_status (snd cr)) reqs ->
      Forall2 resolves_only s (run s reqs)).
Proof.
  split; [|split].
  - intros clock auth c st fb Hu Hin Hst.
    destruct (@put_writes clock s auth c st fb Hu Hin Hst)
      as [c' [H [Hs _]]].
    now exists c'.
  - intros clock auth c x fb Hin Hne Hno.
    destruct (text_error x) as [e|] eqn:He; [|now contradiction Hno].
    exists e. exact (@put_refused _ clock s auth c x fb e Hin Hne He).
  - apply run_related with (allowed := fun req => ~ supplies_other_status req).
    + intros c. split; auto.
    + intros a b c [E1 H1] [E2 H2]. split; [congruence|].
      destruct H2 as [H2|H2]; [|now right].
      destruct H1 as [H1|H1]; [left|right]; congruence.
    + intros clock req j c Hno Hj. split; [reflexivity|].
      cbn [apply_update status updateData uv_status].
      destruct (put_status j) as [| |st] eqn:E; try (now left).
      destruct (truthy_string st); [|now left].
      right. destruct (list_eq_dec N.eq_dec st Resolved) as [Heq|Hne];
        [exact Heq|].
      exfalso. apply Hno. now exists j, st.
Qed.

(** C10. Two GET requests that differ only in their Authorization header,
    absent or present, are answered alike on the same table: with 200 and
    every complaint, newest first, the table left as it was. *)
Theorem list_ignores_credential (clock : timestamptz) (s : store)
  (a a' : option jstring) (b : option put_json) :
  handle clock s (list_request a b) = handle clock s (list_request a' b)
  /\ handle clock s (list_request a b)
     = ({| status_code := 200;
           payload := complaints_json (order_created_at_desc s) |}, s).
Proof.
  unfold handle, serve, list_request. cbn [method].
  rewrite select_service_role. split; reflexivity.
Qed.

End ManageProperties.

Section ManageSamples.

Import ManageComplaints.

Local Existing Instance Sample.table_order.

Lemma feedback_only_update_witness :
  unique_ids Sample.table
  /\ In (Sample.row 1%N (Some Sample.alice) Pending None 100%Z) Sample.table
  /\ exists c',
       handle 400%Z Sample.table
         (update_request None 1%N Undefined (Present true))
       = (ok c', rewrite_row 1%N (set_feedback (Some true) 400%Z) Sample.table)
       /\ c' = set_feedback (Some true) 400%Z
                 (Sample.row 1%N (Some Sample.alice) Pending None 100%Z)
       /\ status c' = Pending
       /\ feedback_helpful c' = Some true
       /\ updated_at c' = 400%Z
       /\ ((100 < 400)%Z -> (100 < updated_at c')%Z).
Proof.
  assert (Hu : unique_ids Sample.table).
  { unfold unique_ids. simpl. repeat constructor; simpl; intuition discriminate. }
  assert (Hin : In (Sample.row 1%N (Some Sample.alice) Pending None 100%Z)
                  Sample.table).
  { left. reflexivity. }
  split; [exact Hu|]. split; [exact Hin|].
  exact (@feedback_only_update Sample.table_order 400%Z _ None _ Hu Hin).
Defined.

(** C6 as stated fails: a PUT handled at the very clock reading the row
    was last written at leaves updated_at where it was, not strictly
    newer. *)
Lemma same_instant_update_not_newer :
  handle 100%Z Sample.table (update_request None 1%N Undefined (Present true))
  = (ok (Sample.row 1%N (Some Sample.alice) Pending (Some true) 100%Z),
     rewrite_row 1%N (set_feedback (Some true) 100%Z) Sample.table)
  /\ In (Sample.row 1%N (Some Sample.alice) Pending None 100%Z) Sample.table
  /\ ~ (updated_at (Sample.row 1%N (Some Sample.alice) Pending None 100%Z)
        < updated_at (Sample.row 1%N (Some Sample.alice) Pending (Some true) 100%Z))%Z.
Proof.
  split; [reflexivity|]. split; [left; reflexivity|]. simpl. lia.
Qed.

Lemma resolve_twice_witness :
  unique_ids Sample.table
  /\ In (Sample.row 2%N (Some Sample.bob) Pending None 200%Z) Sample.table
  /\ handle 400%Z Sample.table
       (update_request None 2%N (Present Resolved) Undefined)
     = (ok (set_status Resolved 400%Z
              (Sample.row 2%N (Some Sample.bob) Pending None 200%Z)),
        rewrite_row 2%N (set_status Resolved 400%Z) Sample.table)
  /\ handle 500%Z (rewrite_row 2%N (set_status Resolved 400%Z) Sample.table)
       (update_request None 2%N (Present Resolved) Undefined)
     = (ok (set_status Resolved 500%Z
              (Sample.row 2%N (Some Sample.bob) Pending None 200%Z)),
        rewrite_row 2%N (set_status Resolved 500%Z) Sample.table)
  /\ (400%Z = 500%Z ->
      snd (handle 500%Z
             (rewrite_row 2%N (set_status Resolved 400%Z) Sample.table)
             (update_request None 2%N (Present Resolved) Undefined))
      = rewrite_row 2%N (set_status Resolved 400%Z) Sample.table).
Proof.
  assert (Hu : unique_ids Sample.table).
  { unfold unique_ids. simpl. repeat constructor; simpl; intuition discriminate. }
  assert (Hin : In (Sample.row 2%N (Some Sample.bob) Pending None 200%Z)
                  Sample.table).
  { right. left. reflexivity. }
  split; [exact Hu|]. split; [exact Hin|].
  exact (@resolve_twice Sample.table_order 400%Z 500%Z _ None _ Hu Hin).
Defined.

(** C7 as stated fails: resolving at clock reading 400 and again at 500,
    the table after the second call is not the table after the first. *)
Lemma resolve_twice_differs :
  fst (handle 400%Z Sample.table
         (update_request None 2%N (Present Resolved) Undefined))
  = ok (set_status Resolved 400%Z
          (Sample.row 2%N (Some Sample.bob) Pending None 200%Z))
  /\ fst (handle 500%Z
            (snd (handle 400%Z Sample.table
                    (update_request None 2%N (Present Resolved) Undefined)))
            (update_request None 2%N (Present Resolved) Undefined))
     = ok (set_status Resolved 500%Z
             (Sample.row 2%N (Some Sample.bob) Pending None 200%Z))
  /\ snd (handle 500%Z
            (snd (handle 400%Z Sample.table
                    (update_request None 2%N (Present Resolved) Undefined)))
            (update_request None 2%N (Present Resolved) Undefined))
     <> snd (handle 400%Z Sample.table
               (update_request None 2%N (Present Resolved) Undefined)).
Proof.
  split; [reflexivity|]. split; [reflexivity|].
  intros H. apply (f_equal (map updated_at)) in H.
  vm_compute in H. discriminate.
Qed.



(** On the table whose first complaint is Resolved: a PUT with status
    "Resolved" for the second complaint resolves it, and after that
    request and a feedback answer the first complaint is still Resolved
    and the others are Pending or Resolved. *)
Lemma status_only_resolves_witness :
  (exists c',
     handle 400%Z Sample.rated
       (update_request None 2%N (Present Resolved) Undefined)
     = (ok c', rewrite_row 2%N (fun _ => c') Sample.rated)
     /\ status c' = Resolved)
  /\ Forall2 resolves_only Sample.rated
       (run Sample.rated
          [(400%Z, update_request None 2%N (Present Resolved) Undefined);
           (500%Z, update_request None 1%N Undefined (Present true))]).
Proof.
  destruct (@status_only_resolves Sample.table_order
              [(400%Z, update_request None 2%N (Present Resolved) Undefined);
               (500%Z, update_request None 1%N Undefined (Present true))]
              Sample.rated) as [H1 [_ H3]].
  split.
  - apply (H1 400%Z None
             (Sample.row 2%N (Some Sample.bob) Pending None 200%Z)
             (Present Resolved) Undefined).
    + unfold unique_ids. simpl.
      repeat constructor; simpl; intuition discriminate.
    + right. left. reflexivity.
    + intros t Ht. injection Ht as <-. reflexivity.
  - apply H3.
    repeat constructor; intros [j [st [Hj [Hst Hne]]]]; simpl in Hj;
      injection Hj as <-; simpl in Hst; [|discriminate].
    injection Hst as <-. now apply Hne.
Defined.

(** C9 as stated fails: a PUT with [status: "Pending"] moves a Resolved
    complaint back to Pending, and one with [status: "Archived"] moves a
    complaint to a status that is neither. *)
Lemma resolved_reopened :
  map status
    (run Sample.table
       [(400%Z, update_request None 1%N (Present Resolved) Undefined)])
  = [Resolved; Pending; Pending]
  /\ map status
       (run Sample.table
          [(400%Z, update_request None 1%N (Present Resolved) Undefined);
           (500%Z, update_request None 1%N (Present Pending) Undefined)])
     = [Pending; Pending; Pending]
  /\ map status
       (run Sample.table
          [(400%Z, update_request None 1%N
                     (Present (lit "Archived"%string)) Undefined)])
     = [lit "Archived"%string; Pending; Pending].
Proof. repeat split. Qed.

(** C2 as stated fails: a GET that carries a user's session token is
    answered with every complaint, another user's and a guest's included. *)
Lemma list_shows_other_users_rows :
  handle 400%Z Sample.table
    (list_request (Some (ProcessComplaint.Bearer ++ Sample.token)) None)
  = ({| status_code := 200;
        payload := complaints_json
          [ Sample.row 3%N None Pending None 300%Z;
            Sample.row 2%N (Some Sample.bob) Pending None 200%Z;
            Sample.row 1%N (Some Sample.alice) Pending None 100%Z ] |},
     Sample.table)
  /\ user_id (Sample.row 2%N (Some Sample.bob) Pending None 200%Z)
     <> Some Sample.alice
  /\ user_id (Sample.row 3%N None Pending None 300%Z) <> Some Sample.alice.
Proof. repeat split; discriminate. Qed.

(** C3 as stated fails: the PUT the user dashboard sends with one user's
    token for another user's complaint is answered with 200, and the row
    is written. *)
Lemma feedback_on_another_users_complaint :
  user_id (Sample.row 2%N (Some Sample.bob) Pending None 200%Z)
  <> Some Sample.alice
  /\ handle 400%Z Sample.table
       (UserDashboard.submitFeedback Sample.token 2%N true)
     = (ok (set_feedback (Some true) 400%Z
              (Sample.row 2%N (Some Sample.bob) Pending None 200%Z)),
        [ Sample.row 1%N (Some Sample.alice) Pending None 100%Z;
          set_feedback (Some true) 400%Z
            (Sample.row 2%N (Some Sample.bob) Pending None 200%Z);
          Sample.row 3%N None Pending None 300%Z ]).
Proof. split; [discriminate|reflexivity]. Qed.

End ManageSamples.

(* ================================================================== *)
(** ** Direct table access under the row-level policies *)

Section Policies.

Context {plan : Plan Complaint}.

Lemma owned_by_iff (user : uuid) (c : Complaint) :
  owned_by user c = true <-> user_id c = Some user.
Proof.
  unfold owned_by. destruct (user_id c) as [u|].
  - rewrite N.eqb_eq. split; congruence.
  - split; discriminate.
Qed.

Lemma In_select_authenticated (user : uuid) (s : store) (c : Complaint) :
  In c (Schema.select (authenticated user) s)
  <-> In c s /\ user_id c = Some user.
Proof.
  unfold Schema.select. rewrite filter_In. cbn [select_policy].
  now rewrite owned_by_iff.
Qed.

(** C2, as the code has it. When a regular authenticated user reads the
    table directly, as both dashboards' fetches do, the row-level SELECT
    policy returns the complaints whose user_id is that user's id and no
    others: none of another user, none with a null user_id. *)
Theorem own_rows_under_select_policy (user : uuid) (s : store)
  (c : Complaint) :
  (In c (NewAdminDashboard.fetchComplaints (authenticated user) s)
   <-> In c s /\ user_id c = Some user)
  /\ (In c (UserDashboard.fetchUserComplaints user s)
      <-> In c s /\ user_id c = Some user).
Proof.
  unfold NewAdminDashboard.fetchComplaints, UserDashboard.fetchUserComplaints.
  rewrite !In_order_created_at_desc, filter_In, In_select_authenticated,
    owned_by_iff.
  tauto.
Qed.

Lemma untargeted (user target : uuid) (s : store) :
  (forall c, In c s -> id c = target -> user_id c <> Some user) ->
  forall c, In c s -> targeted (authenticated user) target c = false.
Proof.
  intros H c Hin. unfold targeted. cbn [update_policy].
  destruct (N.eqb_spec (id c) target) as [E|E]; [simpl|reflexivity].
  destruct (owned_by user c) eqn:Ho; [|reflexivity].
  apply owned_by_iff in Ho. exfalso. exact (H c Hin E Ho).
Qed.

(** C3, as the code has it. When a regular authenticated user updates the
    table directly, the row-level UPDATE policy leaves a complaint that
    user does not own as it was, updated_at included: the statement
    writes no row and the table is unchanged. No error is raised for it;
    a caller that asks for the single written row is told there is none. *)
Theorem foreign_row_untouched_under_update_policy (user target : uuid)
  (u : update_values) (s : store) :
  (forall c, In c s -> id c = target -> user_id c <> Some user) ->
  Schema.update (authenticated user) target u s = ([], s)
  /\ update_single (authenticated user) target u s = inl not_singular
  /\ (forall clock st,
        NewAdminDashboard.updateComplaintStatus
          (authenticated user) clock target st s = s).
Proof.
  intros H.
  pose proof (@untargeted user target s H) as Hu.
  assert (N : forall v, update_error (authenticated user) target v s = None).
  { intros v. unfold update_error.
    replace (existsb (targeted (authenticated user) target) s) with false;
      [reflexivity|].
    symmetry. apply not_true_is_false. intros Hex.
    apply existsb_exists in Hex. destruct Hex as [c [Hc Ht]].
    rewrite (Hu c Hc) in Ht. discriminate. }
  assert (E : forall v, Schema.update (authenticated user) target v s = ([], s)).
  { intros v. unfold Schema.update. rewrite N. clear H N.
    induction s as [|a t IH]; [reflexivity|].
    simpl. rewrite (Hu a (or_introl eq_refl)).
    assert (Ht : forall c, In c t ->
                   targeted (authenticated user) target c = false).
    { intros c Hc. apply Hu. now right. }
    specialize (IH Ht). injection IH as E1 E2. now rewrite E1, E2. }
  split; [apply E|]. split.
  - unfold update_single. now rewrite N, E.
  - intros clock st. unfold NewAdminDashboard.updateComplaintStatus.
    now rewrite E.
Qed.

Lemma foreign_row_untouched_under_update_policy_witness :
  (forall c, In c Sample.table -> id c = 2%N -> user_id c <> Some Sample.alice)
  /\ Schema.update (authenticated Sample.alice) 2%N
       {| uv_status := Some Resolved;
          uv_feedback_helpful := None;
          uv_updated_at := Some 400%Z |} Sample.table
     = ([], Sample.table)
  /\ update_single (authenticated Sample.alice) 2%N
       {| uv_status := Some Resolved;
          uv_feedback_helpful := None;
          uv_updated_at := Some 400%Z |} Sample.table
     = inl not_singular
  /\ (forall clock st,
        NewAdminDashboard.updateComplaintStatus
          (authenticated Sample.alice) clock 2%N st Sample.table
        = Sample.table).
Proof.
  assert (H : forall c, In c Sample.table -> id c = 2%N ->
                user_id c <> Some Sample.alice).
  { intros c [<-|[<-|[<-|[]]]] E; simpl in *; discriminate. }
  split; [exact H|].
  exact (@foreign_row_untouched_under_update_policy Sample.alice 2%N _ _ H).
Defined.

End Policies.

Unset Implicit Arguments.

(* ================================================================== *)
(** ** More on intake *)

Section IntakeMore.

Import ProcessComplaint.

Lemma startsWith_app (p t : jstring) : startsWith (p ++ t) p = true.
Proof.
  induction p as [|c p IH]; simpl; [now destruct t|].
  now rewrite N.eqb_refl, IH.
Qed.

Lemma skipn_app_length (p t : jstring) : skipn (List.length p) (p ++ t) = t.
Proof. induction p as [|c p IH]; simpl; auto. Qed.

(** Stripping the prefix gives back the token the client sent. *)
Lemma resolve_user_bearer (w : World) (t : jstring) :
  resolve_user w (Some (Bearer ++ t)) = getUser w t.
Proof.
  unfold resolve_user.
  replace (truthy_string (Bearer ++ t)) with true by reflexivity.
  rewrite startsWith_app. cbn [andb].
  replace (replace (Bearer ++ t) Bearer []) with t; [reflexivity|].
  change (Bearer ++ t) with (66%N :: (lit "earer "%string ++ t)) at 1.
  unfold replace; fold replace.
  change (66%N :: (lit "earer "%string ++ t)) with (Bearer ++ t).
  rewrite startsWith_app. symmetry. apply (skipn_app_length Bearer t).
Qed.

Lemma resolve_user_other (w : World) (h : jstring) :
  startsWith h Bearer = false -> resolve_user w (Some h) = None.
Proof.
  intros H. unfold resolve_user. rewrite H. now rewrite andb_false_r.
Qed.

(** The handler reads the header and the body of a request, nothing else. *)
Lemma serve_reads (w : World) (s : store) (req : Request post_json)
  (j : post_json) :
  json req = Some j ->
  serve w s req
  = serve w s (submission (authorization req) (post_complaint_text j)).
Proof.
  destruct req as [m a b], j as [ct]. simpl. intros ->. reflexivity.
Qed.

Lemma not_blank_text (ct : field jstring) :
  blank ct = false -> exists t, ct = Present t /\ non_blank t.
Proof.
  intros H. destruct ct as [| |t]; try discriminate.
  exists t. split; [reflexivity|].
  destruct (whitespace_only_or_non_blank t) as [Hw|Hn]; [|exact Hn].
  rewrite (blank_of_blank_text (blank_spaces Hw)) in H. discriminate.
Qed.

(** The gateway hands on a complete answer of a configured endpoint. *)
Lemma getMLPredictions_succeeds (w : World) (text url : jstring) (st : Z)
  (p : Predictions) :
  ML_SERVICE_URL w = Some url -> url <> [] ->
  fetch w (url ++ lit "/predict"%string) text
    = fetch_response st (body_object p) ->
  (200 <= st <= 299)%Z ->
  complete p = true ->
  getMLPredictions w text = Some p.
Proof.
  intros Hu Hne Hf Hst Hc. unfold getMLPredictions. rewrite Hu.
  destruct url as [|x url]; [congruence|]. cbn [truthy_string negb].
  rewrite Hf. unfold response_ok.
  destruct (200 <=? st)%Z eqn:H1; [|apply Z.leb_gt in H1; lia].
  destruct (st <=? 299)%Z eqn:H2; [|apply Z.leb_gt in H2; lia].
  cbn [andb negb]. now rewrite Hc.
Qed.

Lemma int4_in_whole (q : number) :
  int4_number q -> int4_in q = inr (whole q).
Proof.
  intros H. destruct (@int4_in_int4_number q H) as [z Hz]. rewrite Hz.
  f_equal. unfold int4_in in Hz. cbv zeta in Hz.
  destruct (negb _); [discriminate|].
  destruct (_ && _); [|destruct (_ <? _)%Z; discriminate].
  now injection Hz as <-.
Qed.

(** The column value of the score the handler hands to the insert. *)
Lemma score_stored (x : field number) :
  (forall q, x = Present q -> int4_number q) ->
  int4_in (or_default truthy_number x (number_of_Z 0))
  = inr match x with
        | Present q => whole q
        | Undefined | Null => 0%Z
        end.
Proof.
  intros H. destruct x as [| |q]; try reflexivity.
  unfold or_default. destruct (truthy_number q) eqn:Hq.
  - apply int4_in_whole. now apply H.
  - unfold truthy_number in Hq. apply negb_false_iff, Z.eqb_eq in Hq.
    unfold whole. rewrite Hq. reflexivity.
Qed.

(** X1. When the configured endpoint answers a storable non-blank text
    with a success status and an object whose category, sentiment,
    priority and ai_response are non-empty and storable, whose
    explanation, if any, is storable, and whose score, if any, fits the
    integer column, the submission is answered with 200 and the stored
    row carries those four strings verbatim, the score as a whole number
    (0 when absent, null or zero), and the explanation (empty when
    absent). *)
Theorem inference_passed_through (w : World) (s : store)
  (auth : option jstring) (text url : jstring) (st : Z) (p : Predictions)
  (cat sen pri rsp : jstring) :
  non_blank text ->
  storable text ->
  sender_fits w auth ->
  ML_SERVICE_URL w = Some url -> url <> [] ->
  fetch w (url ++ lit "/predict"%string) text
    = fetch_response st (body_object p) ->
  (200 <= st <= 299)%Z ->
  ml_category p = Present cat -> cat <> [] ->
  ml_sentiment p = Present sen -> sen <> [] ->
  ml_priority p = Present pri -> pri <> [] ->
  ml_ai_response p = Present rsp -> rsp <> [] ->
  storable_labels p ->
  storable_field (ml_explanation p) ->
  (forall q, ml_confidence_score p = Present q -> int4_number q) ->
  exists c,
    handle w s (submission auth (Present text)) = (ok c, s ++ [c])
    /\ complaint_text c = text
    /\ category c = cat /\ sentiment c = sen
    /\ priority c = pri /\ ai_response c = rsp
    /\ ai_confidence_score c
       = match ml_confidence_score p with
         | Present q => whole q
         | Undefined | Null => 0%Z
         end
    /\ ai_explanation c
       = Some match ml_explanation p with
              | Present e => e
              | Undefined | Null => []
              end
    /\ status c = Pending.
Proof.
  intros Hnb Hst Hsender Hu Hne Hf Hok E1 N1 E2 N2 E3 N3 E4 N4 Hl He Hq.
  assert (Hc : complete p = true).
  { unfold complete. rewrite E1, E2, E3, E4.
    destruct cat, sen, pri, rsp; try congruence. reflexivity. }
  pose proof (getMLPredictions_succeeds w text url st p Hu Hne Hf Hok Hc) as Hp.
  pose proof (@serve_outcome w s auth text Hnb) as H.
  rewrite Hp in H. cbv zeta in H.
  unfold handle. cbn [method submission].
  fold (submission auth (Present text)).
  destruct H as [[c [Hs [H1 [H2 [H3 [H4 [H5 [H6 [H7 [H8 _]]]]]]]]]]
                |[e [_ Hno]]].
  - exists c. rewrite Hs. split; [reflexivity|].
    rewrite E1 in H2. rewrite E2 in H3. rewrite E3 in H4. rewrite E4 in H5.
    cbn [value_of] in H2, H3, H4, H5.
    rewrite (score_stored _ Hq) in H6.
    repeat split; try congruence.
    rewrite H7. f_equal. now destruct (ml_explanation p) as [| |[|x e]].
  - exfalso. apply Hno. unfold values_fit. rewrite Hp. cbv zeta.
    repeat split; try assumption; try apply Hl.
    exact (@int4_number_int4_in _ _ (score_stored _ Hq)).
Qed.

Lemma inference_passed_through_witness :
  exists c,
    handle (Sample.online (Present (number_of_Z 82))) Sample.table
      (submission None (Present Sample.text))
    = (ok c, Sample.table ++ [c])
    /\ complaint_text c = Sample.text
    /\ category c = lit "Delayed Delivery"%string
    /\ sentiment c = lit "Negative"%string
    /\ priority c = lit "High"%string
    /\ ai_response c = lit "We apologize..."%string
    /\ ai_confidence_score c = 82%Z
    /\ ai_explanation c = Some []
    /\ status c = Pending.
Proof.
  apply (inference_passed_through
           (Sample.online (Present (number_of_Z 82))) Sample.table None
           Sample.text (lit "http://ml"%string) 200%Z
           (Sample.answer (Present (number_of_Z 82)))
           (lit "Delayed Delivery"%string) (lit "Negative"%string)
           (lit "High"%string) (lit "We apologize..."%string));
    try reflexivity; try discriminate; try lia.
  - apply Exists_cons_hd. reflexivity.
  - repeat split; intros t [= <-]; reflexivity.
  - intros q [= <-]. exists 82%Z. split; [reflexivity|lia].
Defined.

(** The identity service is the only source of a sender. *)
Lemma resolve_user_getUser (w : World) (auth : option jstring) (u : User) :
  resolve_user w auth = Some u -> exists t, getUser w t = Some u.
Proof.
  unfold resolve_user. destruct auth as [h|]; [|discriminate].
  destruct (truthy_string h && startsWith h Bearer); [|discriminate].
  intros H. eexists. exact H.
Qed.

(** X2. An accepted submission records who sent it.  Where every value
    handed to the insert fits its column, whatever the header: with the
    header "Bearer "
    followed by a token the identity service resolves, the row carries
    that user's id and email; with a token that does not resolve, a
    header of another form, or no header, the submission is accepted all
    the same and the row is anonymous. *)
Theorem submitter_recorded (w : World) (s : store) (text : jstring) :
  non_blank text ->
  (forall auth, values_fit w auth text) ->
  (forall t u,
     getUser w t = Some u ->
     exists c,
       handle w s (submission (Some (Bearer ++ t)) (Present text))
       = (ok c, s ++ [c])
       /\ user_id c = Some (user_uid u) /\ user_email c = user_mail u)
  /\ (forall t,
        getUser w t = None ->
        exists c,
          handle w s (submission (Some (Bearer ++ t)) (Present text))
          = (ok c, s ++ [c])
          /\ user_id c = None /\ user_email c = None)
  /\ (forall h,
        startsWith h Bearer = false ->
        exists c,
          handle w s (submission (Some h) (Present text)) = (ok c, s ++ [c])
          /\ user_id c = None /\ user_email c = None)
  /\ (exists c,
        handle w s (submission None (Present text)) = (ok c, s ++ [c])
        /\ user_id c = None /\ user_email c = None).
Proof.
  intros Hnb Hfit. repeat split.
  - intros t u Hu.
    destruct (@fitting_submission_stored w s (Some (Bearer ++ t)) text Hnb
                (Hfit _)) as [c [H [_ [_ [_ [H1 H2]]]]]].
    rewrite resolve_user_bearer, Hu in H1, H2. now exists c.
  - intros t Hu.
    destruct (@fitting_submission_stored w s (Some (Bearer ++ t)) text Hnb
                (Hfit _)) as [c [H [_ [_ [_ [H1 H2]]]]]].
    rewrite resolve_user_bearer, Hu in H1, H2. now exists c.
  - intros h Hh.
    destruct (@fitting_submission_stored w s (Some h) text Hnb (Hfit _))
      as [c [H [_ [_ [_ [H1 H2]]]]]].
    rewrite (resolve_user_other w h Hh) in H1, H2. now exists c.
  - destruct (@fitting_submission_stored w s None text Hnb (Hfit _))
      as [c [H [_ [_ [_ [H1 H2]]]]]].
    now exists c.
Qed.

(** In the sample world every value fits, whatever the header. *)
Lemma signed_in_fits (auth : option jstring) :
  values_fit Sample.signed_in auth Sample.text.
Proof.
  split; [reflexivity|].
  split; [apply fallback_labels_storable|].
  split; [apply fallback_labels_storable|].
  split; [exists 50%Z; split; [reflexivity|lia]|].
  intros u e Hu He. apply resolve_user_getUser in Hu. destruct Hu as [t Ht].
  cbn [getUser Sample.signed_in] in Ht.
  destruct (jstring_eqb t Sample.token); [|discriminate Ht].
  injection Ht as <-. cbn [user_mail] in He. injection He as <-.
  reflexivity.
Defined.

(** The token of the sample session resolves to alice, and the stored row
    is hers. *)
Lemma submitter_recorded_witness :
  exists c,
    handle Sample.signed_in Sample.table
      (submission (Some (Bearer ++ Sample.token)) (Present Sample.text))
    = (ok c, Sample.table ++ [c])
    /\ user_id c = Some Sample.alice
    /\ user_email c = Some (lit "alice@post.example"%string).
Proof.
  assert (Hnb : non_blank Sample.text).
  { apply Exists_cons_hd. reflexivity. }
  exact (proj1 (submitter_recorded Sample.signed_in Sample.table Sample.text
                  Hnb signed_in_fits)
           Sample.token
           {| user_uid := Sample.alice;
              user_mail := Some (lit "alice@post.example"%string) |}
           eq_refl).
Defined.

(** What a request of any method and body does to the table. *)
Lemma handle_stores (w : World) (s : store) (req : Request post_json) :
  (snd (handle w s req) = s
   /\ (status_code (fst (handle w s req)) = 200%Z -> method req = OPTIONS))
  \/ exists c,
       handle w s req = (ok c, s ++ [c])
       /\ well_formed c
       /\ status c = Pending
       /\ feedback_helpful c = None.
Proof.
  unfold handle.
  destruct (Http.method req) eqn:Hm;
    try (left; split; [reflexivity|intros _; reflexivity]);
    (destruct (json req) as [j|] eqn:Hj;
     [|left; unfold serve; rewrite Hj; split; [reflexivity|discriminate]]);
    rewrite (serve_reads w s req j Hj);
    (destruct (blank (post_complaint_text j)) eqn:Hb;
     [left; unfold serve, submission; cbn [json post_complaint_text];
      rewrite Hb; split; [reflexivity|discriminate]|]);
    destruct (not_blank_text _ Hb) as [t [-> Hnb]];
    (destruct (@serve_outcome w s (authorization req) t Hnb)
       as [[c [Hs [H1 [H2 [H3 [H4 [H5 [_ [_ [H8 [H9 _]]]]]]]]]]]
          |[e [Hs _]]];
     [|left; rewrite Hs; split; [reflexivity|discriminate]]);
    right; exists c; rewrite Hs; (split; [reflexivity|]);
    (split; [|split; assumption]);
    destruct (@complete_nonempty _ c (predictions_complete w t) H2 H3 H4 H5)
      as [N1 [N2 [N3 N4]]];
    unfold well_formed; rewrite H1, H8;
    repeat split; try assumption; discriminate.
Qed.

(** X3. Whatever its method, header and body, a request to
    process-complaint either leaves the table as it was or appends exactly
    one row, and it appends only when it answers 200 with that row: the
    row then has a non-blank text, non-empty category, sentiment, priority
    and ai_response, status Pending and no feedback.  An answer other
    than 200 never writes. *)
Theorem intake_appends_or_keeps (w : World) (s : store)
  (req : Request post_json) :
  (snd (handle w s req) = s
   \/ exists c,
        handle w s req = (ok c, s ++ [c])
        /\ well_formed c
        /\ status c = Pending
        /\ feedback_helpful c = None)
  /\ (status_code (fst (handle w s req)) <> 200%Z -> snd (handle w s req) = s).
Proof.
  destruct (handle_stores w s req) as [[H _]|[c [H Hc]]].
  - split; [now left|intros _; exact H].
  - split; [right; now exists c|].
    rewrite H. cbn. intros Hne. now contradiction Hne.
Qed.

End IntakeMore.

(* ================================================================== *)
(** ** The notification *)

Section NotificationProperties.

Import ProcessComplaint.

(** Leaving the mail out gives the handler of the earlier sections. *)
Lemma serve_without_mail (w : World) (env : Notification.MailEnv)
  (s : store) (req : Request post_json) :
  match Notification.serve w env s req with
  | inl e => serve w s req = inl e
  | inr (r, s', sent) =>
      serve w s req = inr (r, s')
      /\ ((status_code r = 400%Z /\ sent = [])
          \/ exists c, r = ok c /\ s' = s ++ [c]
                       /\ sent = fst (Notification.sendEmailNotification env c))
  end.
Proof.
  unfold Notification.serve, serve.
  destruct (json req) as [j|]; [|reflexivity].
  destruct (blank (post_complaint_text j));
    [split; [reflexivity|left; split; reflexivity]|].
  match goal with
  | |- context [Schema.insert ?t ?s0 ?v] =>
      destruct (Schema.insert t s0 v) as [e|[c s']] eqn:E
  end; [reflexivity|].
  split; [reflexivity|]. right. exists c.
  rewrite (@insert_appends _ _ _ _ _ E). repeat split.
Qed.

Lemma sendEmailNotification_sent (env : Notification.MailEnv)
  (c : Complaint) (m : Notification.Email) :
  In m (fst (Notification.sendEmailNotification env c)) ->
  fst (Notification.sendEmailNotification env c) = [m]
  /\ Notification.mail_about m = c
  /\ exists adminEmail resendApiKey,
       Notification.ADMIN_EMAIL env = Some adminEmail
       /\ Notification.RESEND_API_KEY env = Some resendApiKey
       /\ adminEmail <> [] /\ resendApiKey <> []
       /\ Notification.mail_to m = [adminEmail]
       /\ Notification.mail_authorization m = Bearer ++ resendApiKey.
Proof.
  unfold Notification.sendEmailNotification.
  destruct (Notification.ADMIN_EMAIL env) as [a|]; [|intros []].
  destruct (Notification.RESEND_API_KEY env) as [k|]; [|intros []].
  destruct a as [|x a]; [intros []|].
  destruct k as [|y k]; [intros []|].
  cbn [truthy_string negb orb].
  match goal with
  | |- context [Notification.resend env ?mail] =>
      destruct (Notification.resend env mail) as [|st];
      [|destruct (negb (response_ok st))]
  end; cbn [fst]; intros [<-|[]];
    (split; [reflexivity|]); (split; [reflexivity|]);
    exists (x :: a), (y :: k); repeat split; discriminate.
Qed.

(** X4. The notification is detached from the submission: whatever the
    mail settings and whatever the mail service answers, the response and
    the table are those of the handler without it.  Mail goes out only
    for a complaint that was stored and answered with 200, only when
    ADMIN_EMAIL and RESEND_API_KEY are both set and non-empty, and then
    as a single request addressed to ADMIN_EMAIL about that row. *)
Theorem notification_detached (w : World) (env : Notification.MailEnv)
  (s : store) (req : Request post_json) :
  fst (Notification.handle w env s req) = handle w s req
  /\ forall m,
       In m (snd (Notification.handle w env s req)) ->
       snd (Notification.handle w env s req) = [m]
       /\ handle w s req
          = (ok (Notification.mail_about m), s ++ [Notification.mail_about m])
       /\ exists adminEmail resendApiKey,
            Notification.ADMIN_EMAIL env = Some adminEmail
            /\ Notification.RESEND_API_KEY env = Some resendApiKey
            /\ adminEmail <> [] /\ resendApiKey <> []
            /\ Notification.mail_to m = [adminEmail]
            /\ Notification.mail_authorization m = Bearer ++ resendApiKey.
Proof.
  unfold Notification.handle, handle.
  pose proof (serve_without_mail w env s req) as H.
  destruct (Notification.serve w env s req) as [e|[[r s'] sent]].
  - rewrite H. destruct (method req); (split; [reflexivity|intros m []]).
  - destruct H as [H Hsent]. rewrite H.
    destruct (method req) eqn:Hm;
      try (split; [reflexivity|]; cbn [snd]; intros m Hin;
           destruct Hsent as [[_ ->]|[c [-> [-> ->]]]]; [destruct Hin|];
           destruct (sendEmailNotification_sent env c m Hin)
             as [H1 [H2 H3]];
           rewrite H2; repeat split; assumption).
    split; [reflexivity|intros m []].
Qed.

(** X5. When ADMIN_EMAIL and RESEND_API_KEY are set and non-empty, every
    submission answered with 200 sends exactly one mail, whatever the mail
    service answers: to ADMIN_EMAIL, about the stored row, with subject
    "New <priority> Priority Complaint - <category>" built from that row. *)
Theorem stored_complaint_notified (w : World) (env : Notification.MailEnv)
  (s : store) (auth : option jstring) (ct : field jstring) (c : Complaint)
  (adminEmail resendApiKey : jstring) :
  Notification.ADMIN_EMAIL env = Some adminEmail -> adminEmail <> [] ->
  Notification.RESEND_API_KEY env = Some resendApiKey -> resendApiKey <> [] ->
  fst (handle w s (submission auth ct)) = ok c ->
  exists m,
    snd (Notification.handle w env s (submission auth ct)) = [m]
    /\ Notification.mail_about m = c
    /\ Notification.mail_to m = [adminEmail]
    /\ Notification.mail_subject m
       = lit "New "%string ++ priority c
         ++ lit " Priority Complaint - "%string ++ category c.
Proof.
  intros Ha Na Hk Nk. unfold Notification.handle, handle.
  cbn [method submission].
  fold (submission auth ct).
  pose proof (serve_without_mail w env s (submission auth ct)) as H.
  destruct (Notification.serve w env s (submission auth ct))
    as [e|[[r s'] sent]].
  - rewrite H. cbn. discriminate.
  - destruct H as [H Hsent]. rewrite H. cbn [fst snd]. intros ->.
    destruct Hsent as [[H4 _]|[c' [Hc [_ ->]]]].
    + discriminate H4.
    + injection Hc as <-.
      unfold Notification.sendEmailNotification. rewrite Ha, Hk.
      destruct adminEmail as [|x a]; [congruence|].
      destruct resendApiKey as [|y k]; [congruence|].
      cbn [truthy_string negb orb].
      match goal with
      | |- context [Notification.resend env ?mail] =>
          destruct (Notification.resend env mail) as [|st];
          [|destruct (negb (response_ok st))]
      end; eexists; repeat split.
Qed.

End NotificationProperties.

Section NotificationWitness.

Import ProcessComplaint.

Lemma stored_complaint_notified_witness :
  exists m,
    snd (Notification.handle Sample.offline
           {| Notification.ADMIN_EMAIL := Some (lit "admin@post.example"%string);
              Notification.RESEND_API_KEY := Some (lit "re_key"%string);
              Notification.resend := fun _ => Notification.mail_rejects |}
           Sample.table (submission None (Present Sample.text)))
    = [m]
    /\ Notification.mail_to m = [lit "admin@post.example"%string]
    /\ Notification.mail_subject m
       = lit "New Low Priority Complaint - Other"%string.
Proof.
  destruct (stored_complaint_notified Sample.offline
              {| Notification.ADMIN_EMAIL := Some (lit "admin@post.example"%string);
                 Notification.RESEND_API_KEY := Some (lit "re_key"%string);
                 Notification.resend := fun _ => Notification.mail_rejects |}
              Sample.table None (Present Sample.text)
              match payload (fst (handle Sample.offline Sample.table
                                        (submission None (Present Sample.text))))
              with
              | complaint_json c => c
              | _ => Sample.row 1%N None Pending None 0%Z
              end
              (lit "admin@post.example"%string) (lit "re_key"%string)
              eq_refl ltac:(discriminate) eq_refl ltac:(discriminate) eq_refl)
    as [m [H1 [H2 [H3 H4]]]].
  exists m. split; [exact H1|]. split; [exact H3|].
  rewrite H4. reflexivity.
Defined.

End NotificationWitness.

(* ================================================================== *)
(** ** The first generation, the forms, and the way to the list *)

Section IntakeClients.

Import ProcessComplaint.

Context {plan : Plan Complaint}.

(** X6. The first generation of process-complaint stores every non-blank
    submission whose text and whose labels from the endpoint are
    storable, whatever else the endpoint answers and whoever sends it:
    the answer is 200 and the row is anonymous, has score 0 and an empty
    explanation, status Pending, no feedback, and non-empty category,
    sentiment, priority and ai_response. *)
Theorem first_generation_always_stores (w : World) (s : store)
  (auth : option jstring) (text : jstring) :
  non_blank text ->
  storable text ->
  labels_fit w text ->
  exists c,
    ProcessComplaintV1.handle w s (submission auth (Present text))
    = (ok c, s ++ [c])
    /\ complaint_text c = text
    /\ category c <> [] /\ sentiment c <> []
    /\ priority c <> [] /\ ai_response c <> []
    /\ ai_confidence_score c = 0%Z
    /\ ai_explanation c = Some []
    /\ status c = Pending
    /\ feedback_helpful c = None
    /\ user_id c = None /\ user_email c = None.
Proof.
  intros Hnb Hst Hfit.
  unfold ProcessComplaintV1.handle. cbn [method submission].
  fold (submission auth (Present text)).
  destruct (@first_generation_outcome w s auth text Hnb)
    as [[c [Hs [H1 [H2 [H3 [H4 [H5 [H6 [H7 [H8 [H9 [H10 H11]]]]]]]]]]]]
       |[e [_ Hno]]].
  - exists c. rewrite Hs. split; [reflexivity|]. split; [exact H1|].
    assert (Hc : complete match getMLPredictions w text with
                          | Some p => p
                          | None => ProcessComplaintV1.getFallbackValues
                          end = true).
    { destruct (getMLPredictions w text) as [q|] eqn:Hq;
        [exact (@getMLPredictions_complete w text q Hq)|reflexivity]. }
    destruct (@complete_nonempty _ c Hc H2 H3 H4 H5) as [N1 [N2 [N3 N4]]].
    repeat split; assumption.
  - exfalso. apply Hno. split; [exact Hst|].
    exact (@first_generation_labels_fit w text Hfit).
Qed.

Lemma first_generation_always_stores_witness :
  exists c,
    ProcessComplaintV1.handle (Sample.online (Present Sample.half))
      Sample.table (submission None (Present Sample.text))
    = (ok c, Sample.table ++ [c])
    /\ complaint_text c = Sample.text
    /\ category c <> [] /\ sentiment c <> []
    /\ priority c <> [] /\ ai_response c <> []
    /\ ai_confidence_score c = 0%Z
    /\ ai_explanation c = Some []
    /\ status c = Pending
    /\ feedback_helpful c = None
    /\ user_id c = None /\ user_email c = None.
Proof.
  apply (first_generation_always_stores (Sample.online (Present Sample.half))
           Sample.table None Sample.text).
  - apply Exists_cons_hd. reflexivity.
  - reflexivity.
  - intros url st p Hu Hf. cbn [fetch Sample.online] in Hf.
    injection Hf as _ <-. repeat split; intros t [= <-]; reflexivity.
Defined.

(** The forms' test is the handler's. *)
Lemma blank_is_trim_empty (t : jstring) :
  blank (Present t) = negb (truthy_string (trim t)).
Proof.
  unfold blank. cbn [truthy_field].
  destruct t as [|c t]; [reflexivity|]. cbn [truthy_string negb orb].
  now destruct (trim (c :: t)).
Qed.

Lemma non_blank_answer (w : World) (s : store) (auth : option jstring)
  (text : jstring) :
  non_blank text ->
  status_code (fst (handle w s (submission auth (Present text)))) = 200%Z
  \/ status_code (fst (handle w s (submission auth (Present text)))) = 500%Z.
Proof.
  intros Hnb. unfold handle. cbn [method submission].
  fold (submission auth (Present text)).
  destruct (@serve_outcome w s auth text Hnb) as [[c [Hs _]]|[e [Hs _]]];
    rewrite Hs; [left|right]; reflexivity.
Qed.

(** X7. The submit forms and the function draw the same line: for a text
    that is empty or white space only, neither form sends anything (the
    public form shows "Please enter your complaint"); for any other text
    both send a POST carrying it, with the session token, the word
    "undefined" when there is no session, or the public key as bearer
    credential, and the function never answers such a request with 400. *)
Theorem forms_agree_with_intake (w : World) (s : store)
  (access_token : option jstring) (anon_key text : jstring) :
  (whitespace_only text ->
   UserDashboardForm.handleSubmitComplaint access_token text = None
   /\ ComplaintForm.handleSubmit anon_key text
      = inl (lit "Please enter your complaint"%string))
  /\ (non_blank text ->
      UserDashboardForm.handleSubmitComplaint access_token text
      = Some (submission
                (Some (Bearer ++ match access_token with
                                 | Some t => t
                                 | None => lit "undefined"%string
                                 end))
                (Present text))
      /\ ComplaintForm.handleSubmit anon_key text
         = inr (submission (Some (Bearer ++ anon_key)) (Present text))
      /\ forall auth,
           status_code (fst (handle w s (submission auth (Present text))))
           <> 400%Z).
Proof.
  unfold UserDashboardForm.handleSubmitComplaint, ComplaintForm.handleSubmit.
  rewrite <- blank_is_trim_empty. split.
  - intros Hw. now rewrite (blank_of_blank_text (blank_spaces Hw)).
  - intros Hnb. rewrite (@blank_of_non_blank text Hnb).
    repeat split. intros auth.
    destruct (non_blank_answer w s auth text Hnb) as [-> | ->]; discriminate.
Qed.

(** X8. From the form to the lists: what the user dashboard's form sends
    for a non-blank text with a session token the identity service
    resolves is stored, when every value fits its column, as a row of
    that user; the row is then in that user's own list, in no other
    user's list, and in the list manage-complaints answers any caller
    with. *)
Theorem submitted_complaint_listed (w : World) (s : store)
  (t text : jstring) (u : User) (clock : timestamptz)
  (a : option jstring) (b : option ManageComplaints.put_json) :
  non_blank text ->
  values_fit w (Some (Bearer ++ t)) text ->
  getUser w t = Some u ->
  exists req c,
    UserDashboardForm.handleSubmitComplaint (Some t) text = Some req
    /\ handle w s req = (ok c, s ++ [c])
    /\ In c (UserDashboard.fetchUserComplaints (user_uid u) (s ++ [c]))
    /\ (forall other,
          other <> user_uid u ->
          ~ In c (UserDashboard.fetchUserComplaints other (s ++ [c])))
    /\ exists l,
         fst (ManageComplaints.handle clock (s ++ [c]) (list_request a b))
         = {| status_code := 200; payload := complaints_json l |}
         /\ In c l.
Proof.
  intros Hnb Hfit Hu.
  destruct (@fitting_submission_stored w s (Some (Bearer ++ t)) text Hnb Hfit)
    as [c [H [_ [_ [_ [H1 _]]]]]].
  rewrite resolve_user_bearer, Hu in H1. cbn in H1.
  exists (submission (Some (Bearer ++ t)) (Present text)), c.
  split.
  { unfold UserDashboardForm.handleSubmitComplaint.
    rewrite <- blank_is_trim_empty.
    now rewrite (@blank_of_non_blank text Hnb). }
  split; [exact H|].
  assert (Hin : In c (s ++ [c])) by (apply in_or_app; right; now left).
  unfold UserDashboard.fetchUserComplaints.
  split; [|split].
  - rewrite In_order_created_at_desc, filter_In, In_select_authenticated,
      owned_by_iff. tauto.
  - intros other Hne.
    rewrite In_order_created_at_desc, filter_In, owned_by_iff.
    intros [_ Ho]. congruence.
  - eexists. split.
    + unfold ManageComplaints.handle, ManageComplaints.serve, list_request.
      cbn [method fst]. reflexivity.
    + rewrite In_order_created_at_desc, select_service_role. exact Hin.
Qed.

End IntakeClients.

Section IntakeClientsSample.

Import ProcessComplaint.

Local Existing Instance Sample.table_order.

Lemma submitted_complaint_listed_witness :
  exists req c,
    UserDashboardForm.handleSubmitComplaint (Some Sample.token) Sample.text
    = Some req
    /\ handle Sample.signed_in Sample.table req
       = (ok c, Sample.table ++ [c])
    /\ In c (UserDashboard.fetchUserComplaints Sample.alice
               (Sample.table ++ [c]))
    /\ ~ In c (UserDashboard.fetchUserComplaints Sample.bob
                 (Sample.table ++ [c])).
Proof.
  destruct (@submitted_complaint_listed Sample.table_order
              Sample.signed_in Sample.table Sample.token Sample.text
              {| user_uid := Sample.alice;
                 user_mail := Some (lit "alice@post.example"%string) |}
              0%Z None None)
    as [req [c [H1 [H2 [H3 [H4 _]]]]]].
  - apply Exists_cons_hd. reflexivity.
  - apply signed_in_fits.
  - reflexivity.
  - exists req, c. repeat split; try assumption.
    apply H4. discriminate.
Defined.

End IntakeClientsSample.

(* ================================================================== *)
(** ** More on manage-complaints *)

Section ManageMore.

Import ManageComplaints.

Context {plan : Plan Complaint}.

(** X9. A GET is answered with 200 and a rearrangement of the whole
    table, every row exactly once, newest created_at first; the table is
    left as it was. *)
Theorem list_is_whole_table_newest_first (clock : timestamptz) (s : store)
  (a : option jstring) (b : option put_json) :
  exists l,
    handle clock s (list_request a b)
    = ({| status_code := 200; payload := complaints_json l |}, s)
    /\ Permutation s l
    /\ newest_first l.
Proof.
  exists (order_created_at_desc s). split; [|split].
  - unfold handle, serve, list_request. cbn [method].
    now rewrite select_service_role.
  - apply order_created_at_desc_perm.
  - apply order_created_at_desc_sorted.
Qed.

(** X10. A PUT whose id names no complaint is answered with 500 (the
    no-row error of .single()), not with a not-found status, and the
    table is left as it was. *)
Theorem update_unknown_complaint (clock : timestamptz) (s : store)
  (auth : option jstring) (target : uuid) (st : field jstring)
  (fb : field bool) :
  ~ In target (map id s) ->
  handle clock s (update_request auth target st fb)
  = ({| status_code := 500;
        payload := error_json (thrown (pg_error not_singular)) |}, s).
Proof.
  intros H. unfold handle, serve, update_request. cbn [method json put_id].
  now rewrite (@update_single_missing service_role target _ s H).
Qed.

(** X11. manage-complaints writes only when it answers a PUT with 200:
    a request of any other method, and any request answered with another
    status (400 for a missing id, 405, 500), leaves the table as it was;
    and no request adds, removes or reorders rows. *)
Theorem manage_writes_only_on_success (clock : timestamptz) (s : store)
  (req : Request put_json) :
  (method req <> PUT -> snd (handle clock s req) = s)
  /\ (status_code (fst (handle clock s req)) <> 200%Z ->
      snd (handle clock s req) = s)
  /\ map id (snd (handle clock s req)) = map id s.
Proof.
  split; [|split].
  - unfold handle, serve. destruct (method req); try reflexivity.
    intros H. now contradiction H.
  - unfold handle, serve. destruct (method req); try reflexivity.
    destruct (json req) as [j|]; [|reflexivity].
    destruct (put_id j) as [| |target]; try reflexivity.
    destruct (update_single service_role target (updateData clock j) s)
      as [e|[data s']]; [reflexivity|].
    cbn. intros H. now contradiction H.
  - destruct (handle_table clock s req) as [->|[t [j [_ ->]]]];
      [reflexivity|].
    now apply map_id_rewrite_row.
Qed.

Lemma apply_update_twice (t1 t2 : timestamptz) (target : uuid)
  (st1 st2 : field jstring) (fb1 fb2 : field bool) (c : Complaint) :
  apply_update
    (updateData t2 {| put_id := id_uuid target;
                      put_status := st2;
                      put_feedback_helpful := fb2 |})
    (apply_update
       (updateData t1 {| put_id := id_uuid target;
                         put_status := st1;
                         put_feedback_helpful := fb1 |}) c)
  = apply_update
      (updateData t2 {| put_id := id_uuid target;
                        put_status := later_status st1 st2;
                        put_feedback_helpful := later_feedback fb1 fb2 |}) c.
Proof.
  unfold apply_update, updateData, later_status, later_feedback.
  cbn. f_equal.
  - destruct st2 as [| |x]; try reflexivity.
    destruct (truthy_string x) eqn:Hx; [now rewrite Hx|reflexivity].
  - destruct fb2; reflexivity.
Qed.

Lemma storable_later_status (st1 st2 : field jstring) :
  storable_field st1 -> storable_field st2 ->
  storable_field (later_status st1 st2).
Proof.
  intros H1 H2. unfold later_status.
  destruct st2 as [| |x]; try exact H1.
  destruct (truthy_string x); assumption.
Qed.

(** X12. Two PUTs in a row for the same existing complaint, with statuses
    the text column stores, amount to one PUT at the second clock reading
    whose status is the second's when that is a non-empty string and else
    the first's, and whose feedback is the second's when the key is
    present (null included) and else the first's: same answer, same
    table. *)
Theorem successive_updates_merge (t1 t2 : timestamptz) (s : store)
  (a1 a2 : option jstring) (c : Complaint)
  (st1 st2 : field jstring) (fb1 fb2 : field bool) :
  unique_ids s -> In c s ->
  storable_field st1 -> storable_field st2 ->
  handle t2 (snd (handle t1 s (update_request a1 (id c) st1 fb1)))
    (update_request a2 (id c) st2 fb2)
  = handle t2 s
      (update_request a2 (id c)
         (later_status st1 st2) (later_feedback fb1 fb2)).
Proof.
  intros Hu Hin Hs1 Hs2.
  rewrite (@put_existing _ t1 s a1 c st1 fb1 Hu Hin Hs1). cbn [snd].
  set (u1 := updateData t1 {| put_id := id_uuid (id c);
                              put_status := st1;
                              put_feedback_helpful := fb1 |}).
  assert (Hu1 : unique_ids (rewrite_row (id c) (apply_update u1) s)).
  { unfold unique_ids. rewrite map_id_rewrite_row; [exact Hu|reflexivity]. }
  assert (Hin1 : In (apply_update u1 c)
                   (rewrite_row (id c) (apply_update u1) s)).
  { now apply In_rewrite_row. }
  pose proof (@put_existing _ t2 _ a2 _ st2 fb2 Hu1 Hin1 Hs2) as H2.
  cbn [id apply_update] in H2. rewrite H2.
  rewrite (@put_existing _ t2 s a2 c (later_status st1 st2)
             (later_feedback fb1 fb2) Hu Hin
             (storable_later_status st1 st2 Hs1 Hs2)).
  unfold u1. rewrite apply_update_twice. f_equal.
  rewrite rewrite_row_twice by reflexivity.
  unfold rewrite_row. apply map_ext. intros d.
  destruct (id d =? id c)%N; [|reflexivity].
  apply apply_update_twice.
Qed.

End ManageMore.

Section ManageMoreSamples.

Import ManageComplaints.

Local Existing Instance Sample.table_order.

Lemma update_unknown_complaint_witness :
  ~ In 9%N (map id Sample.table)
  /\ handle 400%Z Sample.table
       (update_request None 9%N (Present Resolved) Undefined)
     = ({| status_code := 500;
           payload := error_json (thrown (pg_error not_singular)) |},
        Sample.table).
Proof.
  assert (H : ~ In 9%N (map id Sample.table)).
  { simpl. intuition discriminate. }
  split; [exact H|].
  exact (@update_unknown_complaint Sample.table_order 400%Z Sample.table
           None 9%N (Present Resolved) Undefined H).
Defined.

Lemma successive_updates_merge_witness :
  unique_ids Sample.table
  /\ In (Sample.row 1%N (Some Sample.alice) Pending None 100%Z) Sample.table
  /\ handle 500%Z
       (snd (handle 400%Z Sample.table
               (update_request None 1%N (Present Resolved) Undefined)))
       (update_request None 1%N (Present []) (Present false))
     = handle 500%Z Sample.table
         (update_request None 1%N (Present Resolved) (Present false)).
Proof.
  assert (Hu : unique_ids Sample.table).
  { unfold unique_ids. simpl. repeat constructor; simpl; intuition discriminate. }
  assert (Hin : In (Sample.row 1%N (Some Sample.alice) Pending None 100%Z)
                  Sample.table).
  { left. reflexivity. }
  split; [exact Hu|]. split; [exact Hin|].
  apply (@successive_updates_merge Sample.table_order 400%Z 500%Z
           Sample.table None None
           (Sample.row 1%N (Some Sample.alice) Pending None 100%Z)
           (Present Resolved) (Present []) Undefined (Present false) Hu Hin).
  - intros t Ht. injection Ht as <-. reflexivity.
  - intros t Ht. injection Ht as <-. reflexivity.
Defined.

End ManageMoreSamples.

(* ================================================================== *)
(** ** Tables reachable through both functions *)

Section SystemInvariants.

Context {plan : Plan Complaint}.

Lemma frozen_refl (c : Complaint) : frozen c c.
Proof. unfold frozen. repeat split. Qed.

Lemma frozen_trans (a b c : Complaint) : frozen a b -> frozen b c -> frozen a c.
Proof.
  unfold frozen. intros Hab Hbc.
  repeat match goal with H : _ /\ _ |- _ => destruct H end.
  repeat split; congruence.
Qed.

Lemma frozen_apply_update (u : update_values) (c : Complaint) :
  frozen c (apply_update u c).
Proof. unfold frozen. repeat split. Qed.

Lemma Forall2_frozen_refl (s : store) : Forall2 frozen s s.
Proof. induction s; constructor; auto using frozen_refl. Qed.

Lemma Forall2_frozen_trans (s1 s2 s3 : store) :
  Forall2 frozen s1 s2 -> Forall2 frozen s2 s3 -> Forall2 frozen s1 s3.
Proof.
  intros H. revert s3. induction H as [|a b l1 l2 Hab _ IH]; intros s3 H3.
  - inversion H3. constructor.
  - inversion H3; subst. constructor; eauto using frozen_trans.
Qed.

Lemma Forall2_frozen_rewrite_row (target : uuid) (u : update_values)
  (s : store) :
  Forall2 frozen s (rewrite_row target (apply_update u) s).
Proof.
  unfold rewrite_row. induction s as [|c s IH]; simpl; constructor; auto.
  destruct (id c =? target)%N;
    auto using frozen_refl, frozen_apply_update.
Qed.

(** One request keeps the rows it found, in place, and may add one. *)
Lemma step_keeps (s : store) (r : System.request) :
  exists kept added,
    System.step s r = kept ++ added /\ Forall2 frozen s kept.
Proof.
  destruct r as [w req|clock req]; simpl.
  - destruct (handle_appends w s req) as [->|[c [v [_ ->]]]].
    + exists s, []. rewrite app_nil_r. auto using Forall2_frozen_refl.
    + exists s, [c]. auto using Forall2_frozen_refl.
  - destruct (handle_table clock s req) as [->|[t [j [_ ->]]]].
    + exists s, []. rewrite app_nil_r. auto using Forall2_frozen_refl.
    + eexists _, []. rewrite app_nil_r. split; [reflexivity|].
      apply Forall2_frozen_rewrite_row.
Qed.

(** X13. Over any sequence of requests to process-complaint and
    manage-complaints, in any order, no complaint is deleted or moved and
    none has its id, text, category, sentiment, priority, ai_response,
    score, explanation, user_id, user_email or created_at changed: the
    table after is the rows it had, in place and equal in those columns,
    followed by the rows added since. *)
Theorem rows_kept_and_frozen (rs : list System.request) (s : store) :
  exists kept added,
    System.serve_all s rs = kept ++ added /\ Forall2 frozen s kept.
Proof.
  revert s. induction rs as [|r rs IH]; intros s.
  - exists s, []. rewrite app_nil_r. auto using Forall2_frozen_refl.
  - destruct (step_keeps s r) as [k1 [a1 [E1 F1]]].
    destruct (IH (System.step s r)) as [k2 [a2 [E2 F2]]].
    rewrite E1 in F2. apply Forall2_app_inv_l in F2.
    destruct F2 as [k2a [k2b [Fa [Fb ->]]]].
    exists k2a, (k2b ++ a2). split.
    + change (System.serve_all s (r :: rs))
        with (System.serve_all (System.step s r) rs).
      rewrite E2. now rewrite app_assoc.
    + eapply Forall2_frozen_trans; eassumption.
Qed.

Lemma well_formed_apply_update (clock : timestamptz)
  (j : ManageComplaints.put_json) (c : Complaint) :
  well_formed c ->
  well_formed (apply_update (ManageComplaints.updateData clock j) c).
Proof.
  unfold well_formed. intros [H1 [H2 [H3 [H4 [H5 H6]]]]].
  repeat split; try assumption.
  cbn [apply_update status ManageComplaints.updateData uv_status].
  destruct (ManageComplaints.put_status j) as [| |st]; try assumption.
  destruct st as [|x st]; [assumption|discriminate].
Qed.

Lemma step_invariant (s : store) (r : System.request) :
  unique_ids s /\ Forall well_formed s ->
  unique_ids (System.step s r) /\ Forall well_formed (System.step s r).
Proof.
  intros [Hu Hw]. destruct r as [w req|clock req]; simpl.
  - split; [now apply submission_unique_ids|].
    destruct (handle_stores w s req) as [[-> _]|[c [-> [Hc _]]]];
      [exact Hw|].
    cbn [snd]. apply Forall_app. split; [exact Hw|now constructor].
  - split; [now apply handle_unique_ids|].
    destruct (handle_table clock s req) as [->|[t [j [_ ->]]]]; [exact Hw|].
    unfold rewrite_row. rewrite Forall_map.
    eapply Forall_impl; [|exact Hw]. intros c Hc.
    destruct (id c =? t)%N; [now apply well_formed_apply_update|exact Hc].
Qed.

Lemma serve_all_invariant (rs : list System.request) (s : store) :
  unique_ids s /\ Forall well_formed s ->
  unique_ids (System.serve_all s rs)
  /\ Forall well_formed (System.serve_all s rs).
Proof.
  revert s. induction rs as [|r rs IH]; intros s H; simpl; [exact H|].
  apply IH. now apply step_invariant.
Qed.

(** X14. Every table the two functions can build from an empty one, by
    any sequence of requests, has pairwise distinct ids and only rows
    with a non-blank complaint_text and non-empty category, sentiment,
    priority, ai_response and status. *)
Theorem reachable_tables_well_formed (rs : list System.request) :
  unique_ids (System.serve_all [] rs)
  /\ Forall well_formed (System.serve_all [] rs).
Proof.
  apply serve_all_invariant. split; constructor.
Qed.

End SystemInvariants.

(* ================================================================== *)
(** ** More on the row-level policies *)

Section PoliciesMore.

Context {plan : Plan Complaint}.

Lemma select_anon (s : store) : Schema.select anon s = s.
Proof.
  unfold Schema.select. induction s as [|c t IH]; simpl; congruence.
Qed.

Lemma existsb_targeted_anon (target : uuid) (s : store) :
  existsb (targeted anon target) s = false.
Proof.
  induction s as [|c t IH]; [reflexivity|].
  simpl. unfold targeted at 1. now rewrite andb_false_r.
Qed.

Lemma update_anon (target : uuid) (u : update_values) (s : store) :
  update_error anon target u s = None
  /\ Schema.update anon target u s = ([], s).
Proof.
  assert (N : update_error anon target u s = None).
  { unfold update_error. now rewrite existsb_targeted_anon. }
  split; [exact N|]. unfold Schema.update. rewrite N. clear N.
  assert (H : forall c, targeted anon target c = false).
  { intros c. unfold targeted. apply andb_false_r. }
  induction s as [|c t IH]; [reflexivity|].
  simpl. rewrite H. injection IH as E1 E2. now rewrite E1, E2.
Qed.

(** X15. With the public key alone (role anon) the whole table can be
    read, newest first, but no row can be updated: a direct update,
    whatever row it names and whatever it carries, writes nothing and
    leaves the table as it was, and a caller that asks for the single
    written row is told there is none. *)
Theorem anonymous_reads_all_updates_none (s : store) (clock : timestamptz)
  (target : uuid) (st : jstring) (u : update_values) :
  Permutation s (NewAdminDashboard.fetchComplaints anon s)
  /\ newest_first (NewAdminDashboard.fetchComplaints anon s)
  /\ Schema.update anon target u s = ([], s)
  /\ update_single anon target u s = inl not_singular
  /\ NewAdminDashboard.updateComplaintStatus anon clock target st s = s.
Proof.
  unfold NewAdminDashboard.fetchComplaints,
    NewAdminDashboard.updateComplaintStatus.
  rewrite select_anon.
  split; [apply order_created_at_desc_perm|].
  split; [apply order_created_at_desc_sorted|].
  split; [apply update_anon|].
  split.
  - unfold update_single.
    destruct (update_anon target u s) as [-> ->]. reflexivity.
  - match goal with
    | |- context [Schema.update anon target ?v s] =>
        destruct (update_anon target v s) as [_ ->]
    end.
    reflexivity.
Qed.

(** X16. A signed-in user's direct status update on a complaint of their
    own writes exactly that row when the text column stores the status
    given (an empty string too): its status becomes that string and its
    updated_at the browser's clock reading; every other column and every
    other row is left as it was.  A status the column refuses writes
    nothing. *)
Theorem owner_updates_own_row (user : uuid) (clock : timestamptz)
  (c : Complaint) (st : jstring) (s : store) :
  unique_ids s -> In c s -> user_id c = Some user ->
  (storable st ->
   NewAdminDashboard.updateComplaintStatus (authenticated user) clock
     (id c) st s
   = rewrite_row (id c) (set_status st clock) s)
  /\ (~ storable st ->
      NewAdminDashboard.updateComplaintStatus (authenticated user) clock
        (id c) st s
      = s).
Proof.
  intros Hu Hin Ho. unfold NewAdminDashboard.updateComplaintStatus. split.
  - intros Hst. unfold Schema.update.
    rewrite update_error_storable
      by (cbn [uv_status]; intros x Hx; now replace x with st by congruence).
    unfold rewrite_row. cbn [snd].
    apply map_ext_in. intros d Hd. unfold targeted. cbn [update_policy].
    destruct (N.eqb_spec (id d) (id c)) as [E|E]; [|reflexivity].
    assert (d = c).
    { pose proof (@filter_id_unique s c Hu Hin) as F.
      assert (Hf : In d (filter (fun x => (id x =? id c)%N) s)).
      { apply filter_In. split; [exact Hd|]. now apply N.eqb_eq. }
      rewrite F in Hf. destruct Hf as [<-|[]]. reflexivity. }
    subst d. apply owned_by_iff in Ho. rewrite Ho. reflexivity.
  - intros Hno. unfold Schema.update, update_error.
    replace (existsb (targeted (authenticated user) (id c)) s) with true.
    + cbn [uv_status]. unfold storable in Hno.
      destruct (text_error st); [reflexivity|now contradiction Hno].
    + symmetry. apply existsb_exists. exists c. split; [exact Hin|].
      unfold targeted. cbn [update_policy]. rewrite N.eqb_refl.
      now apply owned_by_iff.
Qed.

Lemma owner_updates_own_row_witness :
  NewAdminDashboard.updateComplaintStatus (authenticated Sample.alice)
    400%Z 1%N Resolved Sample.table
  = rewrite_row 1%N (set_status Resolved 400%Z) Sample.table
  /\ NewAdminDashboard.updateComplaintStatus (authenticated Sample.alice)
       400%Z 1%N Sample.lost_parcel Sample.table
     = Sample.table.
Proof.
  assert (Hu : unique_ids Sample.table).
  { unfold unique_ids. simpl. repeat constructor; simpl; intuition discriminate. }
  assert (Hin : In (Sample.row 1%N (Some Sample.alice) Pending None 100%Z)
                  Sample.table).
  { left. reflexivity. }
  split.
  - apply (proj1 (owner_updates_own_row Sample.alice 400%Z
                    (Sample.row 1%N (Some Sample.alice) Pending None 100%Z)
                    Resolved Sample.table Hu Hin eq_refl)).
    reflexivity.
  - apply (proj2 (owner_updates_own_row Sample.alice 400%Z
                    (Sample.row 1%N (Some Sample.alice) Pending None 100%Z)
                    Sample.lost_parcel Sample.table Hu Hin eq_refl)).
    discriminate.
Defined.

End PoliciesMore.

(* ================================================================== *)
(** ** The dashboards *)

Section DashboardProperties.

Import ManageComplaints.

Context {plan : Plan Complaint}.

Lemma jstring_eqb_eq (a b : jstring) : jstring_eqb a b = true <-> a = b.
Proof.
  unfold jstring_eqb. destruct (list_eq_dec N.eq_dec a b); split;
    congruence.
Qed.

Lemma filter_length_le {A} (f : A -> bool) (l : list A) :
  List.length (filter f l) <= List.length l.
Proof.
  induction l as [|x l IH]; simpl; [lia|].
  destruct (f x); simpl; lia.
Qed.

Lemma status_counts (l : list Complaint) :
  List.length (filter (fun c => jstring_eqb (status c) Pending) l)
  + List.length (filter (fun c => jstring_eqb (status c) Resolved) l)
  <= List.length l
  /\ (List.length (filter (fun c => jstring_eqb (status c) Pending) l)
      + List.length (filter (fun c => jstring_eqb (status c) Resolved) l)
      = List.length l
      <-> Forall (fun c => status c = Pending \/ status c = Resolved) l).
Proof.
  induction l as [|c l [IHle IHiff]].
  - split; [reflexivity|]. split; [constructor|reflexivity].
  - cbn [filter].
    destruct (jstring_eqb (status c) Pending) eqn:Hp;
      destruct (jstring_eqb (status c) Resolved) eqn:Hr;
      cbn [List.length].
    + apply jstring_eqb_eq in Hp, Hr. rewrite Hp in Hr. discriminate.
    + apply jstring_eqb_eq in Hp. split; [lia|]. split.
      * intros E. constructor; [now left|]. apply IHiff. lia.
      * intros F. inversion F; subst.
        match goal with H : Forall _ l |- _ => apply IHiff in H end. lia.
    + apply jstring_eqb_eq in Hr. split; [lia|]. split.
      * intros E. constructor; [now right|]. apply IHiff. lia.
      * intros F. inversion F; subst.
        match goal with H : Forall _ l |- _ => apply IHiff in H end. lia.
    + split; [lia|]. split; [lia|].
      intros F. inversion F as [|x l' [H|H] _]; subst;
        apply jstring_eqb_eq in H; congruence.
Qed.

(** X17. The dashboards' counters: pending and resolved together never
    exceed total, and add up to it exactly when every listed complaint
    has status "Pending" or "Resolved" (compared exactly, case included);
    highPriority never exceeds total. *)
Theorem stats_add_up (complaints : list Complaint) :
  Dashboards.pending (Dashboards.stats complaints)
  + Dashboards.resolved (Dashboards.stats complaints)
  <= Dashboards.total (Dashboards.stats complaints)
  /\ (Dashboards.pending (Dashboards.stats complaints)
      + Dashboards.resolved (Dashboards.stats complaints)
      = Dashboards.total (Dashboards.stats complaints)
      <-> Forall (fun c => status c = Pending \/ status c = Resolved)
            complaints)
  /\ Dashboards.highPriority (Dashboards.stats complaints)
     <= Dashboards.total (Dashboards.stats complaints).
Proof.
  unfold Dashboards.stats. cbn [Dashboards.pending Dashboards.resolved
    Dashboards.total Dashboards.highPriority].
  destruct (status_counts complaints) as [H1 H2].
  split; [exact H1|]. split; [exact H2|apply filter_length_le].
Qed.

(** X18. The satisfaction rate divides the count of complaints rated
    helpful by the count of rated complaints, or by 1 when none is rated:
    the divisor is never zero and the dividend never exceeds it. *)
Theorem satisfaction_rate_bounded (complaints : list Complaint) :
  1 <= snd (Dashboards.satisfactionRate_counts complaints)
  /\ fst (Dashboards.satisfactionRate_counts complaints)
     <= snd (Dashboards.satisfactionRate_counts complaints)
  /\ (Forall (fun c => feedback_helpful c = None) complaints ->
      Dashboards.satisfactionRate_counts complaints = (0, 1)).
Proof.
  unfold Dashboards.satisfactionRate_counts. cbn [fst snd].
  split; [lia|]. split.
  - assert (H : List.length
                  (filter (fun c => match feedback_helpful c with
                                    | Some true => true
                                    | _ => false
                                    end) complaints)
                <= List.length
                     (filter (fun c => match feedback_helpful c with
                                       | Some _ => true
                                       | None => false
                                       end) complaints)).
    { induction complaints as [|c l IH]; [reflexivity|].
      cbn [filter]. destruct (feedback_helpful c) as [[|]|];
        cbn [List.length]; lia. }
    lia.
  - intros H. induction H as [|c l Hc _ IH]; [reflexivity|].
    cbn [filter]. rewrite Hc. exact IH.
Qed.

Lemma fetchComplaints_lists (key : jstring) (clock : timestamptz)
  (s : store) (shown : list Complaint) :
  AdminDashboard.fetchComplaints key clock s shown = order_created_at_desc s.
Proof.
  unfold AdminDashboard.fetchComplaints, handle, serve.
  cbn. now rewrite select_service_role.
Qed.

(** Two arrangements of the same numbers, both in descending order, are
    the same list. *)
Lemma descending_unique (k1 k2 : list Z) :
  StronglySorted (fun a b => (b <= a)%Z) k1 ->
  StronglySorted (fun a b => (b <= a)%Z) k2 ->
  Permutation k1 k2 -> k1 = k2.
Proof.
  intros H1. revert k2. induction H1 as [|a l1 Hl1 IH Ha]; intros k2 H2 P.
  - apply Permutation_nil in P. now subst.
  - destruct H2 as [|b l2 Hl2 Hb].
    + symmetry in P. apply Permutation_nil in P. discriminate.
    + assert (E : a = b).
      { assert (Ia : In a (b :: l2))
          by (apply (Permutation_in a P); now left).
        assert (Ib : In b (a :: l1))
          by (apply (Permutation_in b (Permutation_sym P)); now left).
        rewrite Forall_forall in Ha, Hb.
        destruct Ia as [Ia|Ia]; [congruence|].
        destruct Ib as [Ib|Ib]; [congruence|].
        specialize (Ha b Ib). specialize (Hb a Ia). lia. }
      subst b. f_equal. apply IH; [exact Hl2|].
      exact (Permutation_cons_inv P).
Qed.

Lemma newest_first_created_at (l : list Complaint) :
  newest_first l ->
  StronglySorted (fun a b => (b <= a)%Z) (map created_at l).
Proof.
  unfold newest_first. induction 1 as [|c l Hl IH Hc]; simpl; constructor.
  - exact IH.
  - rewrite Forall_map. exact Hc.
Qed.

(** Rows in the same positions of two lists with the same created_at
    column are related when rows with equal created_at are. *)
Lemma Forall2_by_created_at (R : Complaint -> Complaint -> Prop)
  (l1 l2 : list Complaint) :
  map created_at l1 = map created_at l2 ->
  (forall a b, In a l1 -> In b l2 -> created_at a = created_at b -> R a b) ->
  Forall2 R l1 l2.
Proof.
  revert l2. induction l1 as [|a l1 IH]; intros [|b l2] E H;
    try discriminate; constructor.
  - apply H; [now left|now left|]. now injection E.
  - apply IH; [now injection E|].
    intros x y Hx Hy. apply H; now right.
Qed.

Lemma created_at_names_row (s : store) (a b : Complaint) :
  distinct_created_at s -> In a s -> In b s ->
  created_at a = created_at b -> a = b.
Proof.
  unfold distinct_created_at. induction s as [|c s IH]; simpl; [tauto|].
  intros Hd Ha Hb E. inversion Hd as [|x l Hx Hl]; subst.
  destruct Ha as [<-|Ha], Hb as [<-|Hb]; [reflexivity| | |now apply IH].
  - exfalso. apply Hx. rewrite E. now apply in_map.
  - exfalso. apply Hx. rewrite <- E. now apply in_map.
Qed.

(** Where no two complaints share a created_at, a list fetched after the
    rows were rewritten in columns other than created_at agrees, position
    by position, with the list fetched before. *)
Lemma fetch_after_rewrite (R : Complaint -> Complaint -> Prop)
  (F G : Complaint -> Complaint) (s : store) :
  distinct_created_at s ->
  (forall d, created_at (F d) = created_at d) ->
  (forall d, created_at (G d) = created_at d) ->
  (forall d, R (F d) (G d)) ->
  Forall2 R (order_created_at_desc (map F s))
    (map G (order_created_at_desc s)).
Proof.
  intros Hd HF HG HR. apply Forall2_by_created_at.
  - apply descending_unique.
    + apply newest_first_created_at, order_created_at_desc_sorted.
    + rewrite map_map. rewrite (map_ext _ created_at HG).
      apply newest_first_created_at, order_created_at_desc_sorted.
    + rewrite <- (order_created_at_desc_perm (map F s)).
      rewrite !map_map. rewrite (map_ext _ created_at HF).
      rewrite (map_ext _ created_at HG).
      apply Permutation_map, order_created_at_desc_perm.
  - intros a b Ha Hb E.
    apply (proj1 (In_order_created_at_desc _ _)) in Ha.
    apply in_map_iff in Ha. destruct Ha as [d [<- Hd1]].
    apply in_map_iff in Hb. destruct Hb as [d' [<- Hd2]].
    apply (proj1 (In_order_created_at_desc _ _)) in Hd2.
    rewrite HF, HG in E.
    rewrite (created_at_names_row s d d' Hd Hd1 Hd2 E). apply HR.
Qed.

Lemma local_status_agrees (key : jstring)
  (t1 t2 t3 : timestamptz) (s : store) (shown shown' : list Complaint)
  (c : Complaint) (st : jstring) :
  unique_ids s -> distinct_created_at s -> In c s ->
  st <> [] -> storable st ->
  Forall2 same_but_updated_at
    (AdminDashboard.fetchComplaints key t3
       (snd (AdminDashboard.updateComplaintStatus key t2 s
               (AdminDashboard.fetchComplaints key t1 s shown) (id c) st))
       shown')
    (fst (AdminDashboard.updateComplaintStatus key t2 s
            (AdminDashboard.fetchComplaints key t1 s shown) (id c) st)).
Proof.
  intros Hu Hd Hin Hne Hst. rewrite !fetchComplaints_lists.
  unfold AdminDashboard.updateComplaintStatus.
  pose proof (@put_existing _ t2 s (Some (ProcessComplaint.Bearer ++ key)) c
                (Present st) Undefined Hu Hin
                (@storable_field_present st Hst)) as H.
  unfold update_request in H. rewrite H. cbn [fst snd ok status_code].
  change (negb (ProcessComplaint.response_ok 200)) with false. cbv iota.
  cbn [fst snd]. unfold rewrite_row.
  apply fetch_after_rewrite; [exact Hd| | |];
    intros d; destruct (id d =? id c)%N; try reflexivity.
  - unfold same_but_updated_at, frozen. cbn.
    destruct st as [|x st]; [congruence|]. repeat split.
  - unfold same_but_updated_at, frozen. repeat split.
Qed.

Lemma local_feedback_agrees (key : jstring)
  (t1 t2 t3 : timestamptz) (s : store) (shown shown' : list Complaint)
  (c : Complaint) (helpful : bool) :
  unique_ids s -> distinct_created_at s -> In c s ->
  Forall2 same_but_updated_at
    (AdminDashboard.fetchComplaints key t3
       (snd (AdminDashboard.updateFeedback key t2 s
               (AdminDashboard.fetchComplaints key t1 s shown) (id c) helpful))
       shown')
    (fst (AdminDashboard.updateFeedback key t2 s
            (AdminDashboard.fetchComplaints key t1 s shown) (id c) helpful)).
Proof.
  intros Hu Hd Hin. rewrite !fetchComplaints_lists.
  unfold AdminDashboard.updateFeedback.
  pose proof (@put_existing _ t2 s (Some (ProcessComplaint.Bearer ++ key)) c
                Undefined (Present helpful) Hu Hin
                storable_field_absent) as H.
  unfold update_request in H. rewrite H. cbn [fst snd ok status_code].
  change (negb (ProcessComplaint.response_ok 200)) with false. cbv iota.
  cbn [fst snd]. unfold rewrite_row.
  apply fetch_after_rewrite; [exact Hd| | |];
    intros d; destruct (id d =? id c)%N; try reflexivity;
    unfold same_but_updated_at, frozen; repeat split.
Qed.

(** X19. The first admin dashboard edits its list in place after a PUT
    was answered ok instead of fetching again.  On a table in which no
    two complaints share a created_at, for an existing complaint, after a
    status change to a non-empty status the text column stores or after a
    feedback answer (true or false), the list it shows agrees with what a
    new fetch would return, row by row and in the same order, in every
    column but updated_at, in whatever order the database scans the
    table. *)
Theorem local_edits_agree_with_table (key : jstring)
  (t1 t2 t3 : timestamptz) (s : store) (shown shown' : list Complaint)
  (c : Complaint) (st : jstring) (helpful : bool) :
  unique_ids s -> distinct_created_at s -> In c s ->
  st <> [] -> storable st ->
  Forall2 same_but_updated_at
    (AdminDashboard.fetchComplaints key t3
       (snd (AdminDashboard.updateComplaintStatus key t2 s
               (AdminDashboard.fetchComplaints key t1 s shown) (id c) st))
       shown')
    (fst (AdminDashboard.updateComplaintStatus key t2 s
            (AdminDashboard.fetchComplaints key t1 s shown) (id c) st))
  /\ Forall2 same_but_updated_at
       (AdminDashboard.fetchComplaints key t3
          (snd (AdminDashboard.updateFeedback key t2 s
                  (AdminDashboard.fetchComplaints key t1 s shown) (id c)
                  helpful))
          shown')
       (fst (AdminDashboard.updateFeedback key t2 s
               (AdminDashboard.fetchComplaints key t1 s shown) (id c)
               helpful)).
Proof.
  intros Hu Hd Hin Hne Hst. split.
  - now apply local_status_agrees.
  - now apply local_feedback_agrees.
Qed.

(** The same dashboard after a PUT that fails: list and table are kept. *)
Lemma local_list_kept_on_failure (key : jstring) (clock : timestamptz)
  (s : store) (complaints : list Complaint) (target : uuid) (st : jstring) :
  ~ In target (map id s) ->
  AdminDashboard.updateComplaintStatus key clock s complaints target st
  = (complaints, s).
Proof.
  intros H. unfold AdminDashboard.updateComplaintStatus, handle, serve.
  cbn [method json put_id].
  now rewrite (@update_single_missing service_role target _ s H).
Qed.

End DashboardProperties.

Section DashboardSamples.

Local Existing Instance Sample.table_order.

Lemma local_edits_agree_with_table_witness :
  unique_ids Sample.table
  /\ distinct_created_at Sample.table
  /\ In (Sample.row 2%N (Some Sample.bob) Pending None 200%Z) Sample.table
  /\ Forall2 same_but_updated_at
       (AdminDashboard.fetchComplaints Sample.token 600%Z
          (snd (AdminDashboard.updateComplaintStatus Sample.token 500%Z
                  Sample.table
                  (AdminDashboard.fetchComplaints Sample.token 400%Z
                     Sample.table [])
                  2%N Resolved))
          [])
       (fst (AdminDashboard.updateComplaintStatus Sample.token 500%Z
               Sample.table
               (AdminDashboard.fetchComplaints Sample.token 400%Z
                  Sample.table [])
               2%N Resolved)).
Proof.
  assert (Hu : unique_ids Sample.table).
  { unfold unique_ids. simpl. repeat constructor; simpl; intuition discriminate. }
  assert (Hd : distinct_created_at Sample.table).
  { unfold distinct_created_at. simpl.
    repeat constructor; simpl; intuition discriminate. }
  assert (Hin : In (Sample.row 2%N (Some Sample.bob) Pending None 200%Z)
                  Sample.table).
  { right. left. reflexivity. }
  split; [exact Hu|]. split; [exact Hd|]. split; [exact Hin|].
  apply (@local_edits_agree_with_table Sample.table_order Sample.token
           400%Z 500%Z 600%Z Sample.table [] []
           (Sample.row 2%N (Some Sample.bob) Pending None 200%Z)
           Resolved true Hu Hd Hin).
  - discriminate.
  - reflexivity.
Defined.

End DashboardSamples.

Section TiedRows.

Local Existing Instance Sample.rewritten_last.

(** Why the agreement asks for distinct created_at.  Three complaints
    were submitted at the same instant, and the database reads rewritten
    rows last: the dashboard resolves the first complaint and keeps it
    first in its list, while a new fetch lists it last. *)
Lemma tied_rows_listed_anew :
  map id (AdminDashboard.fetchComplaints Sample.token 400%Z Sample.tied [])
  = [1%N; 2%N; 3%N]
  /\ map id
       (fst (AdminDashboard.updateComplaintStatus Sample.token 500%Z
               Sample.tied
               (AdminDashboard.fetchComplaints Sample.token 400%Z
                  Sample.tied [])
               1%N Resolved))
     = [1%N; 2%N; 3%N]
  /\ map id
       (AdminDashboard.fetchComplaints Sample.token 600%Z
          (snd (AdminDashboard.updateComplaintStatus Sample.token 500%Z
                  Sample.tied
                  (AdminDashboard.fetchComplaints Sample.token 400%Z
                     Sample.tied [])
                  1%N Resolved))
          [])
     = [2%N; 3%N; 1%N].
Proof. repeat split. Qed.

End TiedRows.

(* ================================================================== *)
(** ** Routing *)

Section Routing.

(** X20. The admin dashboard is rendered exactly when the path is
    "/admin" to the letter, nothing is loading, a user is signed in and
    that user is an admin; before the admin restriction any signed-in user
    reached it.  No path other than "/admin" ever renders it. *)
Theorem admin_dashboard_gate (a : App.AuthState) (currentPath : jstring) :
  (App.Router a currentPath = App.admin_dashboard
   <-> currentPath = lit "/admin"%string
       /\ App.loading a = false /\ App.checkingAdmin a = false
       /\ App.user a <> None /\ App.isAdmin a = true)
  /\ (AppV1.Router a currentPath = App.admin_dashboard
      <-> currentPath = lit "/admin"%string
          /\ App.loading a = false /\ App.user a <> None).
Proof.
  unfold App.Router, AppV1.Router, App.ProtectedRoute, AppV1.ProtectedRoute.
  destruct (jstring_eqb currentPath (lit "/admin"%string)) eqn:Hp.
  - apply jstring_eqb_eq in Hp.
    destruct (App.loading a), (App.checkingAdmin a), (App.user a),
      (App.isAdmin a); cbn; split; split;
      try (intros; discriminate); try (intros [_ [? [? [? ?]]]]; congruence);
      try (intros [_ [? ?]]; congruence);
      intros _; repeat split; try assumption; discriminate.
  - assert (Hne : currentPath <> lit "/admin"%string).
    { intros E. apply jstring_eqb_eq in E. congruence. }
    destruct (App.loading a), (App.checkingAdmin a), (App.user a),
      (App.isAdmin a); cbn; split; split;
      try (intros; discriminate); intros [? _]; contradiction.
Qed.

End Routing.

(* ================================================================== *)
(** ** complaint-messages *)

Section Messages.

Import ManageComplaints ComplaintMessages.

Context {plan : Plan Message}.

Lemma In_insert_asc (m x : Message) (l : list Message) :
  In x (insert_asc m l) <-> x = m \/ In x l.
Proof.
  induction l as [|d t IH]; simpl.
  - intuition congruence.
  - destruct (message_created_at m <=? message_created_at d)%Z; simpl.
    + intuition congruence.
    + rewrite IH. intuition congruence.
Qed.

Lemma In_order_created_at_asc (x : Message) (l : list Message) :
  In x (order_created_at_asc l) <-> In x l.
Proof.
  unfold order_created_at_asc.
  transitivity (In x (scan l)).
  - induction (scan l) as [|c t IH]; simpl; [reflexivity|].
    rewrite In_insert_asc, IH. intuition congruence.
  - split; apply Permutation_in; [symmetry|]; apply scan_Permutation.
Qed.

Lemma insert_asc_sorted (m : Message) (l : list Message) :
  oldest_first l -> oldest_first (insert_asc m l).
Proof.
  unfold oldest_first.
  induction 1 as [|d t Ht IH Hd]; simpl.
  - repeat constructor.
  - destruct (message_created_at m <=? message_created_at d)%Z eqn:E.
    + apply Z.leb_le in E. constructor; [now constructor|].
      constructor; [exact E|].
      rewrite Forall_forall in *. intros y Hy. specialize (Hd y Hy). lia.
    + apply Z.leb_gt in E. constructor; [exact IH|].
      rewrite Forall_forall in *. intros y Hy.
      apply In_insert_asc in Hy. destruct Hy as [->|Hy]; [lia|auto].
Qed.

Lemma order_created_at_asc_sorted (l : list Message) :
  oldest_first (order_created_at_asc l).
Proof.
  unfold order_created_at_asc.
  induction (scan l) as [|c t IH]; simpl; [constructor|].
  now apply insert_asc_sorted.
Qed.

(** X21. A GET with a complaint_id is answered with 200 and exactly the
    messages of that complaint, oldest first; messages of other
    complaints are never included, and the messages are left as they
    were.  Without a complaint_id the answer is 400. *)
Theorem thread_of_complaint (now : timestamptz) (complaints : store)
  (t : thread) (cid : uuid) (b : option post_json) :
  (exists l,
     handle now complaints t
       {| msg_method := GET; query_complaint_id := id_uuid cid; msg_json := b |}
     = ({| reply_status := 200; reply_payload := messages_json l |}, t)
     /\ (forall m, In m l <-> In m t /\ complaint_id m = cid)
     /\ oldest_first l)
  /\ handle now complaints t
       {| msg_method := GET; query_complaint_id := id_falsy; msg_json := b |}
     = ({| reply_status := 400;
           reply_payload := refused (lit "complaint_id is required"%string) |},
        t).
Proof.
  split; [|reflexivity].
  eexists. split; [reflexivity|]. split.
  - intros m. rewrite In_order_created_at_asc, filter_In, N.eqb_eq.
    reflexivity.
  - apply order_created_at_asc_sorted.
Qed.

(** What one request does to the messages. *)
Lemma handle_message (now : timestamptz) (complaints : store) (t : thread)
  (req : MessageRequest) :
  snd (handle now complaints t req) = t
  \/ exists m,
       handle now complaints t req
       = ({| reply_status := 200; reply_payload := message_json m |}, t ++ [m])
       /\ valid_message complaints m
       /\ msg_method req = POST.
Proof.
  unfold handle, serve.
  destruct (msg_method req) eqn:Hm; try (left; reflexivity).
  - destruct (query_complaint_id req); left; reflexivity.
  - destruct (msg_json req) as [j|]; [|left; reflexivity].
    destruct (post_complaint_id j) as [| |cid];
      destruct (post_message_text j) as [| |text];
      destruct (post_sender_role j) as [| |role];
      try (left; reflexivity).
    + destruct (negb (truthy_string text) || negb (truthy_string role));
        [left; reflexivity|].
      destruct (negb (jstring_eqb role role_user)
                && negb (jstring_eqb role role_admin));
        left; reflexivity.
    + destruct (truthy_string text) eqn:Ht; [|left; reflexivity].
      destruct (truthy_string role) eqn:Hr; [|left; reflexivity].
      cbn [negb orb].
      destruct (jstring_eqb role role_user) eqn:Eu;
        destruct (jstring_eqb role role_admin) eqn:Ea; cbn [negb andb];
        try (left; reflexivity);
        unfold insert_message;
        (destruct (existsb (fun c => (id c =? cid)%N) complaints) eqn:Ex;
         cbn [negb]; [|left; reflexivity]);
        rewrite ?Eu, ?Ea; cbn [negb orb];
        right; eexists; (split; [reflexivity|]);
        (split; [|reflexivity]);
        unfold valid_message; cbn [sender_role message_text complaint_id];
        (split; [|split]);
        try (destruct text; [discriminate Ht|discriminate]);
        try (apply existsb_exists in Ex; destruct Ex as [c [Hc Hid]];
             apply N.eqb_eq in Hid; rewrite <- Hid; now apply in_map).
      * left. now apply jstring_eqb_eq.
      * left. now apply jstring_eqb_eq.
      * right. now apply jstring_eqb_eq.
Qed.

(** X22. Over any run of requests to complaint-messages, the messages
    already stored are kept as they are and in place (there is no edit
    and no delete), and every message added has sender_role "user" or
    "admin", a non-empty text, and the id of an existing complaint. *)
Theorem messages_append_only_and_valid (complaints : store)
  (reqs : list (timestamptz * MessageRequest)) (t : thread) :
  exists added,
    run complaints t reqs = t ++ added
    /\ Forall (valid_message complaints) added.
Proof.
  revert t. induction reqs as [|[now req] rest IH]; intros t; simpl.
  - exists []. now rewrite app_nil_r.
  - destruct (handle_message now complaints t req) as [->|[m [-> [Hv _]]]].
    + apply IH.
    + cbn [snd]. destruct (IH (t ++ [m])) as [added [E F]].
      exists (m :: added). rewrite E, <- app_assoc. split; [reflexivity|].
      now constructor.
Qed.

(** X23. What a POST is refused for: a sender_role that is neither
    "user" nor "admin" is answered with 400, and a well-formed message
    for a complaint that does not exist with 500 (the foreign key); in
    both cases nothing is stored. *)
Theorem message_refusals (now : timestamptz) (complaints : store)
  (t : thread) (cid : uuid) (text role : jstring) :
  text <> [] -> role <> [] ->
  (role <> role_user -> role <> role_admin ->
   handle now complaints t
     {| msg_method := POST; query_complaint_id := id_falsy;
        msg_json := Some {| post_complaint_id := id_uuid cid;
                            post_message_text := Present text;
                            post_sender_role := Present role |} |}
   = ({| reply_status := 400;
         reply_payload :=
           refused (lit "sender_role must be 'user' or 'admin'"%string) |}, t))
  /\ (role = role_user \/ role = role_admin ->
      ~ In cid (map id complaints) ->
      handle now complaints t
        {| msg_method := POST; query_complaint_id := id_falsy;
           msg_json := Some {| post_complaint_id := id_uuid cid;
                               post_message_text := Present text;
                               post_sender_role := Present role |} |}
      = ({| reply_status := 500;
            reply_payload := failed foreign_key_violation |}, t)).
Proof.
  intros Ht Hr. unfold handle, serve.
  cbn [msg_method msg_json post_complaint_id post_message_text
       post_sender_role].
  destruct text as [|x text]; [congruence|].
  destruct role as [|y role]; [congruence|].
  cbn [truthy_string negb orb]. split.
  - intros Hu Ha.
    destruct (jstring_eqb (y :: role) role_user) eqn:Eu;
      [apply jstring_eqb_eq in Eu; congruence|].
    destruct (jstring_eqb (y :: role) role_admin) eqn:Ea;
      [apply jstring_eqb_eq in Ea; congruence|].
    reflexivity.
  - intros Hrole Hcid.
    assert (Hv : negb (jstring_eqb (y :: role) role_user)
                 && negb (jstring_eqb (y :: role) role_admin) = false).
    { destruct Hrole as [-> | ->]; reflexivity. }
    rewrite Hv. unfold insert_message.
    assert (Ex : existsb (fun c => (id c =? cid)%N) complaints = false).
    { destruct (existsb _ complaints) eqn:Ex; [|reflexivity].
      apply existsb_exists in Ex. destruct Ex as [c [Hc Hid]].
      apply N.eqb_eq in Hid. exfalso. apply Hcid. rewrite <- Hid.
      now apply in_map. }
    now rewrite Ex.
Qed.

End Messages.

Section MessagesSample.

Import ManageComplaints ComplaintMessages.

Local Existing Instance Sample.table_order.

Lemma message_refusals_witness :
  handle 400%Z Sample.table []
    {| msg_method := POST; query_complaint_id := id_falsy;
       msg_json := Some {| post_complaint_id := id_uuid 9%N;
                           post_message_text := Present (lit "Any news?"%string);
                           post_sender_role := Present role_user |} |}
  = ({| reply_status := 500; reply_payload := failed foreign_key_violation |},
     []).
Proof.
  apply (proj2 (@message_refusals Sample.table_order 400%Z Sample.table [] 9%N
                  (lit "Any news?"%string) role_user
                  ltac:(discriminate) ltac:(discriminate))).
  - left. reflexivity.
  - simpl. intuition discriminate.
Defined.

End MessagesSample.
